(** * web_AR: session and object-placement state machines of the AR viewers

    The repository holds three revisions of one React component that places
    a 3D object into an immersive-AR session:

    - [ARViewer]   : src/components/ARViewer.tsx (hooks, refs, useCallback);
    - [ARViewer1]  : the single-effect ARViewer, whose scene lives in the
                     closure of one effect (local [objectPlaced] flag);
    - [ARShoeApp]  : the hit-testing variant built on ARButton.

    Each module embeds the handlers of one revision as functions on an
    explicit world: React state, the objects reachable from the refs or
    from the effect closure, the platform handles, and the log of calls
    made into three.js, the DOM and the console, in execution order.

    A JavaScript closure that reads a React state variable sees the value
    of the render that created it.  Such captured values are explicit
    arguments of the embedded handlers, and a registered listener stores
    the value it captured.

    JavaScript numbers are modelled as exact rationals: the code only
    copies them, divides the two window dimensions and adds the constant
    0.01; the rounding of IEEE-754 arithmetic is not modelled.

    three.js is not part of the repository.  Of its behaviour the
    embedding uses: [Object3D.add] detaches a node before it pushes it;
    [EventDispatcher.addEventListener] ignores a listener that is already
    registered; [WebGLRenderer.setSize] does nothing while the renderer
    presents a session; [xr.setSession] stores the session before its
    first await and starts presenting when it has completed; the end of
    the session clears both. *)

From Stdlib Require Import ZArith QArith List Bool String Arith Lia Lqa.
Import ListNotations.
Local Open Scope string_scope.
Local Open Scope Q_scope.
Local Open Scope list_scope.

(** ** The part of three.js and of the platform the components call *)

Module THREE.

Definition number := Q.

Record Vector3 := mkVector3 { v_x : number; v_y : number; v_z : number }.
Record Euler := mkEuler { e_x : number; e_y : number; e_z : number }.

(** Of a [Matrix4] the components read only the translation column
    (elements 12, 13, 14), through [setFromMatrixPosition]. *)
Record Matrix4 := mkMatrix4 { translation : Vector3 }.

Definition setFromMatrixPosition (m : Matrix4) : Vector3 := translation m.

Definition origin : Vector3 := mkVector3 0 0 0.
Definition noRotation : Euler := mkEuler 0 0 0.
Definition identity : Matrix4 := mkMatrix4 origin.

(** Identity of the nodes that the components put into the scene graph. *)
Inductive Node := DirectionalLight | AmbientLight | PlacedObject | Controller.

Definition Node_eq_dec (a b : Node) : {a = b} + {a <> b}.
Proof. decide equality. Defined.

(** [Scene.children].  [Object3D.add] detaches the node from its parent
    before it pushes it, so a node is never listed twice. *)
Definition Scene := list Node.

Definition add (scene : Scene) (o : Node) : Scene :=
  remove Node_eq_dec o scene ++ [o].

(** A perspective camera; [projectionAspect] is the aspect ratio the
    projection matrix was last computed from. *)
Record PerspectiveCamera := mkCamera
  { fov : number; aspect : number; near : number; far : number;
    projectionAspect : number }.

Definition newPerspectiveCamera (fov aspect near far : number) : PerspectiveCamera :=
  mkCamera fov aspect near far aspect.

Definition set_aspect (a : number) (c : PerspectiveCamera) : PerspectiveCamera :=
  mkCamera (fov c) a (near c) (far c) (projectionAspect c).

Definition updateProjectionMatrix (c : PerspectiveCamera) : PerspectiveCamera :=
  mkCamera (fov c) (aspect c) (near c) (far c) (aspect c).

End THREE.

Import THREE.

(** How a promise settles. *)
Inductive Settled (A : Type) :=
| Resolved (value : A)
| Rejected (error : string).
Arguments Resolved {A} value.
Arguments Rejected {A} error.

(** Calls into three.js, the DOM, the platform and the console that the
    properties below count or order.  [renderer_render d] is one draw;
    [d] tells whether the renderer had been disposed when it was issued. *)
Inductive Call :=
| scene_add (o : Node)
| position_set (p : Vector3)
| renderer_render (onDisposed : bool)
| renderer_dispose
| geometry_dispose
| material_dispose
| removeChild_domElement
| removeEventListener_resize
| setAnimationLoop_null
| session_end
| xr_requestSession
| xr_isSessionSupported
| console_error (message : string) (error : string).

Definition is_scene_add (o : Node) (c : Call) : bool :=
  match c with
  | scene_add o' => if Node_eq_dec o o' then true else false
  | _ => false
  end.

Definition is_position_set (c : Call) : bool :=
  match c with position_set _ => true | _ => false end.

Definition is_render (c : Call) : bool :=
  match c with renderer_render _ => true | _ => false end.

Definition is_render_onDisposed (c : Call) : bool :=
  match c with renderer_render true => true | _ => false end.

Definition is_console_error (c : Call) : bool :=
  match c with console_error _ _ => true | _ => false end.

Definition is_requestSession (c : Call) : bool :=
  match c with xr_requestSession => true | _ => false end.

Definition count (f : Call -> bool) (cs : list Call) : nat :=
  List.length (filter f cs).

(** The teardown order the specification asks for: when the drawing
    surface is released (the renderer disposed, or its canvas taken out
    of the document), the frame callback has been deregistered and the
    end of the session requested.  [loopOff] and [sessionOff] tell
    whether that has happened before the calls in [cs]; [sessionOff]
    starts as true when there is no session to end. *)
Fixpoint released_after_deregistration
    (loopOff sessionOff : bool) (cs : list Call) : bool :=
  match cs with
  | [] => true
  | setAnimationLoop_null :: cs' =>
      released_after_deregistration true sessionOff cs'
  | session_end :: cs' =>
      released_after_deregistration loopOff true cs'
  | renderer_dispose :: cs' | removeChild_domElement :: cs' =>
      loopOff && sessionOff && released_after_deregistration loopOff sessionOff cs'
  | _ :: cs' => released_after_deregistration loopOff sessionOff cs'
  end.

(** What the component renders over the canvas container. *)
Inductive Element := UnsupportedBanner | StartButton | PlaceHint.

Definition Element_eq_dec (a b : Element) : {a = b} + {a <> b}.
Proof. decide equality. Defined.

Definition shows (e : Element) (ui : list Element) : bool :=
  if in_dec Element_eq_dec e ui then true else false.

Definition when (b : bool) (e : Element) : list Element :=
  if b then [e] else [].

(** The browser window, as far as the components read it. *)
Record Window := mkWindow
  { innerWidth : number; innerHeight : number; devicePixelRatio : number }.

(** ** src/components/ARViewer.tsx *)

Module ARViewer.

(** [ARViewerProps]; an absent option is [None]. *)
Record ARViewerProps := mkProps
  { modelPath : option string;
    objectColor : option string;
    objectSize : option number }.

(** The defaults of the destructuring pattern of the component. *)
Definition objectColor_of (props : ARViewerProps) : string :=
  match objectColor props with Some c => c | None => "#00ff00" end.

Definition objectSize_of (props : ARViewerProps) : number :=
  match objectSize props with Some s => s | None => 0.1 end.

Definition with_modelPath (m : option string) (props : ARViewerProps)
    : ARViewerProps :=
  mkProps m (objectColor props) (objectSize props).

(** The three [useState] cells. *)
Record State := mkState
  { isARSupported : bool; isARSessionActive : bool; isObjectPlaced : bool }.

(** The mesh of [initializeScene]: a box of edge [boxSize] with a Phong
    material of colour [color]. *)
Record Mesh := mkMesh
  { boxSize : number; color : string; position : Vector3; rotation : Euler }.

(** The controller group.  A registered select listener is a
    [handleSelect] closure, that is, the [isObjectPlaced] it captured. *)
Record Group := mkGroup
  { matrixWorld : Matrix4; select_listeners : list bool }.

(** The renderer.  A registered frame callback is the [isObjectPlaced]
    captured by [startAnimationLoop].  [xr_session] tells whether
    [xr.getSession()] returns a session, [xr_isPresenting] is
    [xr.isPresenting], true from the moment [xr.setSession] has completed
    until the session ends.  [xr_controller0] tells that
    [getController(0)] of this renderer has been handed out; the only
    call site stores the result in [controllerRef] at once. *)
Record WebGLRenderer := mkRenderer
  { size : number * number;
    pixelRatio : number;
    inDocument : bool;
    disposed : bool;
    animationLoop : option bool;
    xr_enabled : bool;
    xr_referenceSpaceType : option string;
    xr_session : bool;
    xr_controller0 : bool;
    xr_isPresenting : bool }.

Record Refs := mkRefs
  { containerRef : bool;
    sceneRef : option Scene;
    cameraRef : option PerspectiveCamera;
    rendererRef : option WebGLRenderer;
    objectRef : option Mesh;
    controllerRef : option Group }.

(** The host side: whether the component is mounted, the window, whether
    [navigator] has the key [xr], whether the capability query is
    pending, the live session (with the flag that the component's end
    listener is registered on it), whether the window has the resize
    listener, and whether the last run of the main effect got a cleanup
    closure from [initializeScene]. *)
Record Host := mkHost
  { mounted : bool;
    window : Window;
    navigator_xr : bool;
    probe_pending : bool;
    session : option bool;
    resizeListener : bool;
    sceneCleanup : bool }.

Record World := mkWorld
  { state : State; refs : Refs; host : Host; calls : list Call }.

(** *** Field updates *)

Definition with_state (s : State) (w : World) : World :=
  mkWorld s (refs w) (host w) (calls w).
Definition with_refs (r : Refs) (w : World) : World :=
  mkWorld (state w) r (host w) (calls w).
Definition with_host (h : Host) (w : World) : World :=
  mkWorld (state w) (refs w) h (calls w).
Definition log (c : Call) (w : World) : World :=
  mkWorld (state w) (refs w) (host w) (calls w ++ [c]).

Definition setIsARSupported (b : bool) (w : World) : World :=
  with_state (mkState b (isARSessionActive (state w)) (isObjectPlaced (state w))) w.
Definition setIsARSessionActive (b : bool) (w : World) : World :=
  with_state (mkState (isARSupported (state w)) b (isObjectPlaced (state w))) w.
Definition setIsObjectPlaced (b : bool) (w : World) : World :=
  with_state (mkState (isARSupported (state w)) (isARSessionActive (state w)) b) w.

Definition set_containerRef (b : bool) (w : World) : World :=
  let r := refs w in
  with_refs (mkRefs b (sceneRef r) (cameraRef r) (rendererRef r)
                    (objectRef r) (controllerRef r)) w.
Definition set_sceneRef (s : option Scene) (w : World) : World :=
  let r := refs w in
  with_refs (mkRefs (containerRef r) s (cameraRef r) (rendererRef r)
                    (objectRef r) (controllerRef r)) w.
Definition set_cameraRef (c : option PerspectiveCamera) (w : World) : World :=
  let r := refs w in
  with_refs (mkRefs (containerRef r) (sceneRef r) c (rendererRef r)
                    (objectRef r) (controllerRef r)) w.
Definition set_rendererRef (x : option WebGLRenderer) (w : World) : World :=
  let r := refs w in
  with_refs (mkRefs (containerRef r) (sceneRef r) (cameraRef r) x
                    (objectRef r) (controllerRef r)) w.
Definition set_objectRef (o : option Mesh) (w : World) : World :=
  let r := refs w in
  with_refs (mkRefs (containerRef r) (sceneRef r) (cameraRef r) (rendererRef r)
                    o (controllerRef r)) w.
Definition set_controllerRef (g : option Group) (w : World) : World :=
  let r := refs w in
  with_refs (mkRefs (containerRef r) (sceneRef r) (cameraRef r) (rendererRef r)
                    (objectRef r) g) w.

Definition set_mounted (b : bool) (w : World) : World :=
  let h := host w in
  with_host (mkHost b (window h) (navigator_xr h) (probe_pending h)
                    (session h) (resizeListener h) (sceneCleanup h)) w.
Definition set_window (win : Window) (w : World) : World :=
  let h := host w in
  with_host (mkHost (mounted h) win (navigator_xr h) (probe_pending h)
                    (session h) (resizeListener h) (sceneCleanup h)) w.
Definition set_probe_pending (b : bool) (w : World) : World :=
  let h := host w in
  with_host (mkHost (mounted h) (window h) (navigator_xr h) b
                    (session h) (resizeListener h) (sceneCleanup h)) w.
Definition set_session (s : option bool) (w : World) : World :=
  let h := host w in
  with_host (mkHost (mounted h) (window h) (navigator_xr h) (probe_pending h)
                    s (resizeListener h) (sceneCleanup h)) w.
Definition set_resizeListener (b : bool) (w : World) : World :=
  let h := host w in
  with_host (mkHost (mounted h) (window h) (navigator_xr h) (probe_pending h)
                    (session h) b (sceneCleanup h)) w.
Definition set_sceneCleanup (b : bool) (w : World) : World :=
  let h := host w in
  with_host (mkHost (mounted h) (window h) (navigator_xr h) (probe_pending h)
                    (session h) (resizeListener h) b) w.

Definition set_position (p : Vector3) (o : Mesh) : Mesh :=
  mkMesh (boxSize o) (color o) p (rotation o).
Definition set_rotation (e : Euler) (o : Mesh) : Mesh :=
  mkMesh (boxSize o) (color o) (position o) e.

(** [WebGLRenderer.setSize].  While the renderer presents a session
    three.js leaves the size as it is (it only warns on the console). *)
Definition set_size (s : number * number) (r : WebGLRenderer) : WebGLRenderer :=
  if xr_isPresenting r then r
  else
    mkRenderer s (pixelRatio r) (inDocument r) (disposed r) (animationLoop r)
               (xr_enabled r) (xr_referenceSpaceType r) (xr_session r)
               (xr_controller0 r) (xr_isPresenting r).
Definition set_inDocument (b : bool) (r : WebGLRenderer) : WebGLRenderer :=
  mkRenderer (size r) (pixelRatio r) b (disposed r) (animationLoop r)
             (xr_enabled r) (xr_referenceSpaceType r) (xr_session r)
             (xr_controller0 r) (xr_isPresenting r).
Definition set_disposed (b : bool) (r : WebGLRenderer) : WebGLRenderer :=
  mkRenderer (size r) (pixelRatio r) (inDocument r) b (animationLoop r)
             (xr_enabled r) (xr_referenceSpaceType r) (xr_session r)
             (xr_controller0 r) (xr_isPresenting r).
Definition setAnimationLoop (cb : option bool) (r : WebGLRenderer) : WebGLRenderer :=
  mkRenderer (size r) (pixelRatio r) (inDocument r) (disposed r) cb
             (xr_enabled r) (xr_referenceSpaceType r) (xr_session r)
             (xr_controller0 r) (xr_isPresenting r).
Definition set_xr (enabled : bool) (space : option string) (sess ctl : bool)
    (r : WebGLRenderer) : WebGLRenderer :=
  mkRenderer (size r) (pixelRatio r) (inDocument r) (disposed r) (animationLoop r)
             enabled space sess ctl (xr_isPresenting r).
Definition set_isPresenting (b : bool) (r : WebGLRenderer) : WebGLRenderer :=
  mkRenderer (size r) (pixelRatio r) (inDocument r) (disposed r) (animationLoop r)
             (xr_enabled r) (xr_referenceSpaceType r) (xr_session r)
             (xr_controller0 r) b.

(** *** The closures of the component *)

(** [initializeScene] (lines 35-83).  It returns early, without a
    cleanup closure, when the container ref is empty.  The second
    component of the result tells whether a cleanup closure is
    returned. *)
Definition initializeScene (props : ARViewerProps) (w : World) : World * bool :=
  if containerRef (refs w) then
    let win := window (host w) in
    let camera :=
      newPerspectiveCamera 70 (innerWidth win / innerHeight win) 0.01 20 in
    let renderer :=
      mkRenderer (innerWidth win, innerHeight win) (devicePixelRatio win)
                 true false None false None false false false in
    let object :=
      mkMesh (objectSize_of props) (objectColor_of props) origin noRotation in
    let scene := add (add [] DirectionalLight) AmbientLight in
    let w := log (scene_add DirectionalLight) w in
    let w := log (scene_add AmbientLight) w in
    let w := set_sceneRef (Some scene) w in
    let w := set_cameraRef (Some camera) w in
    let w := set_rendererRef (Some renderer) w in
    let w := set_objectRef (Some object) w in
    (w, true)
  else (w, false).

(** The cleanup closure returned by [initializeScene] (lines 77-82).
    Its [renderer] is the object stored in [rendererRef] by the same
    call; nothing else assigns that ref. *)
Definition initializeScene_cleanup (w : World) : World :=
  let dispose r := set_disposed true r in
  let w := set_rendererRef (option_map dispose (rendererRef (refs w))) w in
  let w := log renderer_dispose w in
  let w := log geometry_dispose w in
  let w := log material_dispose w in
  if containerRef (refs w) then
    let detach r := set_inDocument false r in
    log removeChild_domElement
        (set_rendererRef (option_map detach (rendererRef (refs w))) w)
  else w.

(** [handleSelect] (lines 86-99), a closure over [isObjectPlaced]. *)
Definition handleSelect (isObjectPlaced : bool) (w : World) : World :=
  match negb isObjectPlaced,
        objectRef (refs w), controllerRef (refs w), sceneRef (refs w) with
  | true, Some object, Some controller, Some scene =>
      let w := set_sceneRef (Some (add scene PlacedObject)) w in
      let w := log (scene_add PlacedObject) w in
      let p := setFromMatrixPosition (matrixWorld controller) in
      let w := set_objectRef (Some (set_position p object)) w in
      let w := log (position_set p) w in
      setIsObjectPlaced true w
  | _, _, _, _ => w
  end.

(** The listener of the session's "end" event (lines 125-128). *)
Definition onSessionEnd (w : World) : World :=
  setIsObjectPlaced false (setIsARSessionActive false w).

(** The [catch] block of [startARSession] (lines 129-132). *)
Definition startARSession_catch (error : string) (w : World) : World :=
  setIsARSessionActive false
    (log (console_error "Error starting AR session:" error) w).

(** [renderer.xr.getController(0)]: the controller of this renderer,
    created on first use. *)
Definition getController0 (renderer : WebGLRenderer) (w : World) : Group :=
  if xr_controller0 renderer then
    match controllerRef (refs w) with
    | Some g => g
    | None => mkGroup identity []
    end
  else mkGroup identity [].

(** [EventDispatcher.addEventListener] ignores a listener that is
    already registered; [useCallback] hands out the same [handleSelect]
    for as long as [isObjectPlaced] keeps its value. *)
Definition addEventListener_select (h : bool) (g : Group) : Group :=
  if existsb (Bool.eqb h) (select_listeners g) then g
  else mkGroup (matrixWorld g) (select_listeners g ++ [h]).

(** [startARSession] (lines 102-133), a closure over the [handleSelect]
    of its render.  [request] is how [requestSession] settles and
    [setSession] how [renderer.xr.setSession] settles; the two awaits
    are taken in one step.  When [navigator.xr] is missing the optional
    chain yields [undefined] without any request.  [xr.setSession]
    stores the session before its first await, so [xr.getSession()]
    returns it also when the promise rejects; the renderer presents
    only once the promise has resolved. *)
Definition startARSession (handleSelect_isObjectPlaced : bool)
    (request : Settled unit) (setSession : Settled unit) (w : World) : World :=
  let requested : World * Settled bool :=
    if navigator_xr (host w) then
      (log xr_requestSession w,
       match request with
       | Resolved _ => Resolved true
       | Rejected e => Rejected e
       end)
    else (w, Resolved false) in
  let (w, awaited) := requested in
  match awaited with
  | Rejected error => startARSession_catch error w
  | Resolved hasSession =>
      let w := if hasSession then set_session (Some false) w else w in
      match rendererRef (refs w) with
      | None => w
      | Some renderer =>
          let renderer :=
            set_xr true (Some "local") hasSession
                   (xr_controller0 renderer) renderer in
          let w := set_rendererRef (Some renderer) w in
          match setSession with
          | Rejected error => startARSession_catch error w
          | Resolved _ =>
              let renderer := set_isPresenting hasSession renderer in
              let controller :=
                addEventListener_select handleSelect_isObjectPlaced
                  (getController0 renderer w) in
              let renderer :=
                set_xr true (Some "local") hasSession true renderer in
              let w := set_rendererRef (Some renderer) w in
              let w :=
                match sceneRef (refs w) with
                | Some scene =>
                    log (scene_add Controller)
                        (set_sceneRef (Some (add scene Controller)) w)
                | None => w
                end in
              let w := set_controllerRef (Some controller) w in
              let w := setIsARSessionActive true w in
              if hasSession then set_session (Some true) w
              else startARSession_catch "TypeError" w
          end
      end
  end.

(** [startAnimationLoop] (lines 136-150), a closure over
    [isObjectPlaced]; the frame callback it registers keeps that value. *)
Definition startAnimationLoop (isObjectPlaced : bool) (w : World) : World :=
  match rendererRef (refs w) with
  | None => w
  | Some renderer =>
      set_rendererRef (Some (setAnimationLoop (Some isObjectPlaced) renderer)) w
  end.

Definition spin (o : Mesh) : Mesh :=
  let r := rotation o in
  set_rotation (mkEuler (e_x r + 0.01) (e_y r + 0.01) (e_z r)) o.

(** The frame callback (lines 140-149), registered on [renderer]. *)
Definition animationLoopCallback (isObjectPlaced : bool)
    (renderer : WebGLRenderer) (w : World) : World :=
  let w :=
    match isObjectPlaced, objectRef (refs w) with
    | true, Some object => set_objectRef (Some (spin object)) w
    | _, _ => w
    end in
  match sceneRef (refs w), cameraRef (refs w) with
  | Some _, Some _ => log (renderer_render (disposed renderer)) w
  | _, _ => w
  end.

(** [handleResize] (lines 153-163). *)
Definition handleResize (w : World) : World :=
  match containerRef (refs w), cameraRef (refs w), rendererRef (refs w) with
  | true, Some camera, Some renderer =>
      let win := window (host w) in
      let camera :=
        updateProjectionMatrix
          (set_aspect (innerWidth win / innerHeight win) camera) in
      let renderer := set_size (innerWidth win, innerHeight win) renderer in
      set_rendererRef (Some renderer) (set_cameraRef (Some camera) w)
  | _, _, _ => w
  end.

(** The capability probe (lines 166-176): the effect with no
    dependencies, and the two callbacks of the query's promise. *)
Definition checkARSupport (w : World) : World :=
  if negb (navigator_xr (host w)) then setIsARSupported false w
  else set_probe_pending true (log xr_isSessionSupported w).

Definition checkARSupport_settled (r : Settled bool) (w : World) : World :=
  if probe_pending (host w) then
    let w := set_probe_pending false w in
    match r with
    | Resolved supported => setIsARSupported supported w
    | Rejected _ => setIsARSupported false w
    end
  else w.

(** The main effect (lines 179-190) and its cleanup (lines 184-189),
    closures over [startAnimationLoop] and [handleResize] of the render
    that schedules them. *)
Definition mainEffect (props : ARViewerProps) (w : World) : World :=
  let (w, cleanup) := initializeScene props w in
  let w := set_sceneCleanup cleanup w in
  let w := startAnimationLoop (isObjectPlaced (state w)) w in
  set_resizeListener true w.

Definition mainEffect_cleanup (w : World) : World :=
  let w := if sceneCleanup (host w) then initializeScene_cleanup w else w in
  let w := log removeEventListener_resize (set_resizeListener false w) in
  match rendererRef (refs w) with
  | None => w
  | Some renderer =>
      let w := set_rendererRef (Some (setAnimationLoop None renderer)) w in
      let w := log setAnimationLoop_null w in
      if xr_session renderer then log session_end w else w
  end.

(** The JSX of lines 192-217. *)
Definition render (s : State) : list Element :=
  when (negb (isARSupported s)) UnsupportedBanner
  ++ when (negb (isARSessionActive s) && isARSupported s) StartButton
  ++ when (isARSessionActive s && negb (isObjectPlaced s)) PlaceHint.

(** *** The component as a transition system *)

(** The world of the first render: the [useState] and [useRef]
    initialisers (lines 23-32), on a given window and platform. *)
Definition initial (win : Window) (navigator_has_xr : bool) : World :=
  mkWorld (mkState true false false)
          (mkRefs false None None None None None)
          (mkHost false win navigator_has_xr false None false false)
          [].

(** Mounting: React attaches the container ref, then runs the two
    effects in source order. *)
Definition mount (props : ARViewerProps) (w : World) : World :=
  let w := set_mounted true (set_containerRef true w) in
  mainEffect props (checkARSupport w).

(** What the platform, the user and React deliver afterwards.  A select
    event comes with the controller's world matrix of that moment;
    [unmount] tells whether the container ref is still attached when the
    cleanup runs (this depends on the React version). *)
Inductive Event :=
| probe_settled (r : Settled bool)
| click_start (request : Settled unit) (setSession : Settled unit)
| select (m : Matrix4)
| session_ended
| frame
| resize (win : Window)
| unmount (containerAttached : bool).

(** When the session ends, three.js forgets it and stops presenting. *)
Definition clear_xr_session (r : WebGLRenderer) : WebGLRenderer :=
  set_isPresenting false
    (set_xr (xr_enabled r) (xr_referenceSpaceType r) false (xr_controller0 r) r).

Definition dispatch (w : World) (e : Event) : World :=
  match e with
  | probe_settled r => checkARSupport_settled r w
  | click_start request setSession =>
      if mounted (host w) && shows StartButton (render (state w)) then
        startARSession (isObjectPlaced (state w)) request setSession w
      else w
  | select m =>
      match session (host w), controllerRef (refs w) with
      | Some _, Some g =>
          let w := set_controllerRef (Some (mkGroup m (select_listeners g))) w in
          fold_left (fun w h => handleSelect h w) (select_listeners g) w
      | _, _ => w
      end
  | session_ended =>
      match session (host w) with
      | Some listening =>
          let w := set_session None w in
          let w :=
            set_rendererRef (option_map clear_xr_session (rendererRef (refs w))) w in
          if listening then onSessionEnd w else w
      | None => w
      end
  | frame =>
      match rendererRef (refs w) with
      | Some renderer =>
          match animationLoop renderer with
          | Some placed => animationLoopCallback placed renderer w
          | None => w
          end
      | None => w
      end
  | resize win =>
      let w := set_window win w in
      if resizeListener (host w) then handleResize w else w
  | unmount attached =>
      if mounted (host w) then
        set_mounted false (mainEffect_cleanup (set_containerRef attached w))
      else w
  end.

(** After an event React renders again; the main effect depends on
    [startAnimationLoop], whose identity follows [isObjectPlaced], so a
    change of that state runs the cleanup and then the effect again. *)
Definition commit (props : ARViewerProps) (before w : World) : World :=
  if mounted (host w)
     && negb (Bool.eqb (isObjectPlaced (state before)) (isObjectPlaced (state w)))
  then mainEffect props (mainEffect_cleanup w)
  else w.

Definition step (props : ARViewerProps) (w : World) (e : Event) : World :=
  commit props w (dispatch w e).

Definition run (props : ARViewerProps) (w : World) (es : list Event) : World :=
  fold_left (step props) es w.

End ARViewer.

(** ** The single-effect ARViewer (scene kept in the closure of one effect) *)

Module ARViewer1.

Record ARViewerProps := mkProps { modelPath : option string }.

Record State := mkState { isARSupported : bool; isARSessionActive : bool }.

Record Mesh := mkMesh { position : Vector3; rotation : Euler }.

(** The controller group; [onSelect] is one closure per effect run, so
    at most one copy of it is ever registered. *)
Record Group := mkGroup { matrixWorld : Matrix4; select_listener : bool }.

Record WebGLRenderer := mkRenderer
  { size : number * number;
    pixelRatio : number;
    inDocument : bool;
    animationLoop : bool;
    xr_enabled : bool;
    xr_referenceSpaceType : option string;
    xr_session : bool }.

(** The variables of the effect closure (lines 49-85). *)
Record Closure := mkClosure
  { scene : Scene;
    camera : PerspectiveCamera;
    renderer : WebGLRenderer;
    cube : Mesh;
    controller : option Group;
    objectPlaced : bool }.

Record Host := mkHost
  { mounted : bool;
    containerRef : bool;
    window : Window;
    navigator_xr : bool;
    session : option bool;
    resizeListener : bool }.

Record World := mkWorld
  { state : State; closure : option Closure; host : Host; calls : list Call }.

Definition with_state (s : State) (w : World) : World :=
  mkWorld s (closure w) (host w) (calls w).
Definition with_closure (c : option Closure) (w : World) : World :=
  mkWorld (state w) c (host w) (calls w).
Definition with_host (h : Host) (w : World) : World :=
  mkWorld (state w) (closure w) h (calls w).
Definition log (c : Call) (w : World) : World :=
  mkWorld (state w) (closure w) (host w) (calls w ++ [c]).

Definition setIsARSupported (b : bool) (w : World) : World :=
  with_state (mkState b (isARSessionActive (state w))) w.
Definition setIsARSessionActive (b : bool) (w : World) : World :=
  with_state (mkState (isARSupported (state w)) b) w.

Definition set_scene (s : Scene) (c : Closure) : Closure :=
  mkClosure s (camera c) (renderer c) (cube c) (controller c) (objectPlaced c).
Definition set_camera (x : PerspectiveCamera) (c : Closure) : Closure :=
  mkClosure (scene c) x (renderer c) (cube c) (controller c) (objectPlaced c).
Definition set_renderer (x : WebGLRenderer) (c : Closure) : Closure :=
  mkClosure (scene c) (camera c) x (cube c) (controller c) (objectPlaced c).
Definition set_cube (x : Mesh) (c : Closure) : Closure :=
  mkClosure (scene c) (camera c) (renderer c) x (controller c) (objectPlaced c).
Definition set_controller (x : option Group) (c : Closure) : Closure :=
  mkClosure (scene c) (camera c) (renderer c) (cube c) x (objectPlaced c).
Definition set_objectPlaced (b : bool) (c : Closure) : Closure :=
  mkClosure (scene c) (camera c) (renderer c) (cube c) (controller c) b.

Definition set_mounted (b : bool) (w : World) : World :=
  let h := host w in
  with_host (mkHost b (containerRef h) (window h) (navigator_xr h)
                    (session h) (resizeListener h)) w.
Definition set_containerRef (b : bool) (w : World) : World :=
  let h := host w in
  with_host (mkHost (mounted h) b (window h) (navigator_xr h)
                    (session h) (resizeListener h)) w.
Definition set_window (win : Window) (w : World) : World :=
  let h := host w in
  with_host (mkHost (mounted h) (containerRef h) win (navigator_xr h)
                    (session h) (resizeListener h)) w.
Definition set_session (s : option bool) (w : World) : World :=
  let h := host w in
  with_host (mkHost (mounted h) (containerRef h) (window h) (navigator_xr h)
                    s (resizeListener h)) w.
Definition set_resizeListener (b : bool) (w : World) : World :=
  let h := host w in
  with_host (mkHost (mounted h) (containerRef h) (window h) (navigator_xr h)
                    (session h) b) w.

(** [WebGLRenderer.setSize] on the renderer of the effect, which never
    presents a session: the start button binds its session to the
    renderer of lines 22-28. *)
Definition set_size (s : number * number) (r : WebGLRenderer) : WebGLRenderer :=
  mkRenderer s (pixelRatio r) (inDocument r) (animationLoop r)
             (xr_enabled r) (xr_referenceSpaceType r) (xr_session r).
Definition set_inDocument (b : bool) (r : WebGLRenderer) : WebGLRenderer :=
  mkRenderer (size r) (pixelRatio r) b (animationLoop r)
             (xr_enabled r) (xr_referenceSpaceType r) (xr_session r).
Definition setAnimationLoop (b : bool) (r : WebGLRenderer) : WebGLRenderer :=
  mkRenderer (size r) (pixelRatio r) (inDocument r) b
             (xr_enabled r) (xr_referenceSpaceType r) (xr_session r).
Definition set_xr (enabled : bool) (space : option string) (sess : bool)
    (r : WebGLRenderer) : WebGLRenderer :=
  mkRenderer (size r) (pixelRatio r) (inDocument r) (animationLoop r)
             enabled space sess.

(** *** The closures *)

(** The [catch] block shared by both [startARSession] functions. *)
Definition startARSession_catch (error : string) (w : World) : World :=
  setIsARSessionActive false
    (log (console_error "Error starting AR session:" error) w).

(** The listener of the session's "end" event, the same in both. *)
Definition onSessionEnd (w : World) : World := setIsARSessionActive false w.

(** [startARSession] of the component body (lines 14-40), the one the
    button calls.  It binds the session to a renderer of its own, which
    nothing else refers to.  Reading [requestSession] off a missing
    [navigator.xr] throws inside the [try]. *)
Definition startARSession (request : Settled unit) (setSession : Settled unit)
    (w : World) : World :=
  if navigator_xr (host w) then
    let w := log xr_requestSession w in
    match request with
    | Rejected error => startARSession_catch error w
    | Resolved _ =>
        let w := set_session (Some false) w in
        match setSession with
        | Rejected error => startARSession_catch error w
        | Resolved _ =>
            set_session (Some true) (setIsARSessionActive true w)
        end
    end
  else startARSession_catch "TypeError" w.

(** [onSelect] (lines 116-122).  With [controller] still unassigned the
    read of [matrixWorld] throws after the cube was added; no caller
    can reach that case, since the listener sits on the controller. *)
Definition onSelect (c : Closure) (w : World) : Closure * World :=
  if negb (objectPlaced c) then
    let c := set_scene (add (scene c) PlacedObject) c in
    let w := log (scene_add PlacedObject) w in
    match controller c with
    | Some g =>
        let p := setFromMatrixPosition (matrixWorld g) in
        let c := set_cube (mkMesh p (rotation (cube c))) c in
        let w := log (position_set p) w in
        (set_objectPlaced true c, w)
    | None => (c, w)
    end
  else (c, w).

(** [startARSession] of the effect closure (lines 87-114).  No code of
    the component calls it.  [xr.setSession] stores the session before
    its first await. *)
Definition startARSession_inEffect (request : Settled unit)
    (setSession : Settled unit) (c : Closure) (w : World) : Closure * World :=
  if navigator_xr (host w) then
    let w := log xr_requestSession w in
    match request with
    | Rejected error => (c, startARSession_catch error w)
    | Resolved _ =>
        let w := set_session (Some false) w in
        let c := set_renderer
                   (set_xr true (Some "local") true (renderer c)) c in
        match setSession with
        | Rejected error => (c, startARSession_catch error w)
        | Resolved _ =>
            let c := set_renderer (set_xr true (Some "local") true (renderer c)) c in
            let g := match controller c with
                     | Some g => g
                     | None => mkGroup identity false
                     end in
            let c := set_controller (Some (mkGroup (matrixWorld g) true)) c in
            let c := set_scene (add (scene c) Controller) c in
            let w := log (scene_add Controller) w in
            (c, set_session (Some true) (setIsARSessionActive true w))
        end
    end
  else (c, startARSession_catch "TypeError" w).

Definition spin (o : Mesh) : Mesh :=
  let r := rotation o in
  mkMesh (position o) (mkEuler (e_x r + 0.01) (e_y r + 0.01) (e_z r)).

(** The frame callback (lines 125-131). *)
Definition animationLoopCallback (c : Closure) (w : World) : Closure * World :=
  let c := if objectPlaced c then set_cube (spin (cube c)) c else c in
  (c, log (renderer_render false) w).

(** [handleResize] (lines 134-140). *)
Definition handleResize (c : Closure) (w : World) : Closure :=
  if containerRef (host w) then
    let win := window (host w) in
    let c := set_camera
               (updateProjectionMatrix
                  (set_aspect (innerWidth win / innerHeight win) (camera c))) c in
    set_renderer (set_size (innerWidth win, innerHeight win) (renderer c)) c
  else c.

(** The cleanup of the effect (lines 145-154). *)
Definition cleanup (c : Closure) (w : World) : Closure * World :=
  let w := log removeEventListener_resize (set_resizeListener false w) in
  let (c, w) :=
    if containerRef (host w) && inDocument (renderer c) then
      (set_renderer (set_inDocument false (renderer c)) c,
       log removeChild_domElement w)
    else (c, w) in
  let c := set_renderer (setAnimationLoop false (renderer c)) c in
  let w := log setAnimationLoop_null w in
  if xr_session (renderer c) then (c, log session_end w) else (c, w).

(** The effect (lines 42-155).  Without [xr] in [navigator] it marks the
    component unsupported and builds nothing. *)
Definition effect (w : World) : World :=
  if negb (navigator_xr (host w)) then setIsARSupported false w
  else
    let win := window (host w) in
    let camera :=
      newPerspectiveCamera 70 (innerWidth win / innerHeight win) 0.01 20 in
    let renderer :=
      mkRenderer (innerWidth win, innerHeight win) (devicePixelRatio win)
                 (containerRef (host w)) true false None false in
    let cube := mkMesh origin noRotation in
    let scene := add (add [] DirectionalLight) AmbientLight in
    let w := log (scene_add DirectionalLight) w in
    let w := log (scene_add AmbientLight) w in
    let w := set_resizeListener true w in
    with_closure (Some (mkClosure scene camera renderer cube None false)) w.

(** The JSX of lines 157-182. *)
Definition render (s : State) : list Element :=
  when (negb (isARSupported s)) UnsupportedBanner
  ++ when (negb (isARSessionActive s) && isARSupported s) StartButton
  ++ when (negb (isARSessionActive s)) PlaceHint.

(** *** The component as a transition system *)

Definition initial (win : Window) (navigator_has_xr : bool) : World :=
  mkWorld (mkState true false) None
          (mkHost false false win navigator_has_xr None false) [].

Definition mount (props : ARViewerProps) (w : World) : World :=
  effect (set_mounted true (set_containerRef true w)).

Inductive Event :=
| click_start (request : Settled unit) (setSession : Settled unit)
| select (m : Matrix4)
| session_ended
| frame
| resize (win : Window)
| unmount (containerAttached : bool).

Definition in_closure (f : Closure -> World -> Closure * World) (w : World) : World :=
  match closure w with
  | Some c => let (c, w) := f c w in with_closure (Some c) w
  | None => w
  end.

(** A select event on the controller: the platform has moved the
    controller to [m], then the registered listener runs. *)
Definition deliver_select (m : Matrix4) (c : Closure) (w : World)
    : Closure * World :=
  match controller c with
  | Some g =>
      let c := set_controller (Some (mkGroup m (select_listener g))) c in
      if select_listener g then onSelect c w else (c, w)
  | None => (c, w)
  end.

Fixpoint deliver_selects (ms : list Matrix4) (c : Closure) (w : World)
    : Closure * World :=
  match ms with
  | [] => (c, w)
  | m :: ms' => let (c, w) := deliver_select m c w in deliver_selects ms' c w
  end.

Definition dispatch (w : World) (e : Event) : World :=
  match e with
  | click_start request setSession =>
      if mounted (host w) && shows StartButton (render (state w)) then
        startARSession request setSession w
      else w
  | select m =>
      match session (host w) with
      | Some _ => in_closure (deliver_select m) w
      | None => w
      end
  | session_ended =>
      match session (host w) with
      | Some listening =>
          let w := set_session None w in
          let w :=
            in_closure
              (fun c w =>
                 let r := renderer c in
                 (set_renderer
                    (set_xr (xr_enabled r) (xr_referenceSpaceType r) false r) c,
                  w)) w in
          if listening then onSessionEnd w else w
      | None => w
      end
  | frame =>
      in_closure
        (fun c w =>
           if animationLoop (renderer c) then animationLoopCallback c w
           else (c, w)) w
  | resize win =>
      let w := set_window win w in
      if resizeListener (host w) then
        in_closure (fun c w => (handleResize c w, w)) w
      else w
  | unmount attached =>
      if mounted (host w) then
        set_mounted false (in_closure cleanup (set_containerRef attached w))
      else w
  end.

Definition step (props : ARViewerProps) (w : World) (e : Event) : World :=
  dispatch w e.

Definition run (props : ARViewerProps) (w : World) (es : list Event) : World :=
  fold_left (step props) es w.

End ARViewer1.

(** ** ARShoeApp: the hit-testing variant *)

Module ARShoeApp.

Record Object3D := mkObject3D { position : Vector3; scale : Vector3 }.

Record WebGLRenderer := mkRenderer
  { size : number * number;
    xr_enabled : bool;
    disposed : bool;
    animationLoop : bool;
    sessionstart_listener : bool }.

(** The variables of the effect closure; [model] is there once the
    loader has called back. *)
Record Closure := mkClosure
  { scene : Scene;
    camera : PerspectiveCamera;
    renderer : WebGLRenderer;
    model : option Object3D }.

(** [session] is the live session with the number of select listeners
    the component has put on it. *)
Record Host := mkHost
  { mounted : bool;
    containerRef : bool;
    window : Window;
    navigator_xr : bool;
    probe_pending : bool;
    session : option nat }.

Record World := mkWorld
  { isARSupported : bool; closure : option Closure; host : Host;
    calls : list Call }.

Definition setIsARSupported (b : bool) (w : World) : World :=
  mkWorld b (closure w) (host w) (calls w).
Definition with_closure (c : option Closure) (w : World) : World :=
  mkWorld (isARSupported w) c (host w) (calls w).
Definition with_host (h : Host) (w : World) : World :=
  mkWorld (isARSupported w) (closure w) h (calls w).
Definition log (c : Call) (w : World) : World :=
  mkWorld (isARSupported w) (closure w) (host w) (calls w ++ [c]).

Definition set_mounted (b : bool) (w : World) : World :=
  let h := host w in
  with_host (mkHost b (containerRef h) (window h) (navigator_xr h)
                    (probe_pending h) (session h)) w.
Definition set_containerRef (b : bool) (w : World) : World :=
  let h := host w in
  with_host (mkHost (mounted h) b (window h) (navigator_xr h)
                    (probe_pending h) (session h)) w.
Definition set_probe_pending (b : bool) (w : World) : World :=
  let h := host w in
  with_host (mkHost (mounted h) (containerRef h) (window h) (navigator_xr h)
                    b (session h)) w.
Definition set_session (s : option nat) (w : World) : World :=
  let h := host w in
  with_host (mkHost (mounted h) (containerRef h) (window h) (navigator_xr h)
                    (probe_pending h) s) w.

Definition set_scene (s : Scene) (c : Closure) : Closure :=
  mkClosure s (camera c) (renderer c) (model c).
Definition set_renderer (r : WebGLRenderer) (c : Closure) : Closure :=
  mkClosure (scene c) (camera c) r (model c).
Definition set_model (m : option Object3D) (c : Closure) : Closure :=
  mkClosure (scene c) (camera c) (renderer c) m.

(** *** The closures *)

(** [checkARSupport] (lines 15-27) up to its await, and its two
    continuations.  A rejected query is logged and the state is left as
    it is. *)
Definition checkARSupport (w : World) : World :=
  if navigator_xr (host w) then
    set_probe_pending true (log xr_isSessionSupported w)
  else w.

Definition checkARSupport_settled (r : Settled bool) (w : World) : World :=
  if probe_pending (host w) then
    let w := set_probe_pending false w in
    match r with
    | Resolved supported => setIsARSupported supported w
    | Rejected error => log (console_error "AR support check failed" error) w
    end
  else w.

(** What the select listener gets from the platform: whether the
    renderer has a reference space, how [requestHitTestSource] settles
    ([Resolved false] is a missing method or source), and the frame of
    the event with the poses of its hit-test results ([None] where
    [getPose] gives null). *)
Record SelectEvent := mkSelectEvent
  { referenceSpace : bool;
    hitTestSource : Settled bool;
    frame : option (list (option Vector3)) }.

(** The pose the listener places the model at, if it gets one
    (lines 75-88). *)
Definition pose_of (ev : SelectEvent) : option Vector3 :=
  if referenceSpace ev then
    match hitTestSource ev, frame ev with
    | Resolved true, Some (Some pose :: _) => Some pose
    | _, _ => None
    end
  else None.

(** The select listener (lines 73-99). *)
Definition onSelect (ev : SelectEvent) (c : Closure) (w : World) : Closure * World :=
  match pose_of ev, model c with
  | Some pose, Some m =>
      let c := set_model (Some (mkObject3D pose (scale m))) c in
      let w := log (position_set pose) w in
      let c := set_scene (add (scene c) PlacedObject) c in
      let w := log (scene_add PlacedObject) w in
      (c, w)
  | _, _ => (c, w)
  end.

(** The loader's callback (lines 62-103). *)
Definition onLoad (c : Closure) : Closure :=
  let half := mkVector3 0.5 0.5 0.5 in
  let r := renderer c in
  set_renderer
    (mkRenderer (size r) (xr_enabled r) (disposed r) (animationLoop r) true)
    (set_model (Some (mkObject3D origin half)) c).

(** The frame callback (lines 109-111). *)
Definition animationLoopCallback (c : Closure) (w : World) : World :=
  log (renderer_render (disposed (renderer c))) w.

(** The cleanup of the effect (lines 114-116). *)
Definition cleanup (c : Closure) (w : World) : Closure * World :=
  let r := renderer c in
  (set_renderer
     (mkRenderer (size r) (xr_enabled r) true (animationLoop r)
                 (sessionstart_listener r)) c,
   log renderer_dispose w).

(** The effect (lines 11-117). *)
Definition effect (w : World) : World :=
  if containerRef (host w) then
    let w := checkARSupport w in
    let win := window (host w) in
    let camera :=
      newPerspectiveCamera 75 (innerWidth win / innerHeight win) 0.1 1000 in
    let renderer :=
      mkRenderer (innerWidth win, innerHeight win) true false true false in
    let scene := add (add [] AmbientLight) DirectionalLight in
    let w := log (scene_add AmbientLight) w in
    let w := log (scene_add DirectionalLight) w in
    with_closure (Some (mkClosure scene camera renderer None)) w
  else w.

(** The JSX of lines 119-127: the banner is all it renders. *)
Definition render (isARSupported : bool) : list Element :=
  when (negb isARSupported) UnsupportedBanner.

(** *** The component as a transition system *)

Definition initial (win : Window) (navigator_has_xr : bool) : World :=
  mkWorld false None (mkHost false false win navigator_has_xr false None) [].

Definition mount (w : World) : World :=
  effect (set_mounted true (set_containerRef true w)).

Inductive Event :=
| probe_settled (r : Settled bool)
| model_loaded
| model_load_error (error : string)
| sessionstart
| select (ev : SelectEvent)
| sessionend
| tick
| unmount.

Definition in_closure (f : Closure -> World -> Closure * World) (w : World) : World :=
  match closure w with
  | Some c => let (c, w) := f c w in with_closure (Some c) w
  | None => w
  end.

Fixpoint repeat_onSelect (n : nat) (ev : SelectEvent) (c : Closure) (w : World)
    : Closure * World :=
  match n with
  | O => (c, w)
  | S n' => let (c, w) := onSelect ev c w in repeat_onSelect n' ev c w
  end.

Definition dispatch (w : World) (e : Event) : World :=
  match e with
  | probe_settled r => checkARSupport_settled r w
  | model_loaded =>
      in_closure
        (fun c w => match model c with None => (onLoad c, w) | Some _ => (c, w) end) w
  | model_load_error error => log (console_error "Model load error" error) w
  | sessionstart =>
      match closure w with
      | Some c =>
          set_session
            (Some (if sessionstart_listener (renderer c) then 1%nat else 0%nat)) w
      | None => w
      end
  | select ev =>
      match session (host w) with
      | Some listeners => in_closure (repeat_onSelect listeners ev) w
      | None => w
      end
  | sessionend => set_session None w
  | tick =>
      in_closure
        (fun c w =>
           if animationLoop (renderer c) then (c, animationLoopCallback c w)
           else (c, w)) w
  | unmount =>
      if mounted (host w) then set_mounted false (in_closure cleanup w) else w
  end.

Definition run (w : World) (es : list Event) : World := fold_left dispatch es w.

End ARShoeApp.

(** ** Sample worlds *)

Module Samples.

Definition win : Window := mkWindow 800 600 1.
Definition narrow : Window := mkWindow 400 600 1.

Definition p1 : Vector3 := mkVector3 1 2 3.
Definition p2 : Vector3 := mkVector3 4 5 6.
Definition m1 : Matrix4 := mkMatrix4 p1.
Definition m2 : Matrix4 := mkMatrix4 p2.

Definition props : ARViewer.ARViewerProps := ARViewer.mkProps None None None.
Definition props1 : ARViewer1.ARViewerProps := ARViewer1.mkProps None.

(** ARViewer.tsx, mounted on a supporting platform. *)
Definition viewer_mounted : ARViewer.World :=
  ARViewer.mount props (ARViewer.initial win true).

(** The same with a session started from the button. *)
Definition viewer_in_session : ARViewer.World :=
  ARViewer.run props viewer_mounted
    [ARViewer.probe_settled (Resolved true);
     ARViewer.click_start (Resolved tt) (Resolved tt)].

(** Events that start a session and place the object at [p1]. *)
Definition place_once : list ARViewer.Event :=
  [ARViewer.probe_settled (Resolved true);
   ARViewer.click_start (Resolved tt) (Resolved tt);
   ARViewer.select m1].

(** The single-effect ARViewer, mounted, and the closure its effect has
    built. *)
Definition viewer1_mounted : ARViewer1.World :=
  ARViewer1.mount props1 (ARViewer1.initial win true).

Definition closure1 : ARViewer1.Closure :=
  ARViewer1.mkClosure
    [DirectionalLight; AmbientLight]
    (newPerspectiveCamera 70 (800 / 600) 0.01 20)
    (ARViewer1.mkRenderer (800, 600) 1 true true false None false)
    (ARViewer1.mkMesh origin noRotation)
    None false.


(** ARShoeApp with its model loaded and a session started. *)
Definition shoe_mounted : ARShoeApp.World :=
  ARShoeApp.mount (ARShoeApp.initial win true).

Definition shoe_in_session : ARShoeApp.World :=
  ARShoeApp.run shoe_mounted [ARShoeApp.model_loaded; ARShoeApp.sessionstart].

(** A select event whose hit test yields the pose [p]. *)
Definition hit (p : Vector3) : ARShoeApp.SelectEvent :=
  ARShoeApp.mkSelectEvent true (Resolved true) (Some [Some p]).

Definition miss : ARShoeApp.SelectEvent :=
  ARShoeApp.mkSelectEvent true (Resolved true) (Some []).

End Samples.

(** The calls made since the log had [n] entries. *)
Definition calls_since (n : nat) (cs : list Call) : list Call := skipn n cs.

(** The calls one teardown of ARViewer.tsx makes, in order: the cleanup
    closure of [initializeScene] first (when there is one), then the
    listener, the frame callback and the session. *)
Definition ARViewer_teardown_calls (w : ARViewer.World) : list Call :=
  (if ARViewer.sceneCleanup (ARViewer.host w) then
     [renderer_dispose; geometry_dispose; material_dispose]
     ++ (if ARViewer.containerRef (ARViewer.refs w)
         then [removeChild_domElement] else [])
   else [])
  ++ [removeEventListener_resize]
  ++ match ARViewer.rendererRef (ARViewer.refs w) with
     | Some r =>
         setAnimationLoop_null
         :: (if ARViewer.xr_session r then [session_end] else [])
     | None => []
     end.

(** The same for the single-effect ARViewer. *)
Definition ARViewer1_teardown_calls (c : ARViewer1.Closure) (w : ARViewer1.World)
    : list Call :=
  [removeEventListener_resize]
  ++ (if ARViewer1.containerRef (ARViewer1.host w)
         && ARViewer1.inDocument (ARViewer1.renderer c)
      then [removeChild_domElement] else [])
  ++ [setAnimationLoop_null]
  ++ (if ARViewer1.xr_session (ARViewer1.renderer c) then [session_end] else []).

(** No frame callback is registered on the renderer. *)
Definition ARViewer_loop_off (w : ARViewer.World) : Prop :=
  match ARViewer.rendererRef (ARViewer.refs w) with
  | Some r => ARViewer.animationLoop r = None
  | None => True
  end.

Definition ARViewer_unmounted (w : ARViewer.World) : Prop :=
  ARViewer.mounted (ARViewer.host w) = false /\ ARViewer_loop_off w.


(** The frame callback registered on the renderer of ARViewer.tsx was
    created with [isObjectPlaced = flag], and the refs it reads are
    filled. *)
Definition ARViewer_frame_ready (flag : bool) (w : ARViewer.World) : Prop :=
  ARViewer.containerRef (ARViewer.refs w) = true
  /\ exists (r : ARViewer.WebGLRenderer) (o : ARViewer.Mesh),
       ARViewer.rendererRef (ARViewer.refs w) = Some r
       /\ ARViewer.animationLoop r = Some flag
       /\ ARViewer.objectRef (ARViewer.refs w) = Some o.

(** Between events the registered frame callback of a mounted
    ARViewer.tsx has captured the current [isObjectPlaced]; an unmounted
    one has no frame callback. *)
Definition ARViewer_loop_in_sync (w : ARViewer.World) : Prop :=
  (ARViewer.mounted (ARViewer.host w) = true ->
   ARViewer_frame_ready (ARViewer.isObjectPlaced (ARViewer.state w)) w)
  /\ (ARViewer.mounted (ARViewer.host w) = false -> ARViewer_loop_off w).

(** The worlds ARViewer.tsx can be in: mounted once, then any events. *)
Definition ARViewer_reachable (props : ARViewer.ARViewerProps) (win : Window)
    (navigator_has_xr : bool) (es : list ARViewer.Event) : ARViewer.World :=
  ARViewer.run props (ARViewer.mount props (ARViewer.initial win navigator_has_xr)) es.

(** [n] frames of the single-effect ARViewer. *)
Fixpoint ARViewer1_frames (n : nat) (c : ARViewer1.Closure) (w : ARViewer1.World)
    : ARViewer1.Closure * ARViewer1.World :=
  match n with
  | O => (c, w)
  | S n' =>
      let (c, w) := ARViewer1.animationLoopCallback c w in
      ARViewer1_frames n' c w
  end.

Definition is_unmount (e : ARViewer.Event) : bool :=
  match e with ARViewer.unmount _ => true | _ => false end.

(** What the capability probe is to record when the query settles. *)
Definition probe_outcome (r : Settled bool) : bool :=
  match r with
  | Resolved supported => supported
  | Rejected _ => false
  end.

Definition is_capability_query (c : Call) : bool :=
  match c with xr_isSessionSupported => true | _ => false end.

Definition ARViewer_is_probe_settled (e : ARViewer.Event) : bool :=
  match e with ARViewer.probe_settled _ => true | _ => false end.

Definition ARShoeApp_is_probe_settled (e : ARShoeApp.Event) : bool :=
  match e with ARShoeApp.probe_settled _ => true | _ => false end.

Definition ARViewer_is_click (e : ARViewer.Event) : bool :=
  match e with ARViewer.click_start _ _ => true | _ => false end.

Definition ARViewer1_is_click (e : ARViewer1.Event) : bool :=
  match e with ARViewer1.click_start _ _ => true | _ => false end.

(** The worlds ARShoeApp can be in. *)
Definition ARShoeApp_reachable (win : Window) (navigator_has_xr : bool)
    (es : list ARShoeApp.Event) : ARShoeApp.World :=
  ARShoeApp.run (ARShoeApp.mount (ARShoeApp.initial win navigator_has_xr)) es.

(** ** What the properties beyond the placement and session claims speak of *)

(** The scene and the mesh that [initializeScene] of ARViewer.tsx builds. *)
Definition ARViewer_fresh_scene : Scene := [DirectionalLight; AmbientLight].

Definition ARViewer_fresh_mesh (props : ARViewer.ARViewerProps) : ARViewer.Mesh :=
  ARViewer.mkMesh (ARViewer.objectSize_of props) (ARViewer.objectColor_of props)
                  origin noRotation.

(** A mounted ARViewer.tsx between two events, with [flag] the
    [isObjectPlaced] of the last run of the main effect: the refs are
    filled, the renderer is live, the camera's aspect and projection
    follow the window, the resize listener is on, and the mesh is the
    box the props ask for. *)
Definition ARViewer_scene_ok (props : ARViewer.ARViewerProps) (flag : bool)
    (w : ARViewer.World) : Prop :=
  let win := ARViewer.window (ARViewer.host w) in
  ARViewer.containerRef (ARViewer.refs w) = true
  /\ ARViewer.resizeListener (ARViewer.host w) = true
  /\ ARViewer.sceneCleanup (ARViewer.host w) = true
  /\ exists (r : ARViewer.WebGLRenderer) (cam : PerspectiveCamera)
            (s : Scene) (o : ARViewer.Mesh),
       ARViewer.rendererRef (ARViewer.refs w) = Some r
       /\ ARViewer.cameraRef (ARViewer.refs w) = Some cam
       /\ ARViewer.sceneRef (ARViewer.refs w) = Some s
       /\ ARViewer.objectRef (ARViewer.refs w) = Some o
       /\ ARViewer.disposed r = false
       /\ ARViewer.animationLoop r = Some flag
       /\ aspect cam = innerWidth win / innerHeight win
       /\ projectionAspect cam = innerWidth win / innerHeight win
       /\ ARViewer.boxSize o = ARViewer.objectSize_of props
       /\ ARViewer.color o = ARViewer.objectColor_of props.

Definition ARViewer_mounted_ok (props : ARViewer.ARViewerProps)
    (w : ARViewer.World) : Prop :=
  ARViewer.mounted (ARViewer.host w) = true ->
  ARViewer_scene_ok props (ARViewer.isObjectPlaced (ARViewer.state w)) w.

(** The renderer of a mounted ARViewer.tsx has the size of the window
    and presents no session. *)
Definition ARViewer_sized_ok (w : ARViewer.World) : Prop :=
  ARViewer.mounted (ARViewer.host w) = true ->
  let win := ARViewer.window (ARViewer.host w) in
  exists r : ARViewer.WebGLRenderer,
    ARViewer.rendererRef (ARViewer.refs w) = Some r
    /\ ARViewer.size r = (innerWidth win, innerHeight win)
    /\ ARViewer.xr_isPresenting r = false.



Definition is_session_end (c : Call) : bool :=
  match c with session_end => true | _ => false end.

(** The worlds the single-effect ARViewer can be in. *)
Definition ARViewer1_reachable (props : ARViewer1.ARViewerProps) (win : Window)
    (navigator_has_xr : bool) (es : list ARViewer1.Event) : ARViewer1.World :=
  ARViewer1.run props
    (ARViewer1.mount props (ARViewer1.initial win navigator_has_xr)) es.

(** The closure of the single-effect ARViewer as its effect built it, up
    to the camera and the size of the renderer: no controller, the cube
    unplaced and untouched, the scene holding the two lights, and no
    session bound to the renderer. *)
Definition ARViewer1_untouched (c : ARViewer1.Closure) : Prop :=
  ARViewer1.controller c = None
  /\ ARViewer1.objectPlaced c = false
  /\ ARViewer1.cube c = ARViewer1.mkMesh origin noRotation
  /\ ARViewer1.scene c = [DirectionalLight; AmbientLight]
  /\ ARViewer1.xr_session (ARViewer1.renderer c) = false.

Definition ARViewer1_never_placed (w : ARViewer1.World) : Prop :=
  match ARViewer1.closure w with
  | Some c => ARViewer1_untouched c
  | None => True
  end
  /\ count is_position_set (ARViewer1.calls w) = 0%nat
  /\ count (is_scene_add PlacedObject) (ARViewer1.calls w) = 0%nat
  /\ count is_session_end (ARViewer1.calls w) = 0%nat.

(** The camera and the renderer of the single-effect ARViewer follow the
    window. *)
Definition ARViewer1_surface_ok (w : ARViewer1.World) : Prop :=
  ARViewer1.mounted (ARViewer1.host w) = true ->
  let win := ARViewer1.window (ARViewer1.host w) in
  ARViewer1.containerRef (ARViewer1.host w) = true
  /\ match ARViewer1.closure w with
     | Some c =>
         ARViewer1.resizeListener (ARViewer1.host w) = true
         /\ ARViewer1.size (ARViewer1.renderer c)
            = (innerWidth win, innerHeight win)
         /\ aspect (ARViewer1.camera c) = innerWidth win / innerHeight win
         /\ projectionAspect (ARViewer1.camera c)
            = innerWidth win / innerHeight win
     | None => True
     end.

(** ARShoeApp: the events of one kind, a run of select events through the
    listener, the pose of the last select event that carries one, and the
    number of select events that carry one. *)
Definition ARShoeApp_is_model_loaded (e : ARShoeApp.Event) : bool :=
  match e with ARShoeApp.model_loaded => true | _ => false end.

Definition ARShoeApp_is_sessionstart (e : ARShoeApp.Event) : bool :=
  match e with ARShoeApp.sessionstart => true | _ => false end.

Fixpoint ARShoeApp_selects (evs : list ARShoeApp.SelectEvent)
    (c : ARShoeApp.Closure) (w : ARShoeApp.World)
    : ARShoeApp.Closure * ARShoeApp.World :=
  match evs with
  | [] => (c, w)
  | ev :: evs' =>
      let (c, w) := ARShoeApp.onSelect ev c w in ARShoeApp_selects evs' c w
  end.

Fixpoint ARShoeApp_last_pose (evs : list ARShoeApp.SelectEvent) : option Vector3 :=
  match evs with
  | [] => None
  | ev :: evs' =>
      match ARShoeApp_last_pose evs' with
      | Some p => Some p
      | None => ARShoeApp.pose_of ev
      end
  end.

Definition ARShoeApp_has_pose (ev : ARShoeApp.SelectEvent) : bool :=
  match ARShoeApp.pose_of ev with Some _ => true | None => false end.

(** ARShoeApp between events: a session carries a select listener only if
    the model was loaded when it started, and nothing has been placed
    while there is no model. *)
Definition ARShoeApp_listener_needs_model (w : ARShoeApp.World) : Prop :=
  match ARShoeApp.closure w with
  | Some c =>
      (ARShoeApp.model c = None ->
       ARShoeApp.sessionstart_listener (ARShoeApp.renderer c) = false
       /\ ARShoeApp.scene c = [AmbientLight; DirectionalLight])
      /\ (forall n, ARShoeApp.session (ARShoeApp.host w) = Some (S n) ->
                    ARShoeApp.model c <> None)
  | None =>
      forall n, ARShoeApp.session (ARShoeApp.host w) = Some (S n) -> False
  end.

(** * Properties *)

(** ** Bookkeeping lemmas *)

Lemma count_app (f : Call -> bool) (xs ys : list Call) :
  count f (xs ++ ys) = (count f xs + count f ys)%nat.
Proof. unfold count. now rewrite filter_app, length_app. Qed.

Lemma calls_since_app (xs ys : list Call) :
  calls_since (List.length xs) (xs ++ ys) = ys.
Proof.
  unfold calls_since. rewrite skipn_app, skipn_all, Nat.sub_diag. reflexivity.
Qed.

Ltac break_world w :=
  let st := fresh "st" in
  let rf := fresh "rf" in
  let hs := fresh "hs" in
  let cs := fresh "cs" in
  destruct w as [st rf hs cs]; destruct st, rf, hs; cbn in *.

Ltac break_match :=
  match goal with
  | |- context [match ?x with _ => _ end] => destruct x eqn:?; cbn in *
  end.

Ltac count_calls :=
  unfold count in *; repeat rewrite filter_app; repeat rewrite length_app;
  cbn; try lia.

Ltac break_world1 w :=
  let st := fresh "st" in
  let cl := fresh "cl" in
  let hs := fresh "hs" in
  let cs := fresh "cs" in
  destruct w as [st cl hs cs]; destruct st, hs; cbn in *.

Ltac break_closure1 c :=
  let r := fresh "r" in
  destruct c as [? ? r ? ? ?]; destruct r; cbn in *.

(** ** What holds of every reachable world *)

(** Neither the main effect nor its cleanup writes React state. *)
Lemma ARViewer_mainEffect_state (props : ARViewer.ARViewerProps)
    (w : ARViewer.World) :
  ARViewer.state (ARViewer.mainEffect props w) = ARViewer.state w.
Proof.
  unfold ARViewer.mainEffect, ARViewer.initializeScene,
    ARViewer.startAnimationLoop.
  break_world w. destruct containerRef; cbn; [reflexivity|].
  destruct rendererRef; reflexivity.
Qed.

Lemma ARViewer_mainEffect_cleanup_state (w : ARViewer.World) :
  ARViewer.state (ARViewer.mainEffect_cleanup w) = ARViewer.state w.
Proof.
  unfold ARViewer.mainEffect_cleanup, ARViewer.initializeScene_cleanup.
  break_world w.
  destruct rendererRef as [[? ? ? ? ? ? ? xs ? ?]|], sceneCleanup, containerRef;
    cbn; try destruct xs; reflexivity.
Qed.

Lemma ARViewer_commit_state (props : ARViewer.ARViewerProps)
    (before w : ARViewer.World) :
  ARViewer.state (ARViewer.commit props before w) = ARViewer.state w.
Proof.
  unfold ARViewer.commit.
  destruct (_ && _); [|reflexivity].
  now rewrite ARViewer_mainEffect_state, ARViewer_mainEffect_cleanup_state.
Qed.

Lemma ARViewer_commit_session (props : ARViewer.ARViewerProps)
    (before w : ARViewer.World) :
  ARViewer.session (ARViewer.host (ARViewer.commit props before w))
  = ARViewer.session (ARViewer.host w)
  /\ ARViewer.mounted (ARViewer.host (ARViewer.commit props before w))
     = ARViewer.mounted (ARViewer.host w).
Proof.
  unfold ARViewer.commit. destruct (_ && _); [|split; reflexivity].
  unfold ARViewer.mainEffect, ARViewer.initializeScene,
    ARViewer.startAnimationLoop, ARViewer.mainEffect_cleanup,
    ARViewer.initializeScene_cleanup.
  break_world w.
  destruct rendererRef as [[? ? ? ? ? ? ? xs ? ?]|], sceneCleanup, containerRef;
    cbn; try destruct xs; split; reflexivity.
Qed.

Ltac break_untouched H :=
  unfold ARViewer1_untouched in H; destruct H as (? & ? & ? & ? & ?).

(** The button calls the [startARSession] of the component body, which
    never reaches the effect closure; so the closure stays as built. *)
Lemma ARViewer1_dispatch_never_placed (w : ARViewer1.World) (e : ARViewer1.Event) :
  ARViewer1_never_placed w -> ARViewer1_never_placed (ARViewer1.dispatch w e).
Proof.
  unfold ARViewer1_never_placed. intros (Hc & Hp & Ha & Hs).
  destruct e as [rq ss | m | | | win | att]; cbn [ARViewer1.dispatch].
  - destruct (_ && _); [|auto].
    unfold ARViewer1.startARSession, ARViewer1.startARSession_catch.
    break_world1 w.
    destruct navigator_xr, rq, ss; cbn; repeat split; try assumption;
      count_calls.
  - destruct (ARViewer1.session (ARViewer1.host w)); [|auto].
    unfold ARViewer1.in_closure.
    destruct (ARViewer1.closure w) as [c|] eqn:Hcl; [|rewrite Hcl; auto].
    break_untouched Hc.
    unfold ARViewer1.deliver_select.
    match goal with Hk : ARViewer1.controller c = None |- _ => rewrite Hk end.
    unfold ARViewer1.with_closure, ARViewer1_untouched. cbn. auto 10.
  - unfold ARViewer1.onSessionEnd, ARViewer1.in_closure.
    break_world1 w.
    destruct session as [[|]|]; destruct cl as [c|]; cbn; auto;
      break_untouched Hc; break_closure1 c; subst;
      unfold ARViewer1_untouched; cbn; auto 10.
  - unfold ARViewer1.in_closure, ARViewer1.animationLoopCallback.
    break_world1 w. destruct cl as [c|]; [|auto].
    break_untouched Hc. break_closure1 c. subst.
    destruct animationLoop; unfold ARViewer1_untouched; cbn;
      repeat split; try assumption; count_calls.
  - unfold ARViewer1.in_closure, ARViewer1.handleResize. break_world1 w.
    destruct resizeListener; [|auto].
    destruct cl as [c|]; [|auto].
    break_untouched Hc. break_closure1 c. subst.
    destruct containerRef; unfold ARViewer1_untouched; cbn; auto 10.
  - destruct (ARViewer1.mounted (ARViewer1.host w)); [|auto].
    unfold ARViewer1.in_closure, ARViewer1.cleanup. break_world1 w.
    destruct cl as [c|]; [|auto].
    break_untouched Hc. break_closure1 c. subst.
    destruct att, inDocument; unfold ARViewer1_untouched; cbn;
      repeat split; try assumption; count_calls.
Qed.

Lemma ARViewer1_reachable_never_placed (props : ARViewer1.ARViewerProps)
    (win : Window) (xr : bool) (es : list ARViewer1.Event) :
  ARViewer1_never_placed (ARViewer1_reachable props win xr es).
Proof.
  unfold ARViewer1_reachable, ARViewer1.run.
  rewrite <- (rev_involutive es).
  induction (rev es) as [|e es' IH]; cbn [rev].
  - destruct xr; cbn; unfold ARViewer1_never_placed, ARViewer1_untouched;
      cbn; auto 10.
  - rewrite fold_left_app. cbn [fold_left]. unfold ARViewer1.step at 1.
    now apply ARViewer1_dispatch_never_placed.
Qed.

Lemma ARViewer1_dispatch_surface_ok (w : ARViewer1.World) (e : ARViewer1.Event) :
  ARViewer1_surface_ok w -> ARViewer1_surface_ok (ARViewer1.dispatch w e).
Proof.
  unfold ARViewer1_surface_ok. cbv zeta. intros H.
  destruct e as [rq ss | m | | | win | att]; cbn [ARViewer1.dispatch].
  - destruct (_ && _); [|assumption].
    unfold ARViewer1.startARSession, ARViewer1.startARSession_catch.
    break_world1 w. destruct navigator_xr, rq, ss; cbn; assumption.
  - destruct (ARViewer1.session (ARViewer1.host w)); [|assumption].
    unfold ARViewer1.in_closure, ARViewer1.deliver_select, ARViewer1.onSelect.
    break_world1 w. destruct cl as [c|]; [|assumption]. break_closure1 c.
    destruct controller as [[mw [|]]|], objectPlaced; cbn; assumption.
  - unfold ARViewer1.onSessionEnd, ARViewer1.in_closure. break_world1 w.
    destruct session as [[|]|]; destruct cl as [c|];
      try break_closure1 c; cbn; assumption.
  - unfold ARViewer1.in_closure, ARViewer1.animationLoopCallback.
    break_world1 w. destruct cl as [c|]; [|assumption]. break_closure1 c.
    destruct animationLoop, objectPlaced; cbn; assumption.
  - unfold ARViewer1.in_closure, ARViewer1.handleResize. break_world1 w.
    destruct resizeListener, cl as [c|], containerRef; cbn; intros Hm;
      destruct (H Hm) as [Hc Hcl]; try discriminate Hc;
      try (destruct Hcl as (Hl & _); discriminate Hl); auto.
  - destruct (ARViewer1.mounted (ARViewer1.host w)) eqn:Hm.
    + unfold ARViewer1.set_mounted, ARViewer1.with_host. cbn. discriminate.
    + intros Hx. congruence.
Qed.

Lemma ARViewer1_reachable_surface_ok (props : ARViewer1.ARViewerProps)
    (win : Window) (xr : bool) (es : list ARViewer1.Event) :
  ARViewer1_surface_ok (ARViewer1_reachable props win xr es).
Proof.
  unfold ARViewer1_reachable, ARViewer1.run.
  rewrite <- (rev_involutive es).
  induction (rev es) as [|e es' IH]; cbn [rev].
  - unfold ARViewer1_surface_ok. destruct xr; cbn; auto.
  - rewrite fold_left_app. cbn [fold_left]. unfold ARViewer1.step at 1.
    now apply ARViewer1_dispatch_surface_ok.
Qed.






(** ** Placement (C1) *)








(** In ARViewer.tsx the select listener is the [handleSelect] of the render
    in which the button was clicked, and nothing registers a newer one:
    it keeps reading [isObjectPlaced] as false.  A second select event of
    the same session therefore adds and positions an object again. *)
Remark ARViewer_select_listener_keeps_first_render :
  let w := Samples.viewer_in_session in
  let w' := ARViewer.run Samples.props w
              [ARViewer.select Samples.m1; ARViewer.select Samples.m2] in
  option_map ARViewer.select_listeners (ARViewer.controllerRef (ARViewer.refs w'))
  = Some [false]
  /\ ARViewer.isObjectPlaced (ARViewer.state w') = true
  /\ filter is_position_set
       (calls_since (List.length (ARViewer.calls w)) (ARViewer.calls w'))
     = [position_set Samples.p1; position_set Samples.p2].
Proof. cbv zeta. repeat split; reflexivity. Qed.

(** ** Teardown (C2) *)


(** The teardown of ARViewer.tsx makes exactly [ARViewer_teardown_calls]. *)
Lemma ARViewer_cleanup_calls (w : ARViewer.World) :
  ARViewer.calls (ARViewer.mainEffect_cleanup w)
  = ARViewer.calls w ++ ARViewer_teardown_calls w.
Proof.
  unfold ARViewer.mainEffect_cleanup, ARViewer_teardown_calls,
    ARViewer.initializeScene_cleanup.
  break_world w.
  destruct rendererRef as [[? ? ? ? ? ? ? xs ? ?]|], sceneCleanup, containerRef;
    cbn; try destruct xs; cbn; repeat rewrite <- app_assoc; reflexivity.
Qed.

Lemma ARViewer_cleanup_loop_off (w : ARViewer.World) :
  ARViewer_loop_off (ARViewer.mainEffect_cleanup w).
Proof.
  unfold ARViewer_loop_off, ARViewer.mainEffect_cleanup,
    ARViewer.initializeScene_cleanup.
  break_world w.
  destruct rendererRef as [[? ? ? ? ? ? ? xs ? ?]|], sceneCleanup, containerRef;
    cbn; try destruct xs; cbn; try reflexivity; exact I.
Qed.

(** [handleSelect] touches neither the renderer nor the host, and draws
    nothing. *)
Lemma ARViewer_handleSelect_frame (b : bool) (w : ARViewer.World) :
  ARViewer.rendererRef (ARViewer.refs (ARViewer.handleSelect b w))
  = ARViewer.rendererRef (ARViewer.refs w)
  /\ ARViewer.host (ARViewer.handleSelect b w) = ARViewer.host w
  /\ count is_render (ARViewer.calls (ARViewer.handleSelect b w))
     = count is_render (ARViewer.calls w).
Proof.
  unfold ARViewer.handleSelect. break_world w.
  destruct b, objectRef, controllerRef, sceneRef; cbn;
    repeat split; count_calls.
Qed.

Lemma ARViewer_handleSelects_frame (hs : list bool) :
  forall w : ARViewer.World,
    let w' := fold_left (fun w h => ARViewer.handleSelect h w) hs w in
    ARViewer.rendererRef (ARViewer.refs w') = ARViewer.rendererRef (ARViewer.refs w)
    /\ ARViewer.host w' = ARViewer.host w
    /\ count is_render (ARViewer.calls w') = count is_render (ARViewer.calls w).
Proof.
  induction hs as [|h hs IH]; intros w; cbn.
  - repeat split.
  - destruct (IH (ARViewer.handleSelect h w)) as (Hr & Hh & Hc).
    destruct (ARViewer_handleSelect_frame h w) as (Hr1 & Hh1 & Hc1).
    cbv zeta in *. repeat split; congruence.
Qed.

(** Once unmounted, the component stays so and no event draws. *)
Lemma ARViewer_unmounted_step (props : ARViewer.ARViewerProps)
    (w : ARViewer.World) (e : ARViewer.Event) :
  ARViewer_unmounted w ->
  ARViewer_unmounted (ARViewer.step props w e)
  /\ count is_render (ARViewer.calls (ARViewer.step props w e))
     = count is_render (ARViewer.calls w).
Proof.
  intros [Hm Hl].
  assert (Hd : ARViewer_unmounted (ARViewer.dispatch w e)
               /\ count is_render (ARViewer.calls (ARViewer.dispatch w e))
                  = count is_render (ARViewer.calls w)).
  { unfold ARViewer_unmounted, ARViewer_loop_off in *.
    destruct e as [r | rq ss | m | | | win | att]; cbn [ARViewer.dispatch].
    - unfold ARViewer.checkARSupport_settled. break_world w.
      destruct probe_pending; [destruct r|]; cbn; auto.
    - rewrite Hm. cbn. auto.
    - destruct (ARViewer.session (ARViewer.host w)); [|auto].
      destruct (ARViewer.controllerRef (ARViewer.refs w)) as [g|]; [|auto].
      match goal with
      | |- context [fold_left ?f ?hs ?w0] =>
          destruct (ARViewer_handleSelects_frame hs w0) as (Hr & Hh & Hc)
      end.
      cbv zeta in Hr, Hh, Hc. rewrite Hr, Hh, Hc.
      break_world w. auto.
    - unfold ARViewer.onSessionEnd. break_world w.
      destruct session as [[|]|]; destruct rendererRef as [[]|]; cbn in *; auto.
    - revert Hl.
      destruct (ARViewer.rendererRef (ARViewer.refs w)) as [r|] eqn:Hr;
        intros Hl; [rewrite Hl|]; rewrite Hr; auto.
    - unfold ARViewer.handleResize, ARViewer.set_size. break_world w.
      destruct resizeListener, containerRef, cameraRef,
        rendererRef as [[? ? ? ? ? ? ? ? ? [|]]|]; cbn in *; auto.
    - rewrite Hm. auto. }
  destruct Hd as [[Hm' Hl'] Hc].
  unfold ARViewer.step, ARViewer.commit. rewrite Hm'. cbn.
  repeat split; assumption.
Qed.


(** Unmounting leaves ARViewer.tsx without a frame callback. *)
Lemma ARViewer_unmount_unmounted (props : ARViewer.ARViewerProps)
    (w : ARViewer.World) (attached : bool) :
  ARViewer.mounted (ARViewer.host w) = true ->
  ARViewer_unmounted (ARViewer.step props w (ARViewer.unmount attached))
  /\ ARViewer.calls (ARViewer.step props w (ARViewer.unmount attached))
     = ARViewer.calls w
       ++ ARViewer_teardown_calls (ARViewer.set_containerRef attached w).
Proof.
  intros Hm. unfold ARViewer.step, ARViewer.commit.
  cbn [ARViewer.dispatch]. rewrite Hm.
  set (w1 := ARViewer.mainEffect_cleanup (ARViewer.set_containerRef attached w)).
  assert (Hoff : ARViewer_loop_off w1) by apply ARViewer_cleanup_loop_off.
  assert (Hcalls : ARViewer.calls w1
                   = ARViewer.calls w
                     ++ ARViewer_teardown_calls
                          (ARViewer.set_containerRef attached w)).
  { unfold w1. rewrite ARViewer_cleanup_calls. reflexivity. }
  cbn. repeat split; assumption.
Qed.








(** The single-effect ARViewer takes its canvas out of the document, when it can
    reach it, before it deregisters the frame callback. *)
Lemma ARViewer1_teardown_releases_first (c : ARViewer1.Closure)
    (w : ARViewer1.World) (sessionOff : bool) :
  ARViewer1.containerRef (ARViewer1.host w) = true ->
  ARViewer1.inDocument (ARViewer1.renderer c) = true ->
  released_after_deregistration false sessionOff (ARViewer1_teardown_calls c w)
  = false.
Proof.
  intros H1 H2. unfold ARViewer1_teardown_calls. rewrite H1, H2. reflexivity.
Qed.




(** ** The end of a session (C3) *)




(** ** The render loop (C4) *)

Ltac frame_ready_tac :=
  repeat (split; [solve [reflexivity | assumption] |]);
  do 2 eexists; repeat split; cbn; try reflexivity; try eassumption.

(** [handleSelect] keeps the container and the renderer, and leaves an
    object where there was one. *)
Lemma ARViewer_handleSelect_ready (flag b : bool) (w : ARViewer.World) :
  ARViewer_frame_ready flag w ->
  ARViewer_frame_ready flag (ARViewer.handleSelect b w).
Proof.
  unfold ARViewer_frame_ready, ARViewer.handleSelect.
  intros (Hc & r & o & Hr & Hl & Ho). break_world w. subst.
  destruct b, controllerRef, sceneRef; cbn; frame_ready_tac.
Qed.

Lemma ARViewer_handleSelects_ready (flag : bool) (hs : list bool) :
  forall w : ARViewer.World,
    ARViewer_frame_ready flag w ->
    ARViewer_frame_ready flag
      (fold_left (fun w h => ARViewer.handleSelect h w) hs w).
Proof.
  induction hs as [|h hs IH]; intros w H; cbn; [assumption|].
  apply IH. now apply ARViewer_handleSelect_ready.
Qed.

(** Every event but an unmount keeps the component mounted and the
    registered frame callback as it is. *)
Lemma ARViewer_dispatch_ready (flag : bool) (w : ARViewer.World)
    (e : ARViewer.Event) :
  ARViewer.mounted (ARViewer.host w) = true ->
  ARViewer_frame_ready flag w ->
  is_unmount e = false ->
  ARViewer.mounted (ARViewer.host (ARViewer.dispatch w e)) = true
  /\ ARViewer_frame_ready flag (ARViewer.dispatch w e).
Proof.
  intros Hm Hr He.
  destruct e as [r | rq ss | m | | | win | att]; cbn [ARViewer.dispatch];
    try discriminate He.
  - unfold ARViewer.checkARSupport_settled, ARViewer_frame_ready in *.
    break_world w. destruct probe_pending; [destruct r|]; cbn; auto.
  - destruct (_ && _); [|auto].
    unfold ARViewer.startARSession, ARViewer.startARSession_catch,
      ARViewer_frame_ready in *.
    destruct Hr as (Hc & r & o & Hr & Hl & Ho).
    break_world w. subst. destruct r as [? ? ? ? ? ? ? ? ? ?]; cbn in *.
    destruct navigator_xr, rq, ss, sceneRef; cbn; frame_ready_tac.
  - destruct (ARViewer.session (ARViewer.host w)); [|auto].
    destruct (ARViewer.controllerRef (ARViewer.refs w)) as [g|] eqn:Hg; [|auto].
    match goal with
    | |- context [fold_left ?f ?hs ?w0] =>
        destruct (ARViewer_handleSelects_frame hs w0) as (_ & Hh & _);
        pose proof (ARViewer_handleSelects_ready flag hs w0) as Hk
    end.
    cbv zeta in Hh. rewrite Hh. split.
    + break_world w. assumption.
    + apply Hk. unfold ARViewer_frame_ready in *. break_world w. assumption.
  - unfold ARViewer.onSessionEnd, ARViewer_frame_ready in *.
    destruct Hr as (Hc & r & o & Hr & Hl & Ho).
    break_world w. subst. destruct r; cbn in *.
    destruct session as [[|]|]; cbn; frame_ready_tac.
  - unfold ARViewer_frame_ready in *.
    destruct Hr as (Hc & r & o & Hr & Hl & Ho).
    rewrite Hr, Hl. unfold ARViewer.animationLoopCallback.
    break_world w. subst.
    destruct flag, sceneRef, cameraRef; cbn; frame_ready_tac.
  - unfold ARViewer.handleResize, ARViewer.set_size, ARViewer_frame_ready in *.
    destruct Hr as (Hc & r & o & Hr & Hl & Ho).
    break_world w. subst. destruct r as [? ? ? ? ? ? ? ? ? [|]]; cbn in *.
    all: destruct resizeListener, cameraRef; cbn; frame_ready_tac.
Qed.

(** Running the main effect again registers a callback for the current
    [isObjectPlaced]. *)
Lemma ARViewer_rerun_ready (props : ARViewer.ARViewerProps) (w : ARViewer.World) :
  ARViewer.containerRef (ARViewer.refs w) = true ->
  ARViewer.mounted (ARViewer.host w) = true ->
  let w' := ARViewer.mainEffect props (ARViewer.mainEffect_cleanup w) in
  ARViewer.mounted (ARViewer.host w') = true
  /\ ARViewer_frame_ready (ARViewer.isObjectPlaced (ARViewer.state w)) w'.
Proof.
  intros Hc Hm. cbv zeta.
  unfold ARViewer.mainEffect, ARViewer.initializeScene,
    ARViewer.startAnimationLoop, ARViewer.mainEffect_cleanup,
    ARViewer.initializeScene_cleanup, ARViewer_frame_ready.
  break_world w. subst.
  destruct rendererRef as [[? ? ? ? ? ? ? xs ? ?]|], sceneCleanup;
    cbn; try destruct xs; cbn; frame_ready_tac.
Qed.

Lemma ARViewer_unmounted_in_sync (w : ARViewer.World) :
  ARViewer_unmounted w -> ARViewer_loop_in_sync w.
Proof.
  intros [Hm Hl]. split; intros H; [congruence | assumption].
Qed.

Lemma ARViewer_mount_in_sync (props : ARViewer.ARViewerProps) (win : Window)
    (xr : bool) :
  ARViewer_loop_in_sync (ARViewer.mount props (ARViewer.initial win xr)).
Proof.
  split; intros H.
  - destruct xr; cbn; frame_ready_tac.
  - destruct xr; discriminate H.
Qed.

(** The invariant of ARViewer.tsx: each step leaves the registered frame
    callback in step with [isObjectPlaced]. *)
Lemma ARViewer_step_in_sync (props : ARViewer.ARViewerProps)
    (w : ARViewer.World) (e : ARViewer.Event) :
  ARViewer_loop_in_sync w -> ARViewer_loop_in_sync (ARViewer.step props w e).
Proof.
  intros [Hon Hoff].
  destruct (ARViewer.mounted (ARViewer.host w)) eqn:Hm.
  - specialize (Hon eq_refl).
    destruct (is_unmount e) eqn:He.
    + destruct e; try discriminate He.
      apply ARViewer_unmounted_in_sync.
      now apply ARViewer_unmount_unmounted.
    + destruct (ARViewer_dispatch_ready _ w e Hm Hon He) as [Hm1 Hr1].
      unfold ARViewer.step, ARViewer.commit. rewrite Hm1. cbn [andb].
      destruct (Bool.eqb (ARViewer.isObjectPlaced (ARViewer.state w))
                  (ARViewer.isObjectPlaced
                     (ARViewer.state (ARViewer.dispatch w e)))) eqn:Heq;
        cbn [negb].
      * apply Bool.eqb_prop in Heq. rewrite Heq in Hr1.
        split; intros H; [assumption | congruence].
      * destruct (ARViewer_rerun_ready props (ARViewer.dispatch w e)
                    (proj1 Hr1) Hm1) as [Hm2 Hr2].
        split; intros H; [|congruence].
        now rewrite ARViewer_mainEffect_state, ARViewer_mainEffect_cleanup_state.
  - apply ARViewer_unmounted_in_sync.
    apply ARViewer_unmounted_step. split; [assumption | now apply Hoff].
Qed.

Lemma ARViewer_run_in_sync (props : ARViewer.ARViewerProps)
    (es : list ARViewer.Event) :
  forall w : ARViewer.World,
    ARViewer_loop_in_sync w -> ARViewer_loop_in_sync (ARViewer.run props w es).
Proof.
  induction es as [|e es IH]; intros w H; cbn; [assumption|].
  apply IH. now apply ARViewer_step_in_sync.
Qed.

Lemma ARViewer_reachable_in_sync (props : ARViewer.ARViewerProps) (win : Window)
    (xr : bool) (es : list ARViewer.Event) :
  ARViewer_loop_in_sync (ARViewer_reachable props win xr es).
Proof. apply ARViewer_run_in_sync, ARViewer_mount_in_sync. Qed.

(** One frame of a world in step: no spin while [isObjectPlaced] is
    false, one spin of the object in [objectRef] while it is true and
    the component is mounted. *)
Lemma ARViewer_frame_in_sync (props : ARViewer.ARViewerProps)
    (w : ARViewer.World) :
  ARViewer_loop_in_sync w ->
  let w' := ARViewer.step props w ARViewer.frame in
  (ARViewer.isObjectPlaced (ARViewer.state w) = false ->
   ARViewer.objectRef (ARViewer.refs w') = ARViewer.objectRef (ARViewer.refs w))
  /\ (ARViewer.isObjectPlaced (ARViewer.state w) = true ->
      ARViewer.mounted (ARViewer.host w) = true ->
      exists o : ARViewer.Mesh,
        ARViewer.objectRef (ARViewer.refs w) = Some o
        /\ ARViewer.objectRef (ARViewer.refs w') = Some (ARViewer.spin o)).
Proof.
  intros [Hon Hoff]. cbv zeta.
  assert (Hstate : ARViewer.state (ARViewer.dispatch w ARViewer.frame)
                   = ARViewer.state w).
  { cbn [ARViewer.dispatch]. unfold ARViewer.animationLoopCallback.
    break_world w.
    destruct rendererRef as [[? ? ? ? [[|]|] ? ? ? ? ?]|], objectRef, sceneRef,
      cameraRef; reflexivity. }
  assert (Hcommit : ARViewer.step props w ARViewer.frame
                    = ARViewer.dispatch w ARViewer.frame).
  { unfold ARViewer.step, ARViewer.commit. rewrite Hstate, Bool.eqb_reflx.
    now rewrite andb_false_r. }
  rewrite Hcommit. cbn [ARViewer.dispatch].
  destruct (ARViewer.mounted (ARViewer.host w)) eqn:Hm.
  - destruct (Hon eq_refl) as (_ & r & o & Hr & Hl & Ho).
    rewrite Hr, Hl. unfold ARViewer.animationLoopCallback. split.
    + intros Hp. rewrite Hp. break_world w.
      destruct sceneRef, cameraRef; reflexivity.
    + intros Hp _. rewrite Hp, Ho. exists o. split; [reflexivity|].
      break_world w. destruct sceneRef, cameraRef; reflexivity.
  - specialize (Hoff eq_refl). unfold ARViewer_loop_off in Hoff. split.
    + intros _.
      destruct (ARViewer.rendererRef (ARViewer.refs w)) as [r|];
        [rewrite Hoff|]; reflexivity.
    + intros _ H. discriminate H.
Qed.

Lemma angle_step_increases (a : number) : a < a + 0.01.
Proof. lra. Qed.

Lemma ARViewer1_frame_callback (c : ARViewer1.Closure) (w : ARViewer1.World) :
  let c' := fst (ARViewer1.animationLoopCallback c w) in
  ARViewer1.objectPlaced c' = ARViewer1.objectPlaced c
  /\ ARViewer1.cube c'
     = (if ARViewer1.objectPlaced c then ARViewer1.spin (ARViewer1.cube c)
        else ARViewer1.cube c)
  /\ ARViewer1.calls (snd (ARViewer1.animationLoopCallback c w))
     = ARViewer1.calls w ++ [renderer_render false].
Proof.
  unfold ARViewer1.animationLoopCallback. cbn.
  destruct (ARViewer1.objectPlaced c) eqn:H; cbn; rewrite ?H; auto.
Qed.

Lemma ARViewer1_frames_unplaced (n : nat) :
  forall (c : ARViewer1.Closure) (w : ARViewer1.World),
    ARViewer1.objectPlaced c = false ->
    ARViewer1.cube (fst (ARViewer1_frames n c w)) = ARViewer1.cube c.
Proof.
  induction n as [|n IH]; intros c w H; cbn [ARViewer1_frames]; [reflexivity|].
  destruct (ARViewer1_frame_callback c w) as (Hp & Hc & _).
  destruct (ARViewer1.animationLoopCallback c w) as [c1 w1]. cbn in Hp, Hc.
  cbv beta iota. rewrite H in Hc, Hp. rewrite (IH c1 w1 Hp). assumption.
Qed.

Lemma ARViewer1_frames_placed (n : nat) :
  forall (c : ARViewer1.Closure) (w : ARViewer1.World),
    ARViewer1.objectPlaced c = true ->
    let o := ARViewer1.cube c in
    let o' := ARViewer1.cube (fst (ARViewer1_frames n c w)) in
    e_x (ARViewer1.rotation o')
    == e_x (ARViewer1.rotation o) + inject_Z (Z.of_nat n) * 0.01
    /\ e_y (ARViewer1.rotation o')
       == e_y (ARViewer1.rotation o) + inject_Z (Z.of_nat n) * 0.01
    /\ e_z (ARViewer1.rotation o') = e_z (ARViewer1.rotation o)
    /\ ARViewer1.position o' = ARViewer1.position o.
Proof.
  induction n as [|n IH]; intros c w H; cbv zeta.
  - cbn [ARViewer1_frames fst Z.of_nat]. change (inject_Z 0) with 0.
    repeat split; try reflexivity; lra.
  - cbn [ARViewer1_frames].
    destruct (ARViewer1_frame_callback c w) as (Hp & Hc & _).
    destruct (ARViewer1.animationLoopCallback c w) as [c1 w1]. cbn in Hp, Hc.
    cbv beta iota. rewrite H in Hc, Hp.
    destruct (IH c1 w1 Hp) as (Hx & Hy & Hz & Hpos). cbv zeta in *.
    rewrite Hc in Hx, Hy, Hz, Hpos. cbn in Hx, Hy, Hz, Hpos.
    rewrite Nat2Z.inj_succ. unfold Z.succ. rewrite inject_Z_plus.
    change (inject_Z 1) with 1.
    repeat split; try assumption; lra.
Qed.

(** C4: the frame step leaves the rotation alone while the object is not
    placed and, once it is placed, adds 0.01 to the x and to the y angle,
    which thereby strictly increase; the z angle and the position stay.
    For ARViewer.tsx this holds in every world the component can reach
    (the registered callback has captured the current [isObjectPlaced]);
    for the single-effect ARViewer in every state of the effect closure, where
    [n] frames after placement have added n * 0.01 to both angles.  The
    code stores the accumulated angle and never reduces it mod 2 pi. *)
Theorem C4_rotation_only_after_placement :
  (forall (props : ARViewer.ARViewerProps) (win : Window) (xr : bool)
          (es : list ARViewer.Event),
      let w := ARViewer_reachable props win xr es in
      let w' := ARViewer.step props w ARViewer.frame in
      (ARViewer.isObjectPlaced (ARViewer.state w) = false ->
       ARViewer.objectRef (ARViewer.refs w') = ARViewer.objectRef (ARViewer.refs w))
      /\ (ARViewer.isObjectPlaced (ARViewer.state w) = true ->
          ARViewer.mounted (ARViewer.host w) = true ->
          exists o o' : ARViewer.Mesh,
            ARViewer.objectRef (ARViewer.refs w) = Some o
            /\ ARViewer.objectRef (ARViewer.refs w') = Some o'
            /\ e_x (ARViewer.rotation o') = e_x (ARViewer.rotation o) + 0.01
            /\ e_y (ARViewer.rotation o') = e_y (ARViewer.rotation o) + 0.01
            /\ e_z (ARViewer.rotation o') = e_z (ARViewer.rotation o)
            /\ ARViewer.position o' = ARViewer.position o
            /\ e_x (ARViewer.rotation o) < e_x (ARViewer.rotation o')
            /\ e_y (ARViewer.rotation o) < e_y (ARViewer.rotation o')))
  /\ (forall (c : ARViewer1.Closure) (w : ARViewer1.World),
         let o := ARViewer1.cube c in
         let o' := ARViewer1.cube (fst (ARViewer1.animationLoopCallback c w)) in
         (ARViewer1.objectPlaced c = false -> o' = o)
         /\ (ARViewer1.objectPlaced c = true ->
             e_x (ARViewer1.rotation o') = e_x (ARViewer1.rotation o) + 0.01
             /\ e_y (ARViewer1.rotation o') = e_y (ARViewer1.rotation o) + 0.01
             /\ e_z (ARViewer1.rotation o') = e_z (ARViewer1.rotation o)
             /\ ARViewer1.position o' = ARViewer1.position o
             /\ e_x (ARViewer1.rotation o) < e_x (ARViewer1.rotation o')
             /\ e_y (ARViewer1.rotation o) < e_y (ARViewer1.rotation o')))
  /\ (forall (n : nat) (c : ARViewer1.Closure) (w : ARViewer1.World),
         let o := ARViewer1.cube c in
         let o' := ARViewer1.cube (fst (ARViewer1_frames n c w)) in
         (ARViewer1.objectPlaced c = false -> o' = o)
         /\ (ARViewer1.objectPlaced c = true ->
             e_x (ARViewer1.rotation o')
             == e_x (ARViewer1.rotation o) + inject_Z (Z.of_nat n) * 0.01
             /\ e_y (ARViewer1.rotation o')
                == e_y (ARViewer1.rotation o) + inject_Z (Z.of_nat n) * 0.01
             /\ e_z (ARViewer1.rotation o') = e_z (ARViewer1.rotation o)
             /\ ARViewer1.position o' = ARViewer1.position o)).
Proof.
  split; [|split].
  - intros props win xr es. cbv zeta.
    destruct (ARViewer_frame_in_sync props _
                (ARViewer_reachable_in_sync props win xr es)) as [Hoff Hon].
    split; [exact Hoff|].
    intros Hp Hm. destruct (Hon Hp Hm) as (o & Ho & Ho').
    exists o, (ARViewer.spin o).
    repeat split; try assumption; cbn; apply angle_step_increases.
  - intros c w. cbv zeta.
    destruct (ARViewer1_frame_callback c w) as (_ & Hc & _). split.
    + intros H. now rewrite H in Hc.
    + intros H. rewrite H in Hc. rewrite Hc.
      repeat split; cbn; apply angle_step_increases.
  - intros n c w. cbv zeta. split.
    + now apply ARViewer1_frames_unplaced.
    + now apply ARViewer1_frames_placed.
Qed.

(** C4 at ARViewer.tsx right after a placement: the next frame turns the
    object by 0.01 on x and y. *)
Lemma C4_rotation_only_after_placement_witness :
  let w := ARViewer_reachable Samples.props Samples.win true Samples.place_once in
  let w' := ARViewer.step Samples.props w ARViewer.frame in
  ARViewer.isObjectPlaced (ARViewer.state w) = true
  /\ ARViewer.mounted (ARViewer.host w) = true
  /\ exists o o' : ARViewer.Mesh,
      ARViewer.objectRef (ARViewer.refs w) = Some o
      /\ ARViewer.objectRef (ARViewer.refs w') = Some o'
      /\ e_x (ARViewer.rotation o') = e_x (ARViewer.rotation o) + 0.01
      /\ e_y (ARViewer.rotation o') = e_y (ARViewer.rotation o) + 0.01
      /\ e_z (ARViewer.rotation o') = e_z (ARViewer.rotation o)
      /\ ARViewer.position o' = ARViewer.position o
      /\ e_x (ARViewer.rotation o) < e_x (ARViewer.rotation o')
      /\ e_y (ARViewer.rotation o) < e_y (ARViewer.rotation o').
Proof.
  cbv zeta. split; [reflexivity | split; [reflexivity|]].
  apply (proj2 (proj1 C4_rotation_only_after_placement
                  Samples.props Samples.win true Samples.place_once));
    reflexivity.
Defined.

(** ** The capability probe (C5) *)

(** What a run of [handleSelect] closures may change: neither the
    supported state, nor the host, nor the number of calls that [f]
    counts, as long as [f] counts neither additions nor positions. *)
Lemma ARViewer_handleSelects_quiet (f : Call -> bool) (hs : list bool) :
  f (scene_add PlacedObject) = false ->
  (forall p, f (position_set p) = false) ->
  forall w : ARViewer.World,
    let w' := fold_left (fun w h => ARViewer.handleSelect h w) hs w in
    ARViewer.isARSupported (ARViewer.state w')
    = ARViewer.isARSupported (ARViewer.state w)
    /\ ARViewer.isARSessionActive (ARViewer.state w')
       = ARViewer.isARSessionActive (ARViewer.state w)
    /\ ARViewer.host w' = ARViewer.host w
    /\ count f (ARViewer.calls w') = count f (ARViewer.calls w).
Proof.
  intros Hadd Hpos.
  induction hs as [|h hs IH]; intros w; cbn [fold_left]; cbv zeta.
  - repeat split.
  - destruct (IH (ARViewer.handleSelect h w)) as (H1 & H2 & H3 & H4).
    cbv zeta in H1, H2, H3, H4. rewrite H1, H2, H3, H4.
    unfold ARViewer.handleSelect. break_world w.
    destruct h, objectRef, controllerRef, sceneRef; cbn; repeat split;
      unfold count; repeat rewrite filter_app; cbn;
      rewrite Hadd, Hpos; repeat rewrite app_nil_r; reflexivity.
Qed.

(** Running the main effect again leaves state, probe and session as they
    are and calls neither the capability query nor [requestSession]. *)
Lemma ARViewer_commit_quiet (props : ARViewer.ARViewerProps)
    (before w : ARViewer.World) :
  let w' := ARViewer.commit props before w in
  ARViewer.state w' = ARViewer.state w
  /\ ARViewer.probe_pending (ARViewer.host w')
     = ARViewer.probe_pending (ARViewer.host w)
  /\ count is_capability_query (ARViewer.calls w')
     = count is_capability_query (ARViewer.calls w)
  /\ count is_requestSession (ARViewer.calls w')
     = count is_requestSession (ARViewer.calls w).
Proof.
  cbv zeta. unfold ARViewer.commit. destruct (_ && _); [|repeat split].
  unfold ARViewer.mainEffect, ARViewer.initializeScene,
    ARViewer.startAnimationLoop, ARViewer.mainEffect_cleanup,
    ARViewer.initializeScene_cleanup.
  break_world w.
  destruct rendererRef as [[? ? ? ? ? ? ? xs ? ?]|], sceneCleanup, containerRef;
    cbn; try destruct xs; cbn; repeat split; count_calls.
Qed.

(** Only the settling of the query touches the supported state, and no
    event issues the query again. *)
Lemma ARViewer_step_probe (props : ARViewer.ARViewerProps)
    (w : ARViewer.World) (e : ARViewer.Event) :
  let w' := ARViewer.step props w e in
  count is_capability_query (ARViewer.calls w')
  = count is_capability_query (ARViewer.calls w)
  /\ (ARViewer_is_probe_settled e = false ->
      ARViewer.isARSupported (ARViewer.state w')
      = ARViewer.isARSupported (ARViewer.state w)
      /\ ARViewer.probe_pending (ARViewer.host w')
         = ARViewer.probe_pending (ARViewer.host w)).
Proof.
  cbv zeta. unfold ARViewer.step.
  destruct (ARViewer_commit_quiet props w (ARViewer.dispatch w e))
    as (Hs & Hp & Hq & _).
  cbv zeta in Hs, Hp, Hq. rewrite Hs, Hp, Hq. clear Hs Hp Hq.
  destruct e as [r | rq ss | m | | | win | att]; cbn [ARViewer.dispatch].
  - split; [|discriminate].
    unfold ARViewer.checkARSupport_settled. break_world w.
    destruct probe_pending; [destruct r|]; reflexivity.
  - destruct (_ && _); [|auto].
    unfold ARViewer.startARSession, ARViewer.startARSession_catch,
      ARViewer.getController0, ARViewer.addEventListener_select.
    break_world w.
    destruct navigator_xr, rq, ss, rendererRef as [[]|], sceneRef; cbn;
      repeat split; count_calls.
  - destruct (ARViewer.session (ARViewer.host w)); [|auto].
    destruct (ARViewer.controllerRef (ARViewer.refs w)) as [g|]; [|auto].
    match goal with
    | |- context [fold_left ?f ?hs ?w0] =>
        destruct (ARViewer_handleSelects_quiet is_capability_query hs
                    eq_refl (fun _ => eq_refl) w0) as (H1 & _ & H3 & H4)
    end.
    cbv zeta in H1, H3, H4. rewrite H1, H3, H4. break_world w. auto.
  - unfold ARViewer.onSessionEnd. break_world w.
    destruct session as [[|]|]; destruct rendererRef as [[]|]; cbn; auto.
  - unfold ARViewer.animationLoopCallback. break_world w.
    destruct rendererRef as [[? ? ? ? [[|]|] ? ? ? ? ?]|], objectRef, sceneRef,
      cameraRef; cbn; repeat split; count_calls.
  - unfold ARViewer.handleResize. break_world w.
    destruct resizeListener, containerRef, cameraRef, rendererRef as [[]|];
      cbn; auto.
  - destruct (ARViewer.mounted (ARViewer.host w)); [|auto].
    unfold ARViewer.mainEffect_cleanup, ARViewer.initializeScene_cleanup.
    break_world w.
    destruct rendererRef as [[? ? ? ? ? ? ? xs ? ?]|], sceneCleanup, att;
      cbn; try destruct xs; cbn; repeat split; count_calls.
Qed.

Ltac break_shoe w :=
  let cl := fresh "cl" in
  let hs := fresh "hs" in
  let cs := fresh "cs" in
  destruct w as [? cl hs cs]; destruct hs; cbn in *.

Lemma ARShoeApp_repeat_onSelect_quiet (n : nat) (ev : ARShoeApp.SelectEvent) :
  forall (c : ARShoeApp.Closure) (w : ARShoeApp.World),
    let w' := snd (ARShoeApp.repeat_onSelect n ev c w) in
    ARShoeApp.isARSupported w' = ARShoeApp.isARSupported w
    /\ ARShoeApp.host w' = ARShoeApp.host w
    /\ count is_capability_query (ARShoeApp.calls w')
       = count is_capability_query (ARShoeApp.calls w).
Proof.
  induction n as [|n IH]; intros c w; cbn [ARShoeApp.repeat_onSelect]; cbv zeta.
  - repeat split.
  - assert (H : let w1 := snd (ARShoeApp.onSelect ev c w) in
                ARShoeApp.isARSupported w1 = ARShoeApp.isARSupported w
                /\ ARShoeApp.host w1 = ARShoeApp.host w
                /\ count is_capability_query (ARShoeApp.calls w1)
                   = count is_capability_query (ARShoeApp.calls w)).
    { unfold ARShoeApp.onSelect.
      destruct (ARShoeApp.pose_of ev), (ARShoeApp.model c); cbn;
        repeat split; count_calls. }
    destruct (ARShoeApp.onSelect ev c w) as [c1 w1]. cbv zeta in H. cbn in H.
    destruct H as (H1 & H2 & H3).
    destruct (IH c1 w1) as (K1 & K2 & K3). cbv zeta in K1, K2, K3.
    repeat split; congruence.
Qed.

(** In ARShoeApp, too, only the settling of the query touches the
    supported state, and no event issues the query again. *)
Lemma ARShoeApp_dispatch_probe (w : ARShoeApp.World) (e : ARShoeApp.Event) :
  let w' := ARShoeApp.dispatch w e in
  count is_capability_query (ARShoeApp.calls w')
  = count is_capability_query (ARShoeApp.calls w)
  /\ (ARShoeApp_is_probe_settled e = false ->
      ARShoeApp.isARSupported w' = ARShoeApp.isARSupported w
      /\ ARShoeApp.probe_pending (ARShoeApp.host w')
         = ARShoeApp.probe_pending (ARShoeApp.host w)).
Proof.
  cbv zeta.
  destruct e as [r | | err | | ev | | | ]; cbn [ARShoeApp.dispatch].
  - split; [|discriminate].
    unfold ARShoeApp.checkARSupport_settled. break_shoe w.
    destruct probe_pending; [destruct r|]; cbn; count_calls.
  - unfold ARShoeApp.in_closure. break_shoe w.
    destruct cl as [[? ? ? [?|]]|]; cbn; auto.
  - break_shoe w. split; [count_calls | auto].
  - break_shoe w. destruct cl; cbn; auto.
  - destruct (ARShoeApp.session (ARShoeApp.host w)) as [n|]; [|auto].
    unfold ARShoeApp.in_closure.
    destruct (ARShoeApp.closure w) as [c|]; [|auto].
    destruct (ARShoeApp_repeat_onSelect_quiet n ev c w) as (H1 & H2 & H3).
    destruct (ARShoeApp.repeat_onSelect n ev c w) as [c' w'].
    cbv zeta in H1, H2, H3. cbn in H1, H2, H3 |- *.
    rewrite H1, H2. split; [exact H3 | auto].
  - break_shoe w. auto.
  - unfold ARShoeApp.in_closure, ARShoeApp.animationLoopCallback.
    break_shoe w. destruct cl as [[? ? [? ? ? [|] ?] ?]|]; cbn;
      split; auto; count_calls.
  - unfold ARShoeApp.in_closure, ARShoeApp.cleanup. break_shoe w.
    destruct mounted, cl as [[? ? [] ?]|]; cbn; split; auto; count_calls.
Qed.

(** While the query of ARShoeApp is pending the supported state still has
    its initial value, false. *)
Lemma ARShoeApp_pending_unsupported (win : Window) (xr : bool)
    (es : list ARShoeApp.Event) :
  let w := ARShoeApp_reachable win xr es in
  ARShoeApp.probe_pending (ARShoeApp.host w) = true ->
  ARShoeApp.isARSupported w = false.
Proof.
  cbv zeta. unfold ARShoeApp_reachable, ARShoeApp.run.
  rewrite <- (rev_involutive es).
  induction (rev es) as [|e es' IH]; cbn [rev].
  - destruct xr; reflexivity.
  - rewrite fold_left_app. cbn [fold_left].
    set (w := fold_left ARShoeApp.dispatch (rev es') _) in *.
    destruct (ARShoeApp_dispatch_probe w e) as [_ H]. cbv zeta in H.
    destruct (ARShoeApp_is_probe_settled e) eqn:He.
    + destruct e; try discriminate He. cbn [ARShoeApp.dispatch].
      unfold ARShoeApp.checkARSupport_settled.
      destruct (ARShoeApp.probe_pending (ARShoeApp.host w)) eqn:Hp;
        [|rewrite Hp; discriminate].
      destruct w as [? ? [] ?]; destruct r; cbn; discriminate.
    + destruct (H eq_refl) as [H1 H2]. rewrite H1, H2. exact IH.
Qed.

(** When the pending query settles, the supported state takes its
    outcome. *)
Lemma ARViewer_probe_settles (props : ARViewer.ARViewerProps)
    (w : ARViewer.World) (r : Settled bool) :
  ARViewer.probe_pending (ARViewer.host w) = true ->
  let w' := ARViewer.step props w (ARViewer.probe_settled r) in
  ARViewer.isARSupported (ARViewer.state w') = probe_outcome r
  /\ ARViewer.probe_pending (ARViewer.host w') = false.
Proof.
  intros Hp. cbv zeta. unfold ARViewer.step.
  destruct (ARViewer_commit_quiet props w
              (ARViewer.dispatch w (ARViewer.probe_settled r)))
    as (Hs & Hq & _).
  cbv zeta in Hs, Hq. rewrite Hs, Hq. cbn [ARViewer.dispatch].
  unfold ARViewer.checkARSupport_settled. rewrite Hp.
  break_world w. destruct r; split; reflexivity.
Qed.

Lemma ARShoeApp_probe_settles (win : Window) (xr : bool)
    (es : list ARShoeApp.Event) (r : Settled bool) :
  let w := ARShoeApp_reachable win xr es in
  ARShoeApp.probe_pending (ARShoeApp.host w) = true ->
  let w' := ARShoeApp.dispatch w (ARShoeApp.probe_settled r) in
  ARShoeApp.isARSupported w' = probe_outcome r
  /\ ARShoeApp.probe_pending (ARShoeApp.host w') = false.
Proof.
  cbv zeta. intros Hp.
  pose proof (ARShoeApp_pending_unsupported win xr es Hp) as Hu.
  cbn [ARShoeApp.dispatch]. unfold ARShoeApp.checkARSupport_settled.
  rewrite Hp.
  destruct (ARShoeApp_reachable win xr es) as [? ? [] ?]. cbn in *.
  destruct r; split; cbn; congruence.
Qed.

(** C5: the probe runs in the effects of the mount.  Without [xr] in
    [navigator] the component is unsupported at once and no query is
    made; otherwise one query is issued, and when it settles the
    supported state becomes the resolved value, or false on rejection.
    Nothing else ever writes the supported state or issues the query
    again, and a second settling is ignored.  ARViewer.tsx writes the
    state in every case; ARShoeApp starts from false and writes it only
    on resolution, which gives the same outcome. *)
Theorem C5_capability_probe :
  (forall (props : ARViewer.ARViewerProps) (win : Window),
      let w := ARViewer.mount props (ARViewer.initial win false) in
      ARViewer.isARSupported (ARViewer.state w) = false
      /\ ARViewer.probe_pending (ARViewer.host w) = false
      /\ count is_capability_query (ARViewer.calls w) = 0%nat)
  /\ (forall (props : ARViewer.ARViewerProps) (win : Window),
         let w := ARViewer.mount props (ARViewer.initial win true) in
         ARViewer.probe_pending (ARViewer.host w) = true
         /\ count is_capability_query (ARViewer.calls w) = 1%nat)
  /\ (forall (props : ARViewer.ARViewerProps) (w : ARViewer.World)
             (r : Settled bool),
         ARViewer.probe_pending (ARViewer.host w) = true ->
         let w' := ARViewer.step props w (ARViewer.probe_settled r) in
         ARViewer.isARSupported (ARViewer.state w') = probe_outcome r
         /\ ARViewer.probe_pending (ARViewer.host w') = false)
  /\ (forall (props : ARViewer.ARViewerProps) (w : ARViewer.World)
             (r : Settled bool),
         ARViewer.probe_pending (ARViewer.host w) = false ->
         ARViewer.step props w (ARViewer.probe_settled r) = w)
  /\ (forall (props : ARViewer.ARViewerProps) (w : ARViewer.World)
             (e : ARViewer.Event),
         let w' := ARViewer.step props w e in
         count is_capability_query (ARViewer.calls w')
         = count is_capability_query (ARViewer.calls w)
         /\ (ARViewer_is_probe_settled e = false ->
             ARViewer.isARSupported (ARViewer.state w')
             = ARViewer.isARSupported (ARViewer.state w)
             /\ ARViewer.probe_pending (ARViewer.host w')
                = ARViewer.probe_pending (ARViewer.host w)))
  /\ (forall win : Window,
         let w := ARShoeApp.mount (ARShoeApp.initial win false) in
         ARShoeApp.isARSupported w = false
         /\ ARShoeApp.probe_pending (ARShoeApp.host w) = false
         /\ count is_capability_query (ARShoeApp.calls w) = 0%nat)
  /\ (forall win : Window,
         let w := ARShoeApp.mount (ARShoeApp.initial win true) in
         ARShoeApp.probe_pending (ARShoeApp.host w) = true
         /\ count is_capability_query (ARShoeApp.calls w) = 1%nat)
  /\ (forall (win : Window) (xr : bool) (es : list ARShoeApp.Event)
             (r : Settled bool),
         let w := ARShoeApp_reachable win xr es in
         ARShoeApp.probe_pending (ARShoeApp.host w) = true ->
         let w' := ARShoeApp.dispatch w (ARShoeApp.probe_settled r) in
         ARShoeApp.isARSupported w' = probe_outcome r
         /\ ARShoeApp.probe_pending (ARShoeApp.host w') = false)
  /\ (forall (w : ARShoeApp.World) (r : Settled bool),
         ARShoeApp.probe_pending (ARShoeApp.host w) = false ->
         ARShoeApp.dispatch w (ARShoeApp.probe_settled r) = w)
  /\ (forall (w : ARShoeApp.World) (e : ARShoeApp.Event),
         let w' := ARShoeApp.dispatch w e in
         count is_capability_query (ARShoeApp.calls w')
         = count is_capability_query (ARShoeApp.calls w)
         /\ (ARShoeApp_is_probe_settled e = false ->
             ARShoeApp.isARSupported w' = ARShoeApp.isARSupported w
             /\ ARShoeApp.probe_pending (ARShoeApp.host w')
                = ARShoeApp.probe_pending (ARShoeApp.host w))).
Proof.
  repeat match goal with |- _ /\ _ => split end.
  - intros props win. cbv zeta. repeat split.
  - intros props win. cbv zeta. repeat split.
  - exact ARViewer_probe_settles.
  - intros props w r Hp. unfold ARViewer.step, ARViewer.commit.
    cbn [ARViewer.dispatch]. unfold ARViewer.checkARSupport_settled.
    rewrite Hp, Bool.eqb_reflx, andb_false_r. reflexivity.
  - exact ARViewer_step_probe.
  - intros win. cbv zeta. repeat split.
  - intros win. cbv zeta. repeat split.
  - exact ARShoeApp_probe_settles.
  - intros w r Hp. cbn [ARShoeApp.dispatch].
    unfold ARShoeApp.checkARSupport_settled. now rewrite Hp.
  - exact ARShoeApp_dispatch_probe.
Qed.

(** C5 at ARViewer.tsx on a platform whose query rejects. *)
Lemma C5_capability_probe_witness :
  ARViewer.probe_pending (ARViewer.host Samples.viewer_mounted) = true
  /\ (let w' := ARViewer.step Samples.props Samples.viewer_mounted
                  (ARViewer.probe_settled (Rejected "NotSupportedError")) in
      ARViewer.isARSupported (ARViewer.state w') = false
      /\ ARViewer.probe_pending (ARViewer.host w') = false).
Proof.
  split; [reflexivity|].
  exact (proj1 (proj2 (proj2 C5_capability_probe)) Samples.props
           Samples.viewer_mounted (Rejected "NotSupportedError") eq_refl).
Defined.

(** ** Failure of the session request (C6) *)

(** Only a click on the start button calls [requestSession]. *)
Lemma ARViewer_step_no_request (props : ARViewer.ARViewerProps)
    (w : ARViewer.World) (e : ARViewer.Event) :
  ARViewer_is_click e = false ->
  count is_requestSession (ARViewer.calls (ARViewer.step props w e))
  = count is_requestSession (ARViewer.calls w).
Proof.
  intros He. unfold ARViewer.step.
  destruct (ARViewer_commit_quiet props w (ARViewer.dispatch w e))
    as (_ & _ & _ & Hq).
  cbv zeta in Hq. rewrite Hq. clear Hq.
  destruct e as [r | rq ss | m | | | win | att]; cbn [ARViewer.dispatch];
    try discriminate He.
  - unfold ARViewer.checkARSupport_settled. break_world w.
    destruct probe_pending; [destruct r|]; reflexivity.
  - destruct (ARViewer.session (ARViewer.host w)); [|auto].
    destruct (ARViewer.controllerRef (ARViewer.refs w)) as [g|]; [|auto].
    match goal with
    | |- context [fold_left ?f ?hs ?w0] =>
        destruct (ARViewer_handleSelects_quiet is_requestSession hs
                    eq_refl (fun _ => eq_refl) w0) as (_ & _ & _ & H4)
    end.
    cbv zeta in H4. rewrite H4. break_world w. reflexivity.
  - unfold ARViewer.onSessionEnd. break_world w.
    destruct session as [[|]|]; destruct rendererRef as [[]|]; reflexivity.
  - unfold ARViewer.animationLoopCallback. break_world w.
    destruct rendererRef as [[? ? ? ? [[|]|] ? ? ? ? ?]|], objectRef, sceneRef,
      cameraRef; cbn; count_calls.
  - unfold ARViewer.handleResize. break_world w.
    destruct resizeListener, containerRef, cameraRef, rendererRef as [[]|];
      reflexivity.
  - destruct (ARViewer.mounted (ARViewer.host w)); [|auto].
    unfold ARViewer.mainEffect_cleanup, ARViewer.initializeScene_cleanup.
    break_world w.
    destruct rendererRef as [[? ? ? ? ? ? ? xs ? ?]|], sceneCleanup, att;
      cbn; try destruct xs; cbn; count_calls.
Qed.

Lemma ARViewer1_dispatch_no_request (w : ARViewer1.World) (e : ARViewer1.Event) :
  ARViewer1_is_click e = false ->
  count is_requestSession (ARViewer1.calls (ARViewer1.dispatch w e))
  = count is_requestSession (ARViewer1.calls w).
Proof.
  intros He.
  destruct e as [rq ss | m | | | win | att]; cbn [ARViewer1.dispatch];
    try discriminate He.
  - destruct (ARViewer1.session (ARViewer1.host w)); [|auto].
    unfold ARViewer1.in_closure, ARViewer1.deliver_select, ARViewer1.onSelect.
    break_world1 w. destruct cl as [c|]; [|reflexivity]. break_closure1 c.
    destruct controller as [[mw [|]]|], objectPlaced; cbn; count_calls.
  - unfold ARViewer1.onSessionEnd, ARViewer1.in_closure. break_world1 w.
    destruct session as [[|]|]; destruct cl as [c|];
      try break_closure1 c; reflexivity.
  - unfold ARViewer1.in_closure, ARViewer1.animationLoopCallback.
    break_world1 w. destruct cl as [c|]; [|reflexivity]. break_closure1 c.
    destruct animationLoop, objectPlaced; cbn; count_calls.
  - unfold ARViewer1.in_closure, ARViewer1.handleResize. break_world1 w.
    destruct resizeListener, containerRef, cl as [c|];
      try break_closure1 c; reflexivity.
  - unfold ARViewer1.in_closure, ARViewer1.cleanup. break_world1 w.
    destruct mounted; [|reflexivity].
    destruct cl as [c|]; [|reflexivity]. break_closure1 c.
    destruct att, inDocument, xr_session; cbn; count_calls.
Qed.

(** C6: when [requestSession] rejects, [startARSession] logs the error
    to the console, sets the session state to inactive and does nothing
    else: the supported state, the placement state, every ref and the
    platform handles are as before, and the only request in the log is
    the one that failed.  No later event other than a new click issues a
    request.  The same holds for both [startARSession] functions of the
    single-effect ARViewer. *)
Theorem C6_session_request_failure :
  (forall (handleSelect_isObjectPlaced : bool) (error : string)
          (setSession : Settled unit) (w : ARViewer.World),
      ARViewer.navigator_xr (ARViewer.host w) = true ->
      let w' := ARViewer.startARSession handleSelect_isObjectPlaced
                  (Rejected error) setSession w in
      calls_since (List.length (ARViewer.calls w)) (ARViewer.calls w')
      = [xr_requestSession; console_error "Error starting AR session:" error]
      /\ ARViewer.state w'
         = ARViewer.mkState (ARViewer.isARSupported (ARViewer.state w)) false
             (ARViewer.isObjectPlaced (ARViewer.state w))
      /\ ARViewer.refs w' = ARViewer.refs w
      /\ ARViewer.host w' = ARViewer.host w)
  /\ (forall (props : ARViewer.ARViewerProps) (w : ARViewer.World)
             (e : ARViewer.Event),
         ARViewer_is_click e = false ->
         count is_requestSession (ARViewer.calls (ARViewer.step props w e))
         = count is_requestSession (ARViewer.calls w))
  /\ (forall (error : string) (setSession : Settled unit) (w : ARViewer1.World),
         ARViewer1.navigator_xr (ARViewer1.host w) = true ->
         let w' := ARViewer1.startARSession (Rejected error) setSession w in
         calls_since (List.length (ARViewer1.calls w)) (ARViewer1.calls w')
         = [xr_requestSession; console_error "Error starting AR session:" error]
         /\ ARViewer1.state w'
            = ARViewer1.mkState (ARViewer1.isARSupported (ARViewer1.state w)) false
         /\ ARViewer1.closure w' = ARViewer1.closure w
         /\ ARViewer1.host w' = ARViewer1.host w)
  /\ (forall (error : string) (setSession : Settled unit)
             (c : ARViewer1.Closure) (w : ARViewer1.World),
         ARViewer1.navigator_xr (ARViewer1.host w) = true ->
         let (c', w') :=
           ARViewer1.startARSession_inEffect (Rejected error) setSession c w in
         calls_since (List.length (ARViewer1.calls w)) (ARViewer1.calls w')
         = [xr_requestSession; console_error "Error starting AR session:" error]
         /\ ARViewer1.state w'
            = ARViewer1.mkState (ARViewer1.isARSupported (ARViewer1.state w)) false
         /\ c' = c
         /\ ARViewer1.host w' = ARViewer1.host w)
  /\ (forall (w : ARViewer1.World) (e : ARViewer1.Event),
         ARViewer1_is_click e = false ->
         count is_requestSession (ARViewer1.calls (ARViewer1.dispatch w e))
         = count is_requestSession (ARViewer1.calls w)).
Proof.
  repeat match goal with |- _ /\ _ => split end.
  - intros flag error ss w Hx. cbv zeta.
    unfold ARViewer.startARSession, ARViewer.startARSession_catch.
    rewrite Hx. break_world w. rewrite <- app_assoc.
    rewrite calls_since_app. repeat split.
  - exact ARViewer_step_no_request.
  - intros error ss w Hx. cbv zeta.
    unfold ARViewer1.startARSession, ARViewer1.startARSession_catch.
    rewrite Hx. break_world1 w. rewrite <- app_assoc.
    rewrite calls_since_app. repeat split.
  - intros error ss c w Hx.
    unfold ARViewer1.startARSession_inEffect, ARViewer1.startARSession_catch.
    rewrite Hx. break_world1 w. rewrite <- app_assoc.
    rewrite calls_since_app. repeat split.
  - exact ARViewer1_dispatch_no_request.
Qed.

(** C6 at a mounted ARViewer.tsx whose request is refused. *)
Lemma C6_session_request_failure_witness :
  ARViewer.navigator_xr (ARViewer.host Samples.viewer_mounted) = true
  /\ (let w' := ARViewer.startARSession false (Rejected "SecurityError")
                  (Resolved tt) Samples.viewer_mounted in
      calls_since (List.length (ARViewer.calls Samples.viewer_mounted))
                  (ARViewer.calls w')
      = [xr_requestSession;
         console_error "Error starting AR session:" "SecurityError"]
      /\ ARViewer.state w' = ARViewer.mkState true false false
      /\ ARViewer.refs w' = ARViewer.refs Samples.viewer_mounted
      /\ ARViewer.host w' = ARViewer.host Samples.viewer_mounted).
Proof.
  split; [reflexivity|].
  exact (proj1 C6_session_request_failure false "SecurityError" (Resolved tt)
           Samples.viewer_mounted eq_refl).
Defined.

(** ** Resize (C7) *)

(** C7, as the code has it.  A resize event writes the camera's aspect
    ratio (and recomputes its projection from it) and the size of the
    drawing surface, and nothing else: React state (session, placement,
    support), the object with its position and rotation, the scene, the
    controller, the session and the log are as before; of the renderer
    only the size changes.  The size is the one of the new window unless
    the renderer is presenting a session: then three.js ignores
    [setSize] and the surface keeps the size it had.  The renderer of the
    single-effect ARViewer never presents, so its size always follows. *)
Theorem C7_resize_touches_camera_and_surface_only :
  (forall (props : ARViewer.ARViewerProps) (w : ARViewer.World) (win : Window),
      let w' := ARViewer.step props w (ARViewer.resize win) in
      ARViewer.state w' = ARViewer.state w
      /\ ARViewer.objectRef (ARViewer.refs w') = ARViewer.objectRef (ARViewer.refs w)
      /\ ARViewer.sceneRef (ARViewer.refs w') = ARViewer.sceneRef (ARViewer.refs w)
      /\ ARViewer.controllerRef (ARViewer.refs w')
         = ARViewer.controllerRef (ARViewer.refs w)
      /\ ARViewer.session (ARViewer.host w') = ARViewer.session (ARViewer.host w)
      /\ ARViewer.calls w' = ARViewer.calls w
      /\ ARViewer.window (ARViewer.host w') = win
      /\ (forall (camera : PerspectiveCamera) (renderer : ARViewer.WebGLRenderer),
             ARViewer.resizeListener (ARViewer.host w) = true ->
             ARViewer.containerRef (ARViewer.refs w) = true ->
             ARViewer.cameraRef (ARViewer.refs w) = Some camera ->
             ARViewer.rendererRef (ARViewer.refs w) = Some renderer ->
             ARViewer.cameraRef (ARViewer.refs w')
             = Some (mkCamera (fov camera) (innerWidth win / innerHeight win)
                              (near camera) (far camera)
                              (innerWidth win / innerHeight win))
             /\ ARViewer.rendererRef (ARViewer.refs w')
                = Some (ARViewer.mkRenderer
                          (if ARViewer.xr_isPresenting renderer
                           then ARViewer.size renderer
                           else (innerWidth win, innerHeight win))
                          (ARViewer.pixelRatio renderer)
                          (ARViewer.inDocument renderer)
                          (ARViewer.disposed renderer)
                          (ARViewer.animationLoop renderer)
                          (ARViewer.xr_enabled renderer)
                          (ARViewer.xr_referenceSpaceType renderer)
                          (ARViewer.xr_session renderer)
                          (ARViewer.xr_controller0 renderer)
                          (ARViewer.xr_isPresenting renderer))))
  /\ (forall (props : ARViewer1.ARViewerProps) (win0 : Window) (xr : bool)
             (es : list ARViewer1.Event) (c : ARViewer1.Closure) (win : Window),
         let w := ARViewer1_reachable props win0 xr es in
         ARViewer1.mounted (ARViewer1.host w) = true ->
         ARViewer1.closure w = Some c ->
         let w' := ARViewer1.step props w (ARViewer1.resize win) in
         let r := ARViewer1.renderer c in
         ARViewer1.closure w'
         = Some (ARViewer1.mkClosure
                   (ARViewer1.scene c)
                   (mkCamera (fov (ARViewer1.camera c))
                             (innerWidth win / innerHeight win)
                             (near (ARViewer1.camera c))
                             (far (ARViewer1.camera c))
                             (innerWidth win / innerHeight win))
                   (ARViewer1.mkRenderer
                      (innerWidth win, innerHeight win)
                      (ARViewer1.pixelRatio r) (ARViewer1.inDocument r)
                      (ARViewer1.animationLoop r) (ARViewer1.xr_enabled r)
                      (ARViewer1.xr_referenceSpaceType r)
                      (ARViewer1.xr_session r))
                   (ARViewer1.cube c)
                   (ARViewer1.controller c)
                   (ARViewer1.objectPlaced c)))
  /\ (forall (w : ARViewer1.World) (win : Window),
         let w' := ARViewer1.dispatch w (ARViewer1.resize win) in
         ARViewer1.state w' = ARViewer1.state w
         /\ option_map ARViewer1.cube (ARViewer1.closure w')
            = option_map ARViewer1.cube (ARViewer1.closure w)
         /\ option_map ARViewer1.objectPlaced (ARViewer1.closure w')
            = option_map ARViewer1.objectPlaced (ARViewer1.closure w)
         /\ ARViewer1.session (ARViewer1.host w')
            = ARViewer1.session (ARViewer1.host w)
         /\ ARViewer1.calls w' = ARViewer1.calls w
         /\ ARViewer1.window (ARViewer1.host w') = win).
Proof.
  split; [|split].
  - intros props w win. cbv zeta. unfold ARViewer.step, ARViewer.commit.
    assert (Hs : ARViewer.state (ARViewer.dispatch w (ARViewer.resize win))
                 = ARViewer.state w).
    { cbn [ARViewer.dispatch]. unfold ARViewer.handleResize. break_world w.
      destruct resizeListener, containerRef, cameraRef, rendererRef;
        reflexivity. }
    rewrite Hs, Bool.eqb_reflx, andb_false_r.
    cbn [ARViewer.dispatch]. unfold ARViewer.handleResize. break_world w.
    repeat match goal with |- _ /\ _ => split end;
      try (destruct resizeListener, containerRef, cameraRef, rendererRef;
           reflexivity).
    intros camera renderer Hl Hc Hcam Hr. subst. unfold ARViewer.set_size.
    destruct renderer as [? ? ? ? ? ? ? ? ? [|]]; split; reflexivity.
  - intros props win0 xr es c win. cbv zeta. intros Hm Hc.
    destruct (ARViewer1_reachable_surface_ok props win0 xr es Hm) as [Hk Hcl].
    rewrite Hc in Hcl. destruct Hcl as (Hl & _).
    set (w := ARViewer1_reachable props win0 xr es) in *. clearbody w.
    unfold ARViewer1.step. cbn [ARViewer1.dispatch].
    unfold ARViewer1.in_closure, ARViewer1.handleResize.
    break_world1 w. subst. reflexivity.
  - intros w win. cbv zeta. cbn [ARViewer1.dispatch].
    unfold ARViewer1.in_closure, ARViewer1.handleResize. break_world1 w.
    destruct resizeListener, containerRef, cl as [c|]; repeat split.
Qed.

(** C7 at a mounted ARViewer.tsx and at a mounted single-effect ARViewer,
    neither in a session, whose window becomes narrow. *)
Lemma C7_resize_touches_camera_and_surface_only_witness :
  (let w := Samples.viewer_mounted in
   let w' := ARViewer.step Samples.props w (ARViewer.resize Samples.narrow) in
   ARViewer.resizeListener (ARViewer.host w) = true
   /\ ARViewer.containerRef (ARViewer.refs w) = true
   /\ option_map aspect (ARViewer.cameraRef (ARViewer.refs w')) = Some (400 / 600)
   /\ option_map ARViewer.size (ARViewer.rendererRef (ARViewer.refs w'))
      = Some (400, 600)
   /\ ARViewer.state w' = ARViewer.state w)
  /\ (let w := ARViewer1_reachable Samples.props1 Samples.win true [] in
      let w' := ARViewer1.step Samples.props1 w
                  (ARViewer1.resize Samples.narrow) in
      ARViewer1.mounted (ARViewer1.host w) = true
      /\ ARViewer1.closure w = Some Samples.closure1
      /\ option_map (fun c => ARViewer1.size (ARViewer1.renderer c))
           (ARViewer1.closure w')
         = Some (400, 600)
      /\ option_map (fun c => aspect (ARViewer1.camera c)) (ARViewer1.closure w')
         = Some (400 / 600)).
Proof.
  split; cbv zeta.
  - split; [reflexivity | split; [reflexivity|]].
    destruct (proj1 C7_resize_touches_camera_and_surface_only Samples.props
                Samples.viewer_mounted Samples.narrow)
      as (Hs & _ & _ & _ & _ & _ & _ & Hcam).
    destruct (Hcam (newPerspectiveCamera 70 (800 / 600) 0.01 20)
                (ARViewer.mkRenderer (800, 600) 1 true false (Some false)
                   false None false false false)
                eq_refl eq_refl eq_refl eq_refl) as [H1 H2].
    rewrite H1, H2. split; [reflexivity | split; [reflexivity | exact Hs]].
  - split; [reflexivity | split; [reflexivity|]].
    rewrite (proj1 (proj2 C7_resize_touches_camera_and_surface_only)
               Samples.props1 Samples.win true [] Samples.closure1
               Samples.narrow eq_refl eq_refl).
    split; reflexivity.
Defined.

(** C7 fails as stated while ARViewer.tsx is in a session: the window
    becomes narrow, the camera follows, and the drawing surface keeps
    the size it had when the session began. *)
Lemma C7_counterexample_resize_in_session :
  let w := Samples.viewer_in_session in
  let w' := ARViewer.step Samples.props w (ARViewer.resize Samples.narrow) in
  option_map ARViewer.xr_isPresenting (ARViewer.rendererRef (ARViewer.refs w))
  = Some true
  /\ ARViewer.window (ARViewer.host w') = Samples.narrow
  /\ option_map aspect (ARViewer.cameraRef (ARViewer.refs w')) = Some (400 / 600)
  /\ option_map ARViewer.size (ARViewer.rendererRef (ARViewer.refs w'))
     = Some (800, 600)
  /\ (800, 600) <> (innerWidth Samples.narrow, innerHeight Samples.narrow).
Proof. cbv zeta. repeat split; try reflexivity. discriminate. Qed.

(** ** The rendered overlay (C8, C10) *)

(** C8: whenever the supported state is false, which is what the probe
    records when the platform reports unsupported, the component renders
    the unsupported banner and no start button.  The JSX of ARShoeApp has
    no start button at all. *)
Theorem C8_unsupported_banner_no_start_button :
  (forall s : ARViewer.State,
      ARViewer.isARSupported s = false ->
      shows UnsupportedBanner (ARViewer.render s) = true
      /\ shows StartButton (ARViewer.render s) = false)
  /\ (forall (props : ARViewer.ARViewerProps) (w : ARViewer.World)
             (r : Settled bool),
         ARViewer.probe_pending (ARViewer.host w) = true ->
         probe_outcome r = false ->
         let w' := ARViewer.step props w (ARViewer.probe_settled r) in
         shows UnsupportedBanner (ARViewer.render (ARViewer.state w')) = true
         /\ shows StartButton (ARViewer.render (ARViewer.state w')) = false)
  /\ (forall isARSupported : bool,
         isARSupported = false ->
         shows UnsupportedBanner (ARShoeApp.render isARSupported) = true
         /\ shows StartButton (ARShoeApp.render isARSupported) = false)
  /\ (forall (win : Window) (xr : bool) (es : list ARShoeApp.Event)
             (r : Settled bool),
         let w := ARShoeApp_reachable win xr es in
         ARShoeApp.probe_pending (ARShoeApp.host w) = true ->
         probe_outcome r = false ->
         let w' := ARShoeApp.dispatch w (ARShoeApp.probe_settled r) in
         shows UnsupportedBanner (ARShoeApp.render (ARShoeApp.isARSupported w'))
         = true
         /\ shows StartButton (ARShoeApp.render (ARShoeApp.isARSupported w'))
            = false)
  /\ (forall s : ARViewer1.State,
         ARViewer1.isARSupported s = false ->
         shows UnsupportedBanner (ARViewer1.render s) = true
         /\ shows StartButton (ARViewer1.render s) = false).
Proof.
  assert (H1 : forall s : ARViewer.State,
             ARViewer.isARSupported s = false ->
             shows UnsupportedBanner (ARViewer.render s) = true
             /\ shows StartButton (ARViewer.render s) = false).
  { intros [sup act pl] H. cbn in H. subst sup.
    destruct act, pl; split; reflexivity. }
  assert (H3 : forall b : bool,
             b = false ->
             shows UnsupportedBanner (ARShoeApp.render b) = true
             /\ shows StartButton (ARShoeApp.render b) = false).
  { intros b H. subst b. split; reflexivity. }
  split; [exact H1 | split; [| split; [exact H3 | split]]].
  - intros props w r Hp Hr. cbv zeta. apply H1.
    destruct (ARViewer_probe_settles props w r Hp) as [H _].
    cbv zeta in H. congruence.
  - intros win xr es r. cbv zeta. intros Hp Hr. apply H3.
    destruct (ARShoeApp_probe_settles win xr es r Hp) as [H _].
    cbv zeta in H. congruence.
  - intros [sup act] H. cbn in H. subst sup. destruct act; split; reflexivity.
Qed.

(** C8 at a mounted ARViewer.tsx whose query resolves to false. *)
Lemma C8_unsupported_banner_no_start_button_witness :
  ARViewer.probe_pending (ARViewer.host Samples.viewer_mounted) = true
  /\ probe_outcome (Resolved false) = false
  /\ (let w' := ARViewer.step Samples.props Samples.viewer_mounted
                  (ARViewer.probe_settled (Resolved false)) in
      shows UnsupportedBanner (ARViewer.render (ARViewer.state w')) = true
      /\ shows StartButton (ARViewer.render (ARViewer.state w')) = false).
Proof.
  split; [reflexivity | split; [reflexivity|]].
  exact (proj1 (proj2 C8_unsupported_banner_no_start_button) Samples.props
           Samples.viewer_mounted (Resolved false) eq_refl eq_refl).
Defined.

(** C10: both ARViewer revisions start with the supported state true, so
    the first render of every mount shows the start button and no
    unsupported banner, whatever the platform.  In ARViewer.tsx this
    lasts while the query is pending, and the banner replaces the button
    only when the query resolves to false or rejects, or, without [xr]
    in [navigator], when the mount effect has run; in the single-effect
    ARViewer the effect of the mount does it when [xr] is missing. *)
Theorem C10_initially_shown_as_supported :
  (forall (win : Window) (xr : bool),
      let s := ARViewer.state (ARViewer.initial win xr) in
      ARViewer.isARSupported s = true
      /\ shows StartButton (ARViewer.render s) = true
      /\ shows UnsupportedBanner (ARViewer.render s) = false)
  /\ (forall (props : ARViewer.ARViewerProps) (win : Window),
         let w := ARViewer.mount props (ARViewer.initial win true) in
         shows StartButton (ARViewer.render (ARViewer.state w)) = true
         /\ shows UnsupportedBanner (ARViewer.render (ARViewer.state w)) = false
         /\ ARViewer.probe_pending (ARViewer.host w) = true
         /\ (forall r : Settled bool,
                let s := ARViewer.state
                           (ARViewer.step props w (ARViewer.probe_settled r)) in
                shows UnsupportedBanner (ARViewer.render s)
                = negb (probe_outcome r)
                /\ shows StartButton (ARViewer.render s) = probe_outcome r))
  /\ (forall (props : ARViewer.ARViewerProps) (win : Window),
         let w := ARViewer.mount props (ARViewer.initial win false) in
         shows UnsupportedBanner (ARViewer.render (ARViewer.state w)) = true
         /\ shows StartButton (ARViewer.render (ARViewer.state w)) = false)
  /\ (forall (win : Window) (xr : bool),
         let s := ARViewer1.state (ARViewer1.initial win xr) in
         ARViewer1.isARSupported s = true
         /\ shows StartButton (ARViewer1.render s) = true
         /\ shows UnsupportedBanner (ARViewer1.render s) = false)
  /\ (forall (props : ARViewer1.ARViewerProps) (win : Window),
         let w := ARViewer1.mount props (ARViewer1.initial win false) in
         shows UnsupportedBanner (ARViewer1.render (ARViewer1.state w)) = true
         /\ shows StartButton (ARViewer1.render (ARViewer1.state w)) = false).
Proof.
  split; [|split; [|split; [|split]]];
    try (intros; cbv zeta; repeat split; reflexivity).
  intros props win. cbv zeta.
  split; [reflexivity | split; [reflexivity | split; [reflexivity|]]].
  intros r.
  destruct (ARViewer_probe_settles props
              (ARViewer.mount props (ARViewer.initial win true)) r eq_refl)
    as [Hs _].
  cbv zeta in Hs.
  assert (Ha : ARViewer.isARSessionActive
                 (ARViewer.state
                    (ARViewer.step props
                       (ARViewer.mount props (ARViewer.initial win true))
                       (ARViewer.probe_settled r))) = false).
  { unfold ARViewer.step. rewrite ARViewer_commit_state.
    destruct r; reflexivity. }
  destruct (ARViewer.state _) as [sup act pl]. cbn in Hs, Ha. subst sup act.
  destruct (probe_outcome r), pl; split; reflexivity.
Qed.

(** ** The unused option (C9) *)

Lemma ARViewer_mount_modelPath (m : option string)
    (props : ARViewer.ARViewerProps) (w : ARViewer.World) :
  ARViewer.mount (ARViewer.with_modelPath m props) w = ARViewer.mount props w.
Proof. destruct props. reflexivity. Qed.

Lemma ARViewer_step_modelPath (m : option string)
    (props : ARViewer.ARViewerProps) (w : ARViewer.World) (e : ARViewer.Event) :
  ARViewer.step (ARViewer.with_modelPath m props) w e = ARViewer.step props w e.
Proof. destruct props. reflexivity. Qed.

Lemma ARViewer_run_modelPath (m : option string)
    (props : ARViewer.ARViewerProps) (es : list ARViewer.Event) :
  forall w : ARViewer.World,
    ARViewer.run (ARViewer.with_modelPath m props) w es = ARViewer.run props w es.
Proof.
  induction es as [|e es IH]; intros w; cbn; [reflexivity|].
  rewrite ARViewer_step_modelPath. apply IH.
Qed.

(** C9: [modelPath] is never read.  Whatever two values it takes, absent
    included, ARViewer.tsx goes through the same worlds on the same
    events (state, scene, objects, log of calls) and renders the same
    overlay, and so does the single-effect ARViewer, whose only option it is. *)
Theorem C9_modelPath_is_dead_configuration :
  (forall (m1 m2 : option string) (props : ARViewer.ARViewerProps)
          (win : Window) (xr : bool) (es : list ARViewer.Event),
      let w1 := ARViewer_reachable (ARViewer.with_modelPath m1 props) win xr es in
      let w2 := ARViewer_reachable (ARViewer.with_modelPath m2 props) win xr es in
      w1 = w2
      /\ ARViewer.render (ARViewer.state w1) = ARViewer.render (ARViewer.state w2))
  /\ (forall (m1 m2 : option string) (win : Window) (xr : bool)
             (es : list ARViewer1.Event),
         let p1 := ARViewer1.mkProps m1 in
         let p2 := ARViewer1.mkProps m2 in
         let w1 := ARViewer1.run p1 (ARViewer1.mount p1 (ARViewer1.initial win xr)) es in
         let w2 := ARViewer1.run p2 (ARViewer1.mount p2 (ARViewer1.initial win xr)) es in
         w1 = w2
         /\ ARViewer1.render (ARViewer1.state w1)
            = ARViewer1.render (ARViewer1.state w2)).
Proof.
  split.
  - intros m1 m2 props win xr es. cbv zeta.
    assert (H : ARViewer_reachable (ARViewer.with_modelPath m1 props) win xr es
                = ARViewer_reachable (ARViewer.with_modelPath m2 props) win xr es).
    { unfold ARViewer_reachable.
      now rewrite !ARViewer_run_modelPath, !ARViewer_mount_modelPath. }
    now rewrite H.
  - intros m1 m2 win xr es. cbv zeta.
    assert (H : forall w,
               ARViewer1.run (ARViewer1.mkProps m1) w es
               = ARViewer1.run (ARViewer1.mkProps m2) w es).
    { induction es as [|e es IH]; intros w; cbn; [reflexivity | apply IH]. }
    unfold ARViewer1.mount. now rewrite H.
Qed.

(** * Beyond the claims *)

(** ** ARViewer.tsx: what holds while it is mounted *)

Ltac scene_ok_tac :=
  cbv zeta;
  repeat (split; [solve [reflexivity | assumption] |]);
  do 4 eexists; repeat split; cbn; try reflexivity; try eassumption.

Ltac open_scene_ok H :=
  unfold ARViewer_scene_ok in H; cbv zeta in H;
  let r := fresh "r" in
  let cam := fresh "cam" in
  let s := fresh "s" in
  let o := fresh "o" in
  destruct H as (? & ? & ? & r & cam & s & o
                 & ? & ? & ? & ? & ? & ? & ? & ? & ? & ?).

Lemma ARViewer_handleSelect_ok (props : ARViewer.ARViewerProps) (flag b : bool)
    (w : ARViewer.World) :
  ARViewer_scene_ok props flag w ->
  ARViewer_scene_ok props flag (ARViewer.handleSelect b w).
Proof.
  intros H. open_scene_ok H. unfold ARViewer_scene_ok, ARViewer.handleSelect.
  break_world w. subst. destruct o. cbn in *. subst.
  destruct b, controllerRef; cbn; scene_ok_tac.
Qed.

Lemma ARViewer_handleSelects_ok (props : ARViewer.ARViewerProps) (flag : bool)
    (hs : list bool) :
  forall w : ARViewer.World,
    ARViewer_scene_ok props flag w ->
    ARViewer_scene_ok props flag
      (fold_left (fun w h => ARViewer.handleSelect h w) hs w).
Proof.
  induction hs as [|h hs IH]; intros w H; cbn; [assumption|].
  apply IH. now apply ARViewer_handleSelect_ok.
Qed.

(** Every event but an unmount keeps a mounted ARViewer.tsx in order. *)
Lemma ARViewer_dispatch_ok (props : ARViewer.ARViewerProps) (flag : bool)
    (w : ARViewer.World) (e : ARViewer.Event) :
  ARViewer.mounted (ARViewer.host w) = true ->
  ARViewer_scene_ok props flag w ->
  is_unmount e = false ->
  ARViewer.mounted (ARViewer.host (ARViewer.dispatch w e)) = true
  /\ ARViewer_scene_ok props flag (ARViewer.dispatch w e).
Proof.
  intros Hm H He.
  destruct e as [r | rq ss | m | | | win | att]; cbn [ARViewer.dispatch];
    try discriminate He.
  - open_scene_ok H. unfold ARViewer.checkARSupport_settled, ARViewer_scene_ok.
    break_world w. subst.
    destruct probe_pending; [destruct r|]; cbn; scene_ok_tac.
  - destruct (_ && _); [|auto].
    open_scene_ok H.
    unfold ARViewer.startARSession, ARViewer.startARSession_catch,
      ARViewer_scene_ok.
    break_world w. subst. destruct r as [? ? ? ? ? ? ? ? ? ?]; cbn in *. subst.
    destruct navigator_xr, rq, ss; cbn; scene_ok_tac.
  - destruct (ARViewer.session (ARViewer.host w)); [|auto].
    destruct (ARViewer.controllerRef (ARViewer.refs w)) as [g|] eqn:Hg; [|auto].
    match goal with
    | |- context [fold_left ?f ?hs ?w0] =>
        destruct (ARViewer_handleSelects_frame hs w0) as (_ & Hh & _);
        pose proof (ARViewer_handleSelects_ok props flag hs w0) as Hk
    end.
    cbv zeta in Hh. rewrite Hh. split.
    + break_world w. assumption.
    + apply Hk. open_scene_ok H. unfold ARViewer_scene_ok.
      break_world w. subst. scene_ok_tac.
  - open_scene_ok H. unfold ARViewer.onSessionEnd, ARViewer_scene_ok.
    break_world w. subst. destruct r; cbn in *. subst.
    destruct session as [[|]|]; cbn; scene_ok_tac.
  - open_scene_ok H.
    match goal with
    | Hr : ARViewer.rendererRef _ = Some _, Hl : ARViewer.animationLoop _ = _
      |- _ => rewrite Hr, Hl
    end.
    unfold ARViewer.animationLoopCallback, ARViewer_scene_ok.
    break_world w. subst. destruct o. cbn in *. subst.
    destruct flag; cbn; scene_ok_tac.
  - open_scene_ok H.
    unfold ARViewer.handleResize, ARViewer.set_size, ARViewer_scene_ok.
    break_world w. subst.
    destruct r as [? ? ? ? ? ? ? ? ? [|]], cam; cbn in *; subst;
      scene_ok_tac.
Qed.

(** Running the main effect again puts the component in order for the
    current [isObjectPlaced]. *)
Lemma ARViewer_rerun_ok (props : ARViewer.ARViewerProps) (w : ARViewer.World) :
  ARViewer.containerRef (ARViewer.refs w) = true ->
  ARViewer_scene_ok props (ARViewer.isObjectPlaced (ARViewer.state w))
    (ARViewer.mainEffect props (ARViewer.mainEffect_cleanup w)).
Proof.
  intros Hc.
  unfold ARViewer.mainEffect, ARViewer.initializeScene,
    ARViewer.startAnimationLoop, ARViewer.mainEffect_cleanup,
    ARViewer.initializeScene_cleanup, ARViewer_scene_ok.
  break_world w. subst.
  destruct rendererRef as [[? ? ? ? ? ? ? xs ? ?]|], sceneCleanup;
    cbn; try destruct xs; cbn; scene_ok_tac.
Qed.

(** An unmounted component is never mounted again by an event. *)
Lemma ARViewer_step_stays_unmounted (props : ARViewer.ARViewerProps)
    (w : ARViewer.World) (e : ARViewer.Event) :
  ARViewer.mounted (ARViewer.host w) = false ->
  ARViewer.mounted (ARViewer.host (ARViewer.step props w e)) = false.
Proof.
  intros Hm.
  assert (Hd : ARViewer.mounted (ARViewer.host (ARViewer.dispatch w e)) = false).
  { destruct e as [r | rq ss | m | | | win | att]; cbn [ARViewer.dispatch].
    - unfold ARViewer.checkARSupport_settled. break_world w.
      destruct probe_pending; [destruct r|]; assumption.
    - rewrite Hm. assumption.
    - destruct (ARViewer.session (ARViewer.host w)); [|assumption].
      destruct (ARViewer.controllerRef (ARViewer.refs w)) as [g|]; [|assumption].
      match goal with
      | |- context [fold_left ?f ?hs ?w0] =>
          destruct (ARViewer_handleSelects_frame hs w0) as (_ & Hh & _)
      end.
      cbv zeta in Hh. rewrite Hh. break_world w. assumption.
    - unfold ARViewer.onSessionEnd. break_world w.
      destruct session as [[|]|]; destruct rendererRef as [[]|]; assumption.
    - unfold ARViewer.animationLoopCallback. break_world w.
      destruct rendererRef as [[? ? ? ? [[|]|] ? ? ? ? ?]|], objectRef, sceneRef,
        cameraRef; assumption.
    - unfold ARViewer.handleResize. break_world w.
      destruct resizeListener, containerRef, cameraRef, rendererRef;
        assumption.
    - rewrite Hm. assumption. }
  unfold ARViewer.step, ARViewer.commit. now rewrite Hd.
Qed.

Lemma ARViewer_step_ok (props : ARViewer.ARViewerProps) (w : ARViewer.World)
    (e : ARViewer.Event) :
  ARViewer_mounted_ok props w -> ARViewer_mounted_ok props (ARViewer.step props w e).
Proof.
  intros Hok Hm'.
  destruct (ARViewer.mounted (ARViewer.host w)) eqn:Hm.
  - specialize (Hok Hm).
    destruct (is_unmount e) eqn:He.
    + destruct e; try discriminate He.
      destruct (ARViewer_unmount_unmounted props w containerAttached Hm)
        as [[Hu _] _].
      congruence.
    + destruct (ARViewer_dispatch_ok props _ w e Hm Hok He) as [Hm1 Hr1].
      revert Hm'. unfold ARViewer.step, ARViewer.commit. rewrite Hm1.
      cbn [andb].
      destruct (Bool.eqb (ARViewer.isObjectPlaced (ARViewer.state w))
                  (ARViewer.isObjectPlaced
                     (ARViewer.state (ARViewer.dispatch w e)))) eqn:Heq;
        cbn [negb]; intros _.
      * apply Bool.eqb_prop in Heq. now rewrite <- Heq.
      * rewrite ARViewer_mainEffect_state, ARViewer_mainEffect_cleanup_state.
        apply ARViewer_rerun_ok. apply Hr1.
  - rewrite (ARViewer_step_stays_unmounted props w e Hm) in Hm'. discriminate.
Qed.

Lemma ARViewer_reachable_ok (props : ARViewer.ARViewerProps) (win : Window)
    (xr : bool) (es : list ARViewer.Event) :
  ARViewer_mounted_ok props (ARViewer_reachable props win xr es).
Proof.
  unfold ARViewer_reachable, ARViewer.run.
  rewrite <- (rev_involutive es).
  induction (rev es) as [|e es' IH]; cbn [rev].
  - intros _. destruct xr; cbn; scene_ok_tac.
  - rewrite fold_left_app. cbn [fold_left]. now apply ARViewer_step_ok.
Qed.

(** A frame changes no React state, so no effect runs after it. *)
Lemma ARViewer_step_frame (props : ARViewer.ARViewerProps) (w : ARViewer.World) :
  ARViewer.step props w ARViewer.frame = ARViewer.dispatch w ARViewer.frame.
Proof.
  assert (Hstate : ARViewer.state (ARViewer.dispatch w ARViewer.frame)
                   = ARViewer.state w).
  { cbn [ARViewer.dispatch]. unfold ARViewer.animationLoopCallback.
    break_world w.
    destruct rendererRef as [[? ? ? ? [[|]|] ? ? ? ? ?]|], objectRef, sceneRef,
      cameraRef; reflexivity. }
  unfold ARViewer.step, ARViewer.commit.
  now rewrite Hstate, Bool.eqb_reflx, andb_false_r.
Qed.

(** A new run of the main effect builds a renderer of the size of the
    window that presents no session. *)
Lemma ARViewer_rerun_sized (props : ARViewer.ARViewerProps) (w : ARViewer.World) :
  ARViewer.containerRef (ARViewer.refs w) = true ->
  ARViewer_sized_ok (ARViewer.mainEffect props (ARViewer.mainEffect_cleanup w)).
Proof.
  intros Hc _.
  unfold ARViewer.mainEffect, ARViewer.initializeScene,
    ARViewer.startAnimationLoop, ARViewer.mainEffect_cleanup,
    ARViewer.initializeScene_cleanup.
  break_world w. subst.
  destruct rendererRef as [[? ? ? ? ? ? ? xs ? ?]|], sceneCleanup;
    cbn; try destruct xs; cbn; eexists; repeat split; reflexivity.
Qed.

(** Every event but a click on the start button keeps the renderer of a
    mounted ARViewer.tsx at the size of the window. *)
Lemma ARViewer_step_sized (props : ARViewer.ARViewerProps) (w : ARViewer.World)
    (e : ARViewer.Event) :
  ARViewer_mounted_ok props w ->
  ARViewer_sized_ok w ->
  ARViewer_is_click e = false ->
  ARViewer_sized_ok (ARViewer.step props w e).
Proof.
  intros Hok Hsz He Hm'.
  destruct (ARViewer.mounted (ARViewer.host w)) eqn:Hm;
    [|rewrite (ARViewer_step_stays_unmounted props w e Hm) in Hm'; discriminate].
  specialize (Hok Hm). specialize (Hsz Hm). cbv zeta in Hsz.
  destruct (is_unmount e) eqn:Hu.
  { destruct e; try discriminate Hu.
    destruct (ARViewer_unmount_unmounted props w containerAttached Hm)
      as [[Hx _] _].
    congruence. }
  destruct (ARViewer_dispatch_ok props _ w e Hm Hok Hu) as [Hm1 Hr1].
  assert (Hd : ARViewer_sized_ok (ARViewer.dispatch w e)).
  { intros _. cbv zeta. destruct Hsz as (r & Hr & Hsize & Hp).
    clear Hr1 Hm1 Hm'.
    destruct e as [pr | rq ss | m | | | win | att]; cbn [ARViewer.dispatch];
      try discriminate He; try discriminate Hu.
    - unfold ARViewer.checkARSupport_settled. break_world w. subst.
      destruct probe_pending; [destruct pr|]; cbn; eauto.
    - destruct (ARViewer.session (ARViewer.host w)); [|eauto].
      destruct (ARViewer.controllerRef (ARViewer.refs w)) as [g|]; [|eauto].
      match goal with
      | |- context [fold_left ?f ?hs ?w0] =>
          destruct (ARViewer_handleSelects_frame hs w0) as (Hr' & Hh & _)
      end.
      cbv zeta in Hr', Hh. rewrite Hr', Hh. break_world w. subst. eauto.
    - unfold ARViewer.onSessionEnd. break_world w. subst.
      destruct r as [? ? ? ? ? ? ? ? ? ?]; cbn in *. subst.
      destruct session as [[|]|]; cbn; eauto.
    - rewrite Hr. unfold ARViewer.animationLoopCallback. break_world w. subst.
      destruct (ARViewer.animationLoop r) as [[|]|], objectRef, sceneRef,
        cameraRef; cbn; eauto.
    - open_scene_ok Hok.
      unfold ARViewer.handleResize, ARViewer.set_size. break_world w. subst.
      match goal with
      | Hx : Some _ = Some r |- _ => inversion Hx; subst
      end.
      rewrite Hp. cbn. eexists; repeat split; reflexivity. }
  revert Hm'. unfold ARViewer.step, ARViewer.commit. rewrite Hm1. cbn [andb].
  destruct (negb _); intros Hm'.
  - apply ARViewer_rerun_sized; [apply Hr1 | exact Hm'].
  - apply Hd. exact Hm1.
Qed.

Lemma ARViewer_reachable_sized (props : ARViewer.ARViewerProps) (win : Window)
    (xr : bool) (es : list ARViewer.Event) :
  forallb (fun e => negb (ARViewer_is_click e)) es = true ->
  ARViewer_sized_ok (ARViewer_reachable props win xr es).
Proof.
  unfold ARViewer_reachable, ARViewer.run.
  rewrite <- (rev_involutive es).
  induction (rev es) as [|e es' IH]; cbn [rev].
  - intros _ _. destruct xr; cbn; eexists; repeat split; reflexivity.
  - rewrite forallb_app, fold_left_app. cbn [fold_left forallb].
    rewrite andb_true_r. intros H. apply andb_prop in H. destruct H as [H1 H2].
    apply ARViewer_step_sized.
    + apply (ARViewer_reachable_ok props win xr (rev es')).
    + now apply IH.
    + now apply negb_true_iff in H2.
Qed.

(** X1.  While ARViewer.tsx is mounted, the camera's aspect ratio, and
    the projection computed from it, is the window's width over its
    height after any sequence of events.  The drawing surface has the
    size of the window as long as no session has been started from the
    button; while the renderer presents a session a resize leaves the
    size of the surface as it is (three.js ignores [setSize] then) and
    still moves the camera to the new ratio. *)
Theorem X1_surface_follows_window
    (props : ARViewer.ARViewerProps) (win : Window) (xr : bool)
    (es : list ARViewer.Event) :
  let w := ARViewer_reachable props win xr es in
  let now_ := ARViewer.window (ARViewer.host w) in
  ARViewer.mounted (ARViewer.host w) = true ->
  exists (r : ARViewer.WebGLRenderer) (cam : PerspectiveCamera),
    ARViewer.rendererRef (ARViewer.refs w) = Some r
    /\ ARViewer.cameraRef (ARViewer.refs w) = Some cam
    /\ aspect cam = innerWidth now_ / innerHeight now_
    /\ projectionAspect cam = aspect cam
    /\ (forallb (fun e => negb (ARViewer_is_click e)) es = true ->
        ARViewer.size r = (innerWidth now_, innerHeight now_))
    /\ (ARViewer.xr_isPresenting r = true ->
        forall win' : Window,
          let w' := ARViewer.step props w (ARViewer.resize win') in
          option_map ARViewer.size (ARViewer.rendererRef (ARViewer.refs w'))
          = Some (ARViewer.size r)
          /\ option_map aspect (ARViewer.cameraRef (ARViewer.refs w'))
             = Some (innerWidth win' / innerHeight win')).
Proof.
  cbv zeta. intros Hm.
  pose proof (ARViewer_reachable_ok props win xr es Hm) as H.
  pose proof (ARViewer_reachable_sized props win xr es) as Hsz.
  set (w := ARViewer_reachable props win xr es) in *. clearbody w.
  open_scene_ok H.
  exists r, cam. repeat split; try congruence.
  - intros Hes. destruct (Hsz Hes Hm) as (r' & Hr' & Hsize & _).
    congruence.
  - unfold ARViewer.step, ARViewer.commit. cbn [ARViewer.dispatch].
    unfold ARViewer.handleResize, ARViewer.set_size.
    break_world w. subst. cbn.
    match goal with Hp : ARViewer.xr_isPresenting _ = true |- _ => rewrite Hp end.
    cbn. rewrite Bool.eqb_reflx. reflexivity.
  - unfold ARViewer.step, ARViewer.commit. cbn [ARViewer.dispatch].
    unfold ARViewer.handleResize, ARViewer.set_size.
    break_world w. subst. cbn.
    match goal with Hp : ARViewer.xr_isPresenting _ = true |- _ => rewrite Hp end.
    cbn. rewrite Bool.eqb_reflx. reflexivity.
Qed.

Lemma X1_surface_follows_window_witness :
  (let w := ARViewer_reachable Samples.props Samples.win true
              [ARViewer.resize Samples.narrow] in
   ARViewer.mounted (ARViewer.host w) = true
   /\ option_map ARViewer.size (ARViewer.rendererRef (ARViewer.refs w))
      = Some (400, 600)
   /\ option_map aspect (ARViewer.cameraRef (ARViewer.refs w))
      = Some (400 / 600))
  /\ (let w := ARViewer_reachable Samples.props Samples.win true
                 [ARViewer.probe_settled (Resolved true);
                  ARViewer.click_start (Resolved tt) (Resolved tt)] in
      let w' := ARViewer.step Samples.props w (ARViewer.resize Samples.narrow) in
      ARViewer.mounted (ARViewer.host w) = true
      /\ option_map ARViewer.xr_isPresenting
           (ARViewer.rendererRef (ARViewer.refs w))
         = Some true
      /\ option_map ARViewer.size (ARViewer.rendererRef (ARViewer.refs w'))
         = Some (800, 600)
      /\ option_map aspect (ARViewer.cameraRef (ARViewer.refs w'))
         = Some (400 / 600)).
Proof.
  split; cbv zeta.
  - split; [reflexivity|].
    destruct (X1_surface_follows_window Samples.props Samples.win true
                [ARViewer.resize Samples.narrow] eq_refl)
      as (r & cam & Hr & Hc & Ha & _ & Hsize & _).
    rewrite Hr, Hc. cbn [option_map].
    rewrite Ha, (Hsize eq_refl). split; reflexivity.
  - split; [reflexivity | split; [reflexivity|]].
    destruct (X1_surface_follows_window Samples.props Samples.win true
                [ARViewer.probe_settled (Resolved true);
                 ARViewer.click_start (Resolved tt) (Resolved tt)] eq_refl)
      as (r & cam & Hr & _ & _ & _ & _ & Hp).
    assert (Hr0 : r = ARViewer.mkRenderer (800, 600) 1 true false (Some false)
                        true (Some "local") true true true).
    { apply (f_equal (fun o => match o with Some x => x | None => r end)) in Hr.
      symmetry. exact Hr. }
    subst r. exact (Hp eq_refl Samples.narrow).
Defined.

(** X2.  While ARViewer.tsx is mounted, every frame issues exactly one
    draw call, and it goes to a renderer that has not been disposed. *)
Theorem X2_frame_draws_once_on_live_renderer
    (props : ARViewer.ARViewerProps) (win : Window) (xr : bool)
    (es : list ARViewer.Event) :
  let w := ARViewer_reachable props win xr es in
  ARViewer.mounted (ARViewer.host w) = true ->
  ARViewer.calls (ARViewer.step props w ARViewer.frame)
  = ARViewer.calls w ++ [renderer_render false].
Proof.
  cbv zeta. intros Hm.
  pose proof (ARViewer_reachable_ok props win xr es Hm) as H. open_scene_ok H.
  rewrite ARViewer_step_frame. cbn [ARViewer.dispatch].
  repeat match goal with
         | Hx : _ = Some _ |- _ => rewrite Hx
         end.
  unfold ARViewer.animationLoopCallback.
  destruct (ARViewer_reachable props win xr es) as [st rf hs cs].
  destruct st, rf, hs. cbn in *. subst.
  match goal with Hd : ARViewer.disposed _ = false |- _ => rewrite Hd end.
  destruct isObjectPlaced; reflexivity.
Qed.

Lemma X2_frame_draws_once_on_live_renderer_witness :
  let w := ARViewer_reachable Samples.props Samples.win true Samples.place_once in
  ARViewer.mounted (ARViewer.host w) = true
  /\ ARViewer.calls (ARViewer.step Samples.props w ARViewer.frame)
     = ARViewer.calls w ++ [renderer_render false].
Proof.
  cbv zeta. split; [reflexivity|].
  exact (X2_frame_draws_once_on_live_renderer Samples.props Samples.win true
           Samples.place_once eq_refl).
Defined.

(** X3.  The mesh of a mounted ARViewer.tsx is always the box its props
    ask for: its edge is [objectSize] (0.1 when absent) and its colour
    [objectColor] ("#00ff00" when absent), whatever events have passed. *)
Theorem X3_mesh_follows_props
    (props : ARViewer.ARViewerProps) (win : Window) (xr : bool)
    (es : list ARViewer.Event) :
  let w := ARViewer_reachable props win xr es in
  ARViewer.mounted (ARViewer.host w) = true ->
  exists o : ARViewer.Mesh,
    ARViewer.objectRef (ARViewer.refs w) = Some o
    /\ ARViewer.boxSize o
       = match ARViewer.objectSize props with Some s => s | None => 0.1 end
    /\ ARViewer.color o
       = match ARViewer.objectColor props with
         | Some c => c
         | None => "#00ff00"
         end.
Proof.
  cbv zeta. intros Hm.
  pose proof (ARViewer_reachable_ok props win xr es Hm) as H. open_scene_ok H.
  exists o. repeat split; assumption.
Qed.

Lemma X3_mesh_follows_props_witness :
  let props := ARViewer.mkProps None (Some "#ff0000") (Some 0.25) in
  let w := ARViewer_reachable props Samples.win true Samples.place_once in
  ARViewer.mounted (ARViewer.host w) = true
  /\ exists o : ARViewer.Mesh,
      ARViewer.objectRef (ARViewer.refs w) = Some o
      /\ ARViewer.boxSize o = 0.25
      /\ ARViewer.color o = "#ff0000".
Proof.
  cbv zeta. split; [reflexivity|].
  exact (X3_mesh_follows_props
           (ARViewer.mkProps None (Some "#ff0000") (Some 0.25))
           Samples.win true Samples.place_once eq_refl).
Defined.

(** ** ARViewer.tsx: the main effect runs again when the placement changes *)

(** What a second run of the main effect leaves in the refs and in the log. *)
Lemma ARViewer_rerun_refs (props : ARViewer.ARViewerProps) (w : ARViewer.World) :
  ARViewer.containerRef (ARViewer.refs w) = true ->
  let w' := ARViewer.mainEffect props (ARViewer.mainEffect_cleanup w) in
  ARViewer.sceneRef (ARViewer.refs w') = Some ARViewer_fresh_scene
  /\ ARViewer.objectRef (ARViewer.refs w') = Some (ARViewer_fresh_mesh props)
  /\ ARViewer.controllerRef (ARViewer.refs w')
     = ARViewer.controllerRef (ARViewer.refs w)
  /\ ARViewer.calls w'
     = ARViewer.calls w ++ ARViewer_teardown_calls w
       ++ [scene_add DirectionalLight; scene_add AmbientLight].
Proof.
  intros Hc. cbv zeta.
  unfold ARViewer.mainEffect, ARViewer.initializeScene,
    ARViewer.startAnimationLoop, ARViewer.mainEffect_cleanup,
    ARViewer.initializeScene_cleanup, ARViewer_teardown_calls.
  break_world w. subst.
  destruct rendererRef as [[? ? ? ? ? ? ? xs ? ?]|], sceneCleanup;
    cbn; try destruct xs; cbn; repeat rewrite <- app_assoc;
    repeat split; reflexivity.
Qed.

(** X4.  In ARViewer.tsx every event that changes [isObjectPlaced] makes
    React run the main effect again: the old renderer is torn down and a
    new scene is built.  Afterwards the scene holds the two lights only,
    so an object that was just placed is no longer in it, and
    [objectRef] holds a new box at the origin. *)
Theorem X4_placement_change_rebuilds_scene
    (props : ARViewer.ARViewerProps) (win : Window) (xr : bool)
    (es : list ARViewer.Event) (e : ARViewer.Event) :
  let w := ARViewer_reachable props win xr es in
  let w' := ARViewer.step props w e in
  ARViewer.mounted (ARViewer.host w') = true ->
  ARViewer.isObjectPlaced (ARViewer.state w')
  <> ARViewer.isObjectPlaced (ARViewer.state w) ->
  ARViewer.sceneRef (ARViewer.refs w') = Some [DirectionalLight; AmbientLight]
  /\ ARViewer.objectRef (ARViewer.refs w') = Some (ARViewer_fresh_mesh props)
  /\ ARViewer.calls w'
     = ARViewer.calls (ARViewer.dispatch w e)
       ++ ARViewer_teardown_calls (ARViewer.dispatch w e)
       ++ [scene_add DirectionalLight; scene_add AmbientLight].
Proof.
  cbv zeta. set (w := ARViewer_reachable props win xr es). intros Hm' Hne.
  destruct (ARViewer.mounted (ARViewer.host w)) eqn:Hm;
    [|rewrite (ARViewer_step_stays_unmounted props w e Hm) in Hm'; discriminate].
  pose proof (ARViewer_reachable_ok props win xr es Hm) as Hok. fold w in Hok.
  destruct (is_unmount e) eqn:He.
  { destruct e; try discriminate He.
    destruct (ARViewer_unmount_unmounted props w containerAttached Hm)
      as [[Hu _] _].
    congruence. }
  destruct (ARViewer_dispatch_ok props _ w e Hm Hok He) as [Hm1 Hr1].
  assert (Hs : ARViewer.state (ARViewer.step props w e)
               = ARViewer.state (ARViewer.dispatch w e))
    by apply ARViewer_commit_state.
  rewrite Hs in Hne. revert Hm'.
  unfold ARViewer.step, ARViewer.commit. rewrite Hm1. cbn [andb].
  destruct (Bool.eqb (ARViewer.isObjectPlaced (ARViewer.state w))
              (ARViewer.isObjectPlaced (ARViewer.state (ARViewer.dispatch w e))))
    eqn:Heq; cbn [negb]; intros _.
  - apply Bool.eqb_prop in Heq. congruence.
  - destruct (ARViewer_rerun_refs props (ARViewer.dispatch w e) (proj1 Hr1))
      as (H1 & H2 & _ & H4).
    repeat split; assumption.
Qed.

Lemma X4_placement_change_rebuilds_scene_witness :
  let w := ARViewer_reachable Samples.props Samples.win true
             [ARViewer.probe_settled (Resolved true);
              ARViewer.click_start (Resolved tt) (Resolved tt)] in
  let w' := ARViewer.step Samples.props w (ARViewer.select Samples.m1) in
  ARViewer.mounted (ARViewer.host w') = true
  /\ ARViewer.isObjectPlaced (ARViewer.state w')
     <> ARViewer.isObjectPlaced (ARViewer.state w)
  /\ ARViewer.sceneRef (ARViewer.refs w') = Some [DirectionalLight; AmbientLight]
  /\ ARViewer.objectRef (ARViewer.refs w')
     = Some (ARViewer_fresh_mesh Samples.props).
Proof.
  cbv zeta.
  assert (Hm : ARViewer.mounted
                 (ARViewer.host
                    (ARViewer.step Samples.props
                       (ARViewer_reachable Samples.props Samples.win true
                          [ARViewer.probe_settled (Resolved true);
                           ARViewer.click_start (Resolved tt) (Resolved tt)])
                       (ARViewer.select Samples.m1))) = true) by reflexivity.
  assert (Hne : ARViewer.isObjectPlaced
                  (ARViewer.state
                     (ARViewer.step Samples.props
                        (ARViewer_reachable Samples.props Samples.win true
                           [ARViewer.probe_settled (Resolved true);
                            ARViewer.click_start (Resolved tt) (Resolved tt)])
                        (ARViewer.select Samples.m1)))
                <> ARViewer.isObjectPlaced
                     (ARViewer.state
                        (ARViewer_reachable Samples.props Samples.win true
                           [ARViewer.probe_settled (Resolved true);
                            ARViewer.click_start (Resolved tt) (Resolved tt)])))
    by (vm_compute; discriminate).
  destruct (X4_placement_change_rebuilds_scene Samples.props Samples.win true
              [ARViewer.probe_settled (Resolved true);
               ARViewer.click_start (Resolved tt) (Resolved tt)]
              (ARViewer.select Samples.m1) Hm Hne) as (H1 & H2 & _).
  repeat split; assumption.
Defined.

(** X5.  In ARViewer.tsx the first placement of a session ends that
    session.  The select event adds and positions the object, this sets
    [isObjectPlaced], and the effect that runs again disposes the
    renderer, removes the canvas, deregisters the frame callback, asks
    the session to end and builds a new scene without the object. *)
Theorem X5_first_placement_ends_session
    (props : ARViewer.ARViewerProps) (win : Window) (xr : bool)
    (es : list ARViewer.Event) (m : Matrix4)
    (g : ARViewer.Group) (r : ARViewer.WebGLRenderer) (listening : bool) :
  let w := ARViewer_reachable props win xr es in
  let w' := ARViewer.step props w (ARViewer.select m) in
  ARViewer.mounted (ARViewer.host w) = true ->
  ARViewer.session (ARViewer.host w) = Some listening ->
  ARViewer.isObjectPlaced (ARViewer.state w) = false ->
  ARViewer.controllerRef (ARViewer.refs w) = Some g ->
  ARViewer.select_listeners g = [false] ->
  ARViewer.rendererRef (ARViewer.refs w) = Some r ->
  ARViewer.xr_session r = true ->
  calls_since (List.length (ARViewer.calls w)) (ARViewer.calls w')
  = [scene_add PlacedObject; position_set (translation m);
     renderer_dispose; geometry_dispose; material_dispose;
     removeChild_domElement; removeEventListener_resize;
     setAnimationLoop_null; session_end;
     scene_add DirectionalLight; scene_add AmbientLight]
  /\ ARViewer.isObjectPlaced (ARViewer.state w') = true
  /\ ARViewer.sceneRef (ARViewer.refs w') = Some [DirectionalLight; AmbientLight]
  /\ ARViewer.objectRef (ARViewer.refs w') = Some (ARViewer_fresh_mesh props).
Proof.
  cbv zeta. intros Hm Hs Hp Hg Hl Hr Hx.
  pose proof (ARViewer_reachable_ok props win xr es Hm) as H.
  set (w := ARViewer_reachable props win xr es) in *. clearbody w.
  open_scene_ok H.
  unfold ARViewer.step, ARViewer.commit. cbn [ARViewer.dispatch].
  rewrite Hs, Hg, Hl. cbn [fold_left].
  unfold ARViewer.handleSelect, ARViewer.mainEffect, ARViewer.initializeScene,
    ARViewer.startAnimationLoop, ARViewer.mainEffect_cleanup,
    ARViewer.initializeScene_cleanup, ARViewer_fresh_mesh.
  break_world w. subst.
  match goal with Hq : Some r = Some _ |- _ => inversion Hq; subst; clear Hq end.
  match goal with
  | Hq : ARViewer.xr_session ?q = true |- _ =>
      destruct q as [? ? ? ? ? ? ? xs ? ?]; cbn in Hq; subst xs
  end.
  unfold calls_since. cbn -[skipn].
  repeat rewrite <- app_assoc. fold (calls_since (List.length cs)).
  rewrite calls_since_app.
  repeat split; reflexivity.
Qed.

Lemma X5_first_placement_ends_session_witness :
  let es := [ARViewer.probe_settled (Resolved true);
             ARViewer.click_start (Resolved tt) (Resolved tt)] in
  let w := ARViewer_reachable Samples.props Samples.win true es in
  let w' := ARViewer.step Samples.props w (ARViewer.select Samples.m1) in
  ARViewer.mounted (ARViewer.host w) = true
  /\ ARViewer.session (ARViewer.host w) = Some true
  /\ ARViewer.isObjectPlaced (ARViewer.state w) = false
  /\ count is_session_end
       (calls_since (List.length (ARViewer.calls w)) (ARViewer.calls w'))
     = 1%nat
  /\ ARViewer.sceneRef (ARViewer.refs w') = Some [DirectionalLight; AmbientLight].
Proof.
  cbv zeta. split; [reflexivity | split; [reflexivity | split; [reflexivity|]]].
  destruct (X5_first_placement_ends_session Samples.props Samples.win true
              [ARViewer.probe_settled (Resolved true);
               ARViewer.click_start (Resolved tt) (Resolved tt)]
              Samples.m1
              (ARViewer.mkGroup identity [false])
              (ARViewer.mkRenderer (800, 600) 1 true false (Some false)
                 true (Some "local") true true true)
              true eq_refl eq_refl eq_refl eq_refl eq_refl eq_refl eq_refl)
    as (H1 & _ & H3 & _).
  rewrite H1. split; [reflexivity | exact H3].
Defined.

(** ** ARViewer.tsx: the select listener *)

Lemma ARViewer_handleSelects_controller (hs : list bool) :
  forall w : ARViewer.World,
    ARViewer.controllerRef
      (ARViewer.refs (fold_left (fun w h => ARViewer.handleSelect h w) hs w))
    = ARViewer.controllerRef (ARViewer.refs w).
Proof.
  induction hs as [|h hs IH]; intros w; cbn [fold_left]; [reflexivity|].
  rewrite IH. unfold ARViewer.handleSelect. break_world w.
  destruct h, objectRef, controllerRef, sceneRef; reflexivity.
Qed.

Lemma ARViewer_commit_controller (props : ARViewer.ARViewerProps)
    (before w : ARViewer.World) :
  ARViewer.controllerRef (ARViewer.refs (ARViewer.commit props before w))
  = ARViewer.controllerRef (ARViewer.refs w).
Proof.
  unfold ARViewer.commit. destruct (_ && _); [|reflexivity].
  unfold ARViewer.mainEffect, ARViewer.initializeScene,
    ARViewer.startAnimationLoop, ARViewer.mainEffect_cleanup,
    ARViewer.initializeScene_cleanup.
  break_world w.
  destruct rendererRef as [[? ? ? ? ? ? ? xs ? ?]|], sceneCleanup, containerRef;
    cbn; try destruct xs; reflexivity.
Qed.

(** X6.  In ARViewer.tsx the select listener is not replaced when the
    state changes: only a click on the start button touches the
    listeners of the controller.  A listener registered while
    [isObjectPlaced] was false therefore adds the object and assigns its
    position on every select event, also when the state says the object
    is placed already. *)
Theorem X6_select_listener_is_never_refreshed :
  (forall (props : ARViewer.ARViewerProps) (w : ARViewer.World)
          (e : ARViewer.Event),
      ARViewer_is_click e = false ->
      option_map ARViewer.select_listeners
        (ARViewer.controllerRef (ARViewer.refs (ARViewer.step props w e)))
      = option_map ARViewer.select_listeners
          (ARViewer.controllerRef (ARViewer.refs w)))
  /\ (forall (w : ARViewer.World) (g : ARViewer.Group) (o : ARViewer.Mesh)
             (s : Scene) (listening : bool) (m : Matrix4),
         ARViewer.session (ARViewer.host w) = Some listening ->
         ARViewer.controllerRef (ARViewer.refs w) = Some g ->
         ARViewer.select_listeners g = [false] ->
         ARViewer.objectRef (ARViewer.refs w) = Some o ->
         ARViewer.sceneRef (ARViewer.refs w) = Some s ->
         let w' := ARViewer.dispatch w (ARViewer.select m) in
         ARViewer.calls w'
         = ARViewer.calls w
           ++ [scene_add PlacedObject; position_set (translation m)]
         /\ ARViewer.objectRef (ARViewer.refs w')
            = Some (ARViewer.set_position (translation m) o)
         /\ ARViewer.sceneRef (ARViewer.refs w') = Some (add s PlacedObject)).
Proof.
  split.
  - intros props w e He. unfold ARViewer.step.
    rewrite ARViewer_commit_controller.
    destruct e as [r | rq ss | m | | | win | att]; cbn [ARViewer.dispatch];
      try discriminate He.
    + unfold ARViewer.checkARSupport_settled. break_world w.
      destruct probe_pending; [destruct r|]; reflexivity.
    + destruct (ARViewer.session (ARViewer.host w)); [|reflexivity].
      destruct (ARViewer.controllerRef (ARViewer.refs w)) as [g|] eqn:Hg;
        [|now rewrite Hg].
      rewrite ARViewer_handleSelects_controller. break_world w. reflexivity.
    + unfold ARViewer.onSessionEnd. break_world w.
      destruct session as [[|]|]; destruct rendererRef as [[]|]; reflexivity.
    + unfold ARViewer.animationLoopCallback. break_world w.
      destruct rendererRef as [[? ? ? ? [[|]|] ? ? ? ? ?]|], objectRef, sceneRef,
        cameraRef; reflexivity.
    + unfold ARViewer.handleResize. break_world w.
      destruct resizeListener, containerRef, cameraRef, rendererRef;
        reflexivity.
    + destruct (ARViewer.mounted (ARViewer.host w)); [|reflexivity].
      unfold ARViewer.mainEffect_cleanup, ARViewer.initializeScene_cleanup.
      break_world w.
      destruct rendererRef as [[? ? ? ? ? ? ? xs ? ?]|], sceneCleanup, att;
        cbn; try destruct xs; reflexivity.
  - intros w g o s listening m Hs Hg Hl Ho Hsc. cbv zeta.
    cbn [ARViewer.dispatch]. rewrite Hs, Hg, Hl. cbn [fold_left].
    unfold ARViewer.handleSelect. break_world w. subst. cbn.
    rewrite <- app_assoc. repeat split; reflexivity.
Qed.

Lemma X6_select_listener_is_never_refreshed_witness :
  let w := ARViewer_reachable Samples.props Samples.win true Samples.place_once in
  let w' := ARViewer.dispatch w (ARViewer.select Samples.m2) in
  ARViewer.isObjectPlaced (ARViewer.state w) = true
  /\ ARViewer.session (ARViewer.host w) = Some true
  /\ ARViewer.controllerRef (ARViewer.refs w)
     = Some (ARViewer.mkGroup Samples.m1 [false])
  /\ ARViewer.calls w'
     = ARViewer.calls w ++ [scene_add PlacedObject; position_set Samples.p2]
  /\ ARViewer.objectRef (ARViewer.refs w')
     = Some (ARViewer.set_position Samples.p2
               (ARViewer_fresh_mesh Samples.props)).
Proof.
  cbv zeta.
  split; [reflexivity | split; [reflexivity | split; [reflexivity|]]].
  destruct (proj2 X6_select_listener_is_never_refreshed
              (ARViewer_reachable Samples.props Samples.win true
                 Samples.place_once)
              (ARViewer.mkGroup Samples.m1 [false])
              (ARViewer_fresh_mesh Samples.props)
              [DirectionalLight; AmbientLight] true Samples.m2
              eq_refl eq_refl eq_refl eq_refl eq_refl) as (H1 & H2 & _).
  split; [exact H1 | exact H2].
Defined.

(** ** ARViewer.tsx: starting and ending a session *)

Lemma add_In (s : Scene) (o : Node) : In o (add s o).
Proof. unfold add. apply in_or_app. right. now left. Qed.

Lemma ARViewer_listener_registered (h : bool) (g : ARViewer.Group) :
  In h (ARViewer.select_listeners (ARViewer.addEventListener_select h g)).
Proof.
  unfold ARViewer.addEventListener_select.
  destruct (existsb (Bool.eqb h) (ARViewer.select_listeners g)) eqn:He.
  - apply existsb_exists in He. destruct He as (x & Hin & Hx).
    apply Bool.eqb_prop in Hx. now subst x.
  - cbn. apply in_or_app. right. now left.
Qed.

(** A click that leaves [isObjectPlaced] alone runs no effect. *)
Lemma ARViewer_step_click (props : ARViewer.ARViewerProps) (w : ARViewer.World)
    (rq ss : Settled unit) :
  ARViewer.step props w (ARViewer.click_start rq ss)
  = ARViewer.dispatch w (ARViewer.click_start rq ss).
Proof.
  assert (Hp : ARViewer.isObjectPlaced
                 (ARViewer.state (ARViewer.dispatch w (ARViewer.click_start rq ss)))
               = ARViewer.isObjectPlaced (ARViewer.state w)).
  { cbn [ARViewer.dispatch]. destruct (_ && _); [|reflexivity].
    unfold ARViewer.startARSession, ARViewer.startARSession_catch.
    break_world w.
    destruct navigator_xr, rq, ss, rendererRef as [[]|], sceneRef; reflexivity. }
  unfold ARViewer.step, ARViewer.commit.
  now rewrite Hp, Bool.eqb_reflx, andb_false_r.
Qed.


(** X7.  A click on the start button of a mounted ARViewer.tsx whose
    session request and [setSession] both succeed makes the session
    state active, which hides the start button and shows the placement
    hint unless the object counts as placed.  It issues one request,
    enables XR on the renderer with the "local" reference space and the
    session bound, puts the controller into the scene with a select
    listener that has captured the [isObjectPlaced] of the click, and
    registers the "end" listener on the session. *)
Theorem X7_start_session_succeeds
    (props : ARViewer.ARViewerProps) (win : Window) (xr : bool)
    (es : list ARViewer.Event) :
  let w := ARViewer_reachable props win xr es in
  let w' := ARViewer.step props w
              (ARViewer.click_start (Resolved tt) (Resolved tt)) in
  ARViewer.mounted (ARViewer.host w) = true ->
  shows StartButton (ARViewer.render (ARViewer.state w)) = true ->
  ARViewer.navigator_xr (ARViewer.host w) = true ->
  ARViewer.state w'
  = ARViewer.mkState true true (ARViewer.isObjectPlaced (ARViewer.state w))
  /\ shows StartButton (ARViewer.render (ARViewer.state w')) = false
  /\ shows PlaceHint (ARViewer.render (ARViewer.state w'))
     = negb (ARViewer.isObjectPlaced (ARViewer.state w))
  /\ ARViewer.session (ARViewer.host w') = Some true
  /\ calls_since (List.length (ARViewer.calls w)) (ARViewer.calls w')
     = [xr_requestSession; scene_add Controller]
  /\ exists (g : ARViewer.Group) (r : ARViewer.WebGLRenderer) (s : Scene),
      ARViewer.controllerRef (ARViewer.refs w') = Some g
      /\ In (ARViewer.isObjectPlaced (ARViewer.state w))
            (ARViewer.select_listeners g)
      /\ ARViewer.rendererRef (ARViewer.refs w') = Some r
      /\ ARViewer.xr_enabled r = true
      /\ ARViewer.xr_referenceSpaceType r = Some "local"
      /\ ARViewer.xr_session r = true
      /\ ARViewer.sceneRef (ARViewer.refs w') = Some s
      /\ In Controller s.
Proof.
  cbv zeta. intros Hm Hb Hx.
  pose proof (ARViewer_reachable_ok props win xr es Hm) as H.
  set (w := ARViewer_reachable props win xr es) in *. clearbody w.
  open_scene_ok H.
  rewrite ARViewer_step_click. cbn [ARViewer.dispatch]. rewrite Hm, Hb.
  cbn [andb].
  unfold ARViewer.startARSession. rewrite Hx.
  break_world w. subst.
  destruct isARSupported, isARSessionActive, isObjectPlaced;
    try discriminate Hb.
  all: destruct r as [? ? ? ? ? ? ? ? ? ?]; cbn in *; subst.
  all: unfold calls_since; cbn -[skipn ARViewer.addEventListener_select add].
  all: repeat rewrite <- app_assoc; fold (calls_since (List.length cs)).
  all: rewrite calls_since_app.
  all: repeat split; try reflexivity.
  all: do 3 eexists; repeat split; try reflexivity.
  all: solve [apply ARViewer_listener_registered | apply add_In].
Qed.

Lemma X7_start_session_succeeds_witness :
  let w := ARViewer_reachable Samples.props Samples.win true
             [ARViewer.probe_settled (Resolved true)] in
  let w' := ARViewer.step Samples.props w
              (ARViewer.click_start (Resolved tt) (Resolved tt)) in
  ARViewer.mounted (ARViewer.host w) = true
  /\ shows StartButton (ARViewer.render (ARViewer.state w)) = true
  /\ ARViewer.navigator_xr (ARViewer.host w) = true
  /\ ARViewer.state w' = ARViewer.mkState true true false
  /\ shows StartButton (ARViewer.render (ARViewer.state w')) = false
  /\ ARViewer.session (ARViewer.host w') = Some true.
Proof.
  cbv zeta. split; [reflexivity | split; [reflexivity | split; [reflexivity|]]].
  destruct (X7_start_session_succeeds Samples.props Samples.win true
              [ARViewer.probe_settled (Resolved true)]
              eq_refl eq_refl eq_refl) as (H1 & H2 & _ & H4 & _).
  split; [exact H1 | split; [exact H2 | exact H4]].
Defined.

(** X8.  Starting a session from the button of ARViewer.tsx and then
    receiving the platform's "end" event brings the component back to
    where a session can be started: supported, inactive, not placed, the
    start button shown again, no session left, still mounted. *)
Theorem X8_start_then_end_restores_start_button
    (props : ARViewer.ARViewerProps) (win : Window) (xr : bool)
    (es : list ARViewer.Event) :
  let w := ARViewer_reachable props win xr es in
  let w' := ARViewer.run props w
              [ARViewer.click_start (Resolved tt) (Resolved tt);
               ARViewer.session_ended] in
  ARViewer.mounted (ARViewer.host w) = true ->
  shows StartButton (ARViewer.render (ARViewer.state w)) = true ->
  ARViewer.navigator_xr (ARViewer.host w) = true ->
  ARViewer.state w' = ARViewer.mkState true false false
  /\ ARViewer.render (ARViewer.state w') = [StartButton]
  /\ ARViewer.session (ARViewer.host w') = None
  /\ ARViewer.mounted (ARViewer.host w') = true.
Proof.
  cbv zeta. intros Hm Hb Hx.
  pose proof (ARViewer_reachable_ok props win xr es Hm) as H.
  set (w := ARViewer_reachable props win xr es) in *. clearbody w.
  open_scene_ok H.
  cbn [ARViewer.run fold_left]. rewrite ARViewer_step_click.
  set (w1 := ARViewer.dispatch w _).
  assert (Hw1 : ARViewer.session (ARViewer.host w1) = Some true
               /\ ARViewer.isARSupported (ARViewer.state w1) = true
               /\ ARViewer.mounted (ARViewer.host w1) = true).
  { unfold w1. cbn [ARViewer.dispatch]. rewrite Hm, Hb. cbn [andb].
    unfold ARViewer.startARSession. rewrite Hx.
    break_world w. subst.
    destruct isARSupported, isARSessionActive, isObjectPlaced;
      try discriminate Hb.
    all: repeat split. }
  clearbody w1. destruct Hw1 as (Hs1 & Hsup & Hm1).
  unfold ARViewer.step.
  destruct (ARViewer_commit_session props w1
              (ARViewer.dispatch w1 ARViewer.session_ended)) as [Hcs Hcm].
  rewrite ARViewer_commit_state, Hcs, Hcm.
  cbn [ARViewer.dispatch]. rewrite Hs1. unfold ARViewer.onSessionEnd.
  break_world w1. subst. repeat split.
Qed.

Lemma X8_start_then_end_restores_start_button_witness :
  let w := ARViewer_reachable Samples.props Samples.win true
             [ARViewer.probe_settled (Resolved true)] in
  let w' := ARViewer.run Samples.props w
              [ARViewer.click_start (Resolved tt) (Resolved tt);
               ARViewer.session_ended] in
  ARViewer.mounted (ARViewer.host w) = true
  /\ shows StartButton (ARViewer.render (ARViewer.state w)) = true
  /\ ARViewer.navigator_xr (ARViewer.host w) = true
  /\ ARViewer.state w' = ARViewer.mkState true false false
  /\ ARViewer.render (ARViewer.state w') = [StartButton].
Proof.
  cbv zeta. split; [reflexivity | split; [reflexivity | split; [reflexivity|]]].
  destruct (X8_start_then_end_restores_start_button Samples.props Samples.win
              true [ARViewer.probe_settled (Resolved true)]
              eq_refl eq_refl eq_refl) as (H1 & H2 & _).
  split; [exact H1 | exact H2].
Defined.

(** X9.  When the session is granted but [renderer.xr.setSession]
    rejects, ARViewer.tsx logs the error and stays inactive with the
    start button still shown, yet what happened before the failure
    stays: XR is enabled on the renderer with the "local" reference
    space, and the granted session is live without the component's "end"
    listener.  three.js has stored the session before the promise
    rejected, so [xr.getSession()] returns it, and the teardown of a
    later unmount asks it to end, once.  No controller is wired. *)
Theorem X9_setSession_failure_leaves_session_live
    (props : ARViewer.ARViewerProps) (win : Window) (xr : bool)
    (es : list ARViewer.Event) (error : string) (attached : bool) :
  let w := ARViewer_reachable props win xr es in
  let w' := ARViewer.step props w
              (ARViewer.click_start (Resolved tt) (Rejected error)) in
  let w'' := ARViewer.step props w' (ARViewer.unmount attached) in
  ARViewer.mounted (ARViewer.host w) = true ->
  shows StartButton (ARViewer.render (ARViewer.state w)) = true ->
  ARViewer.navigator_xr (ARViewer.host w) = true ->
  ARViewer.state w'
  = ARViewer.mkState true false (ARViewer.isObjectPlaced (ARViewer.state w))
  /\ shows StartButton (ARViewer.render (ARViewer.state w')) = true
  /\ calls_since (List.length (ARViewer.calls w)) (ARViewer.calls w')
     = [xr_requestSession; console_error "Error starting AR session:" error]
  /\ ARViewer.session (ARViewer.host w') = Some false
  /\ ARViewer.controllerRef (ARViewer.refs w')
     = ARViewer.controllerRef (ARViewer.refs w)
  /\ ARViewer.sceneRef (ARViewer.refs w') = ARViewer.sceneRef (ARViewer.refs w)
  /\ (exists r r' : ARViewer.WebGLRenderer,
      ARViewer.rendererRef (ARViewer.refs w) = Some r
      /\ ARViewer.rendererRef (ARViewer.refs w') = Some r'
      /\ ARViewer.xr_enabled r' = true
      /\ ARViewer.xr_referenceSpaceType r' = Some "local"
      /\ ARViewer.xr_session r' = true
      /\ ARViewer.xr_isPresenting r' = ARViewer.xr_isPresenting r)
  /\ count is_session_end
       (calls_since (List.length (ARViewer.calls w')) (ARViewer.calls w''))
     = 1%nat.
Proof.
  cbv zeta. intros Hm Hb Hx.
  pose proof (ARViewer_reachable_ok props win xr es Hm) as H.
  set (w := ARViewer_reachable props win xr es) in *. clearbody w.
  open_scene_ok H.
  rewrite ARViewer_step_click.
  set (w1 := ARViewer.dispatch w
               (ARViewer.click_start (Resolved tt) (Rejected error))).
  assert (Hm1 : ARViewer.mounted (ARViewer.host w1) = true).
  { unfold w1. cbn [ARViewer.dispatch]. rewrite Hm, Hb. cbn [andb].
    unfold ARViewer.startARSession, ARViewer.startARSession_catch. rewrite Hx.
    break_world w. subst. reflexivity. }
  destruct (ARViewer_unmount_unmounted props w1 attached Hm1) as [_ Hcalls].
  rewrite Hcalls, calls_since_app. clear Hcalls Hm1.
  unfold w1. clear w1. cbn [ARViewer.dispatch]. rewrite Hm, Hb.
  cbn [andb].
  unfold ARViewer.startARSession, ARViewer.startARSession_catch,
    ARViewer_teardown_calls. rewrite Hx.
  break_world w. subst.
  destruct isARSupported, isARSessionActive, isObjectPlaced;
    try discriminate Hb.
  all: destruct r as [? ? ? ? ? ? ? ? ? ?]; cbn in *; subst.
  all: unfold calls_since; cbn -[skipn].
  all: repeat rewrite <- app_assoc; fold (calls_since (List.length cs)).
  all: rewrite calls_since_app.
  all: repeat split; try reflexivity.
  all: try (do 2 eexists; repeat split; reflexivity).
  all: destruct attached; reflexivity.
Qed.

Lemma X9_setSession_failure_leaves_session_live_witness :
  let w := ARViewer_reachable Samples.props Samples.win true
             [ARViewer.probe_settled (Resolved true)] in
  let w' := ARViewer.step Samples.props w
              (ARViewer.click_start (Resolved tt) (Rejected "InvalidStateError")) in
  let w'' := ARViewer.step Samples.props w' (ARViewer.unmount true) in
  ARViewer.mounted (ARViewer.host w) = true
  /\ shows StartButton (ARViewer.render (ARViewer.state w)) = true
  /\ ARViewer.navigator_xr (ARViewer.host w) = true
  /\ ARViewer.state w' = ARViewer.mkState true false false
  /\ ARViewer.session (ARViewer.host w') = Some false
  /\ count is_session_end
       (calls_since (List.length (ARViewer.calls w')) (ARViewer.calls w''))
     = 1%nat.
Proof.
  cbv zeta. split; [reflexivity | split; [reflexivity | split; [reflexivity|]]].
  destruct (X9_setSession_failure_leaves_session_live Samples.props Samples.win
              true [ARViewer.probe_settled (Resolved true)] "InvalidStateError"
              true eq_refl eq_refl eq_refl)
    as (H1 & _ & _ & H3 & _ & _ & _ & H4).
  split; [exact H1 | split; [exact H3 | exact H4]].
Defined.

(** X10.  On a platform without [xr] in [navigator], ARViewer.tsx stays
    unsupported for good: after the mount, whatever events arrive, it
    renders the banner and nothing else, never queries the capability,
    never requests a session, has no session and never places the
    object. *)
Theorem X10_without_xr_nothing_is_requested
    (props : ARViewer.ARViewerProps) (win : Window) (es : list ARViewer.Event) :
  let w := ARViewer_reachable props win false es in
  ARViewer.state w = ARViewer.mkState false false false
  /\ ARViewer.render (ARViewer.state w) = [UnsupportedBanner]
  /\ ARViewer.session (ARViewer.host w) = None
  /\ count is_requestSession (ARViewer.calls w) = 0%nat
  /\ count is_capability_query (ARViewer.calls w) = 0%nat
  /\ count is_position_set (ARViewer.calls w) = 0%nat.
Proof.
  cbv zeta.
  assert (H : let w := ARViewer_reachable props win false es in
              ARViewer.state w = ARViewer.mkState false false false
              /\ ARViewer.session (ARViewer.host w) = None
              /\ ARViewer.probe_pending (ARViewer.host w) = false
              /\ count is_requestSession (ARViewer.calls w) = 0%nat
              /\ count is_capability_query (ARViewer.calls w) = 0%nat
              /\ count is_position_set (ARViewer.calls w) = 0%nat).
  { unfold ARViewer_reachable, ARViewer.run.
    rewrite <- (rev_involutive es).
    induction (rev es) as [|e es' IH]; cbn [rev].
    - cbv zeta. repeat split.
    - rewrite fold_left_app. cbn [fold_left]. cbv zeta in IH |- *.
      set (w := fold_left (ARViewer.step props) (rev es') _) in *.
      clearbody w. destruct IH as (Hs & Hn & Hp & Hr & Hq & Hps).
      assert (Hstep : ARViewer.step props w e = ARViewer.dispatch w e).
      { unfold ARViewer.step, ARViewer.commit.
        assert (Hpl : ARViewer.isObjectPlaced
                        (ARViewer.state (ARViewer.dispatch w e))
                      = ARViewer.isObjectPlaced (ARViewer.state w)).
        { destruct e as [r | rq ss | m | | | win' | att];
            cbn [ARViewer.dispatch].
          - unfold ARViewer.checkARSupport_settled. now rewrite Hp.
          - replace (shows StartButton (ARViewer.render (ARViewer.state w)))
              with false by now rewrite Hs.
            now rewrite andb_false_r.
          - now rewrite Hn.
          - now rewrite Hn.
          - unfold ARViewer.animationLoopCallback. break_world w.
            destruct rendererRef as [[? ? ? ? [[|]|] ? ? ? ? ?]|], objectRef,
              sceneRef, cameraRef; reflexivity.
          - unfold ARViewer.handleResize. break_world w.
            destruct resizeListener, containerRef, cameraRef, rendererRef;
              reflexivity.
          - destruct (ARViewer.mounted (ARViewer.host w)); [|reflexivity].
            unfold ARViewer.mainEffect_cleanup,
              ARViewer.initializeScene_cleanup.
            break_world w.
            destruct rendererRef as [[? ? ? ? ? ? ? xs ? ?]|], sceneCleanup, att;
              cbn; try destruct xs; reflexivity. }
        now rewrite Hpl, Bool.eqb_reflx, andb_false_r. }
      rewrite Hstep. clear Hstep.
      destruct e as [r | rq ss | m | | | win' | att]; cbn [ARViewer.dispatch].
      + unfold ARViewer.checkARSupport_settled. rewrite Hp. repeat split;
          assumption.
      + replace (shows StartButton (ARViewer.render (ARViewer.state w)))
          with false by now rewrite Hs.
        rewrite andb_false_r. repeat split; assumption.
      + rewrite Hn. repeat split; assumption.
      + rewrite Hn. repeat split; assumption.
      + unfold ARViewer.animationLoopCallback. break_world w.
        inversion Hs; subst.
        destruct rendererRef as [[? ? ? ? [[|]|] ? ? ? ? ?]|], objectRef,
          sceneRef, cameraRef; cbn; repeat split;
          unfold count in *; rewrite ?filter_app, ?length_app; cbn;
          try lia.
      + unfold ARViewer.handleResize. break_world w. inversion Hs; subst.
        destruct resizeListener, containerRef, cameraRef, rendererRef;
          repeat split; assumption.
      + destruct (ARViewer.mounted (ARViewer.host w));
          [|repeat split; assumption].
        unfold ARViewer.mainEffect_cleanup, ARViewer.initializeScene_cleanup.
        break_world w. inversion Hs; subst.
        destruct rendererRef as [[? ? ? ? ? ? ? xs ? ?]|], sceneCleanup, att;
          cbn; try destruct xs; cbn; repeat split;
          unfold count in *; rewrite ?filter_app, ?length_app; cbn;
          try lia. }
  cbv zeta in H. destruct H as (Hs & Hn & _ & Hr & Hq & Hps).
  rewrite Hs. repeat split; assumption.
Qed.

(** ** The single-effect ARViewer as it is wired *)


(** X11.  As it is wired, the single-effect ARViewer never places its
    cube: the start button calls the [startARSession] of the component
    body, which binds the session to a renderer of its own and registers
    no select listener, and nothing calls the one inside the effect.
    After any sequence of events the cube is unplaced, unrotated and at
    the origin, the scene holds the two lights only, there is no
    controller, and no position was ever assigned. *)
Theorem X11_single_effect_viewer_never_places
    (props : ARViewer1.ARViewerProps) (win : Window) (xr : bool)
    (es : list ARViewer1.Event) :
  let w := ARViewer1_reachable props win xr es in
  count is_position_set (ARViewer1.calls w) = 0%nat
  /\ count (is_scene_add PlacedObject) (ARViewer1.calls w) = 0%nat
  /\ match ARViewer1.closure w with
     | Some c =>
         ARViewer1.objectPlaced c = false
         /\ ARViewer1.cube c = ARViewer1.mkMesh origin noRotation
         /\ ARViewer1.scene c = [DirectionalLight; AmbientLight]
         /\ ARViewer1.controller c = None
     | None => True
     end.
Proof.
  cbv zeta.
  destruct (ARViewer1_reachable_never_placed props win xr es)
    as (Hc & Hp & Ha & _).
  repeat split; try assumption.
  destruct (ARViewer1.closure _) as [c|]; [|exact I].
  break_untouched Hc. auto.
Qed.


(** X12.  The single-effect ARViewer never asks a session to end: the
    session it starts is bound to a renderer the cleanup does not know,
    so an unmount during a session leaves that session live. *)
Theorem X12_single_effect_viewer_never_ends_session
    (props : ARViewer1.ARViewerProps) (win : Window) (xr : bool)
    (es : list ARViewer1.Event) (attached : bool) :
  let w := ARViewer1_reachable props win xr es in
  let w' := ARViewer1.step props w (ARViewer1.unmount attached) in
  count is_session_end (ARViewer1.calls w') = 0%nat
  /\ ARViewer1.session (ARViewer1.host w') = ARViewer1.session (ARViewer1.host w).
Proof.
  cbv zeta. split.
  - pose proof (ARViewer1_reachable_never_placed props win xr
                  (es ++ [ARViewer1.unmount attached])) as H.
    unfold ARViewer1_reachable, ARViewer1.run in H.
    rewrite fold_left_app in H. cbn [fold_left] in H.
    apply H.
  - unfold ARViewer1.step. cbn [ARViewer1.dispatch].
    destruct (ARViewer1.mounted (ARViewer1.host _)); [|reflexivity].
    unfold ARViewer1.in_closure, ARViewer1.cleanup.
    destruct (ARViewer1_reachable props win xr es) as [st cl hs cs].
    destruct hs, cl as [c|]; [|reflexivity]. break_closure1 c.
    destruct (attached && inDocument), xr_session; reflexivity.
Qed.

(** X13.  While the single-effect ARViewer is mounted and has built its
    scene, the renderer has the size of the window and the camera's
    aspect ratio, with the projection computed from it, is the window's
    width over its height, after any sequence of events. *)
Theorem X13_single_effect_surface_follows_window
    (props : ARViewer1.ARViewerProps) (win : Window) (xr : bool)
    (es : list ARViewer1.Event) (c : ARViewer1.Closure) :
  let w := ARViewer1_reachable props win xr es in
  let now_ := ARViewer1.window (ARViewer1.host w) in
  ARViewer1.mounted (ARViewer1.host w) = true ->
  ARViewer1.closure w = Some c ->
  ARViewer1.size (ARViewer1.renderer c) = (innerWidth now_, innerHeight now_)
  /\ aspect (ARViewer1.camera c) = innerWidth now_ / innerHeight now_
  /\ projectionAspect (ARViewer1.camera c) = aspect (ARViewer1.camera c).
Proof.
  cbv zeta. intros Hm Hc.
  assert (H : ARViewer1_surface_ok (ARViewer1_reachable props win xr es)).
  { clear Hm Hc. unfold ARViewer1_reachable, ARViewer1.run.
    rewrite <- (rev_involutive es).
    induction (rev es) as [|e es' IH]; cbn [rev].
    - unfold ARViewer1_surface_ok. destruct xr; cbn; auto.
    - rewrite fold_left_app. cbn [fold_left]. unfold ARViewer1.step at 1.
      now apply ARViewer1_dispatch_surface_ok. }
  destruct (H Hm) as [_ Hcl]. rewrite Hc in Hcl.
  destruct Hcl as (_ & H1 & H2 & H3). repeat split; congruence.
Qed.

Lemma X13_single_effect_surface_follows_window_witness :
  let w := ARViewer1_reachable Samples.props1 Samples.win true
             [ARViewer1.resize Samples.narrow; ARViewer1.frame] in
  let c := ARViewer1.mkClosure [DirectionalLight; AmbientLight]
             (mkCamera 70 (400 / 600) 0.01 20 (400 / 600))
             (ARViewer1.mkRenderer (400, 600) 1 true true false None false)
             (ARViewer1.mkMesh origin noRotation) None false in
  ARViewer1.mounted (ARViewer1.host w) = true
  /\ ARViewer1.closure w = Some c
  /\ ARViewer1.window (ARViewer1.host w) = Samples.narrow
  /\ ARViewer1.size (ARViewer1.renderer c) = (400, 600)
  /\ aspect (ARViewer1.camera c) = 400 / 600
  /\ projectionAspect (ARViewer1.camera c) = aspect (ARViewer1.camera c).
Proof.
  cbv zeta.
  split; [reflexivity | split; [reflexivity | split; [reflexivity|]]].
  exact (X13_single_effect_surface_follows_window Samples.props1 Samples.win
           true [ARViewer1.resize Samples.narrow; ARViewer1.frame]
           (ARViewer1.mkClosure [DirectionalLight; AmbientLight]
              (mkCamera 70 (400 / 600) 0.01 20 (400 / 600))
              (ARViewer1.mkRenderer (400, 600) 1 true true false None false)
              (ARViewer1.mkMesh origin noRotation) None false)
           eq_refl eq_refl).
Defined.

(** X14.  A successful start from the button of the single-effect
    ARViewer makes the session active and leaves the effect closure (the
    scene, its renderer, the cube) exactly as it was; while the session
    is active the overlay is empty, and when the platform ends the
    session the start button comes back together with the placement
    hint, which this revision shows whenever no session is active. *)
Theorem X14_single_effect_session_lifecycle
    (w : ARViewer1.World) :
  let w1 := ARViewer1.dispatch w (ARViewer1.click_start (Resolved tt) (Resolved tt)) in
  let w2 := ARViewer1.dispatch w1 ARViewer1.session_ended in
  ARViewer1.mounted (ARViewer1.host w) = true ->
  shows StartButton (ARViewer1.render (ARViewer1.state w)) = true ->
  ARViewer1.navigator_xr (ARViewer1.host w) = true ->
  ARViewer1.state w1 = ARViewer1.mkState true true
  /\ ARViewer1.render (ARViewer1.state w1) = []
  /\ ARViewer1.closure w1 = ARViewer1.closure w
  /\ ARViewer1.session (ARViewer1.host w1) = Some true
  /\ ARViewer1.state w2 = ARViewer1.mkState true false
  /\ ARViewer1.render (ARViewer1.state w2) = [StartButton; PlaceHint]
  /\ ARViewer1.session (ARViewer1.host w2) = None.
Proof.
  cbv zeta. intros Hm Hb Hx.
  cbn [ARViewer1.dispatch]. rewrite Hm, Hb. cbn [andb].
  unfold ARViewer1.startARSession. rewrite Hx.
  unfold ARViewer1.onSessionEnd, ARViewer1.in_closure.
  break_world1 w. subst.
  destruct isARSupported, isARSessionActive; try discriminate Hb.
  all: destruct cl; repeat split.
Qed.

Lemma X14_single_effect_session_lifecycle_witness :
  let w := Samples.viewer1_mounted in
  let w1 := ARViewer1.dispatch w (ARViewer1.click_start (Resolved tt) (Resolved tt)) in
  let w2 := ARViewer1.dispatch w1 ARViewer1.session_ended in
  ARViewer1.mounted (ARViewer1.host w) = true
  /\ shows StartButton (ARViewer1.render (ARViewer1.state w)) = true
  /\ ARViewer1.navigator_xr (ARViewer1.host w) = true
  /\ ARViewer1.render (ARViewer1.state w1) = []
  /\ ARViewer1.render (ARViewer1.state w2) = [StartButton; PlaceHint].
Proof.
  cbv zeta. split; [reflexivity | split; [reflexivity | split; [reflexivity|]]].
  destruct (X14_single_effect_session_lifecycle Samples.viewer1_mounted
              eq_refl eq_refl eq_refl) as (_ & H2 & _ & _ & _ & H6 & _).
  split; [exact H2 | exact H6].
Defined.

(** X15.  On a platform without [xr] in [navigator] the single-effect
    ARViewer builds nothing: its effect returns before the scene setup,
    so there is no closure, no call is ever made, and it renders the
    unsupported banner (with the placement hint) after every event. *)
Theorem X15_single_effect_without_xr_builds_nothing
    (props : ARViewer1.ARViewerProps) (win : Window) (es : list ARViewer1.Event) :
  let w := ARViewer1_reachable props win false es in
  ARViewer1.closure w = None
  /\ ARViewer1.calls w = []
  /\ ARViewer1.state w = ARViewer1.mkState false false
  /\ ARViewer1.render (ARViewer1.state w) = [UnsupportedBanner; PlaceHint].
Proof.
  cbv zeta.
  assert (H : let w := ARViewer1_reachable props win false es in
              ARViewer1.closure w = None /\ ARViewer1.calls w = []
              /\ ARViewer1.state w = ARViewer1.mkState false false
              /\ ARViewer1.session (ARViewer1.host w) = None).
  { unfold ARViewer1_reachable, ARViewer1.run.
    rewrite <- (rev_involutive es).
    induction (rev es) as [|e es' IH]; cbn [rev].
    - cbv zeta. repeat split.
    - rewrite fold_left_app. cbn [fold_left]. cbv zeta in IH |- *.
      set (w := fold_left (ARViewer1.step props) (rev es') _) in *.
      clearbody w. destruct IH as (Hc & Hl & Hs & Hn).
      unfold ARViewer1.step. break_world1 w. inversion Hs; subst.
      destruct e as [rq ss | m | | | win' | att]; cbn;
        try (repeat split; reflexivity).
      + rewrite andb_false_r. repeat split.
      + destruct resizeListener; repeat split.
      + destruct mounted; repeat split. }
  cbv zeta in H. destruct H as (Hc & Hl & Hs & _).
  rewrite Hs. repeat split; assumption.
Qed.

(** ** ARShoeApp: when the model can be placed *)

Lemma ARShoeApp_onSelect_shape (ev : ARShoeApp.SelectEvent)
    (c : ARShoeApp.Closure) (w : ARShoeApp.World) :
  let c' := fst (ARShoeApp.onSelect ev c w) in
  let w' := snd (ARShoeApp.onSelect ev c w) in
  ARShoeApp.renderer c' = ARShoeApp.renderer c
  /\ ARShoeApp.host w' = ARShoeApp.host w
  /\ (ARShoeApp.model c = None -> c' = c /\ w' = w)
  /\ (ARShoeApp.model c <> None -> ARShoeApp.model c' <> None).
Proof.
  cbv zeta. unfold ARShoeApp.onSelect.
  destruct (ARShoeApp.pose_of ev), (ARShoeApp.model c) eqn:Hm; cbn;
    repeat split; try congruence; try discriminate.
Qed.

Lemma ARShoeApp_repeat_onSelect_shape (n : nat) (ev : ARShoeApp.SelectEvent) :
  forall (c : ARShoeApp.Closure) (w : ARShoeApp.World),
    let c' := fst (ARShoeApp.repeat_onSelect n ev c w) in
    let w' := snd (ARShoeApp.repeat_onSelect n ev c w) in
    ARShoeApp.renderer c' = ARShoeApp.renderer c
    /\ ARShoeApp.host w' = ARShoeApp.host w
    /\ (ARShoeApp.model c = None -> c' = c /\ w' = w)
    /\ (ARShoeApp.model c <> None -> ARShoeApp.model c' <> None).
Proof.
  induction n as [|n IH]; intros c w; cbn [ARShoeApp.repeat_onSelect]; cbv zeta.
  - cbn. repeat split; auto.
  - destruct (ARShoeApp_onSelect_shape ev c w) as (H1 & H2 & H3 & H4).
    destruct (ARShoeApp.onSelect ev c w) as [c1 w1]. cbn in H1, H2, H3, H4.
    destruct (IH c1 w1) as (K1 & K2 & K3 & K4). cbv zeta in K1, K2, K3, K4.
    split; [congruence | split; [congruence | split]].
    + intros H. destruct (H3 H); subst. now apply K3.
    + intros H. now apply K4, H4.
Qed.

(** The invariant of ARShoeApp together with the fact that nothing is
    positioned while there is no model. *)
Lemma ARShoeApp_dispatch_listener (w : ARShoeApp.World) (e : ARShoeApp.Event) :
  ARShoeApp_listener_needs_model w
  /\ (match ARShoeApp.closure w with
      | Some c => ARShoeApp.model c = None
      | None => True
      end -> count is_position_set (ARShoeApp.calls w) = 0%nat) ->
  ARShoeApp_listener_needs_model (ARShoeApp.dispatch w e)
  /\ (match ARShoeApp.closure (ARShoeApp.dispatch w e) with
      | Some c => ARShoeApp.model c = None
      | None => True
      end -> count is_position_set (ARShoeApp.calls (ARShoeApp.dispatch w e))
             = 0%nat).
Proof.
  unfold ARShoeApp_listener_needs_model. intros [Hi Hc].
  destruct e as [r | | err | | ev | | | ]; cbn [ARShoeApp.dispatch].
  - unfold ARShoeApp.checkARSupport_settled. break_shoe w.
    destruct probe_pending; [destruct r|]; cbn;
      (split; [assumption | intros Hx; specialize (Hc Hx); count_calls]).
  - unfold ARShoeApp.in_closure. break_shoe w.
    destruct cl as [[sc cam [] [m|]]|]; cbn in *; try (split; assumption).
    split; [split|]; discriminate.
  - break_shoe w. split; [assumption|].
    intros Hx. specialize (Hc Hx). count_calls.
  - break_shoe w. destruct cl as [[sc cam [? ? ? ? l] m]|]; cbn in *;
      [|split; assumption].
    split; [|assumption]. destruct Hi as [Hi1 Hi2]. split; [assumption|].
    intros n Hn Hm. destruct (Hi1 Hm) as [Hl _]. subst l.
    discriminate Hn.
  - destruct (ARShoeApp.session (ARShoeApp.host w)) as [n|] eqn:Hs;
      [|split; [rewrite Hs|]; assumption].
    unfold ARShoeApp.in_closure.
    destruct (ARShoeApp.closure w) as [c|] eqn:Hcl;
      [|rewrite Hcl, Hs; split; assumption].
    destruct (ARShoeApp_repeat_onSelect_shape n ev c w) as (K1 & K2 & K3 & K4).
    destruct (ARShoeApp.repeat_onSelect n ev c w) as [c' w'].
    cbv zeta in K1, K2, K3, K4. cbn in K1, K2, K3, K4 |- *.
    destruct Hi as [Hi1 Hi2].
    destruct (ARShoeApp.model c) eqn:Hm.
    + assert (Hm' : ARShoeApp.model c' <> None) by (apply K4; discriminate).
      split; [split|]; intros; solve [contradiction | assumption].
    + destruct (K3 eq_refl) as [-> ->]. rewrite Hm, Hs.
      split; [split|]; try assumption;
        try (intros k Hk; now apply (Hi2 k)).
  - break_shoe w. destruct cl; cbn in *.
    + destruct Hi as [Hi1 _]. split; [split|]; try assumption;
        try (intros n Hn; discriminate).
    + split; [|assumption]. intros n Hn. discriminate.
  - unfold ARShoeApp.in_closure, ARShoeApp.animationLoopCallback.
    break_shoe w. destruct cl as [[sc cam [? ? ? [|] ?] m]|]; cbn in *;
      (split; [assumption | intros Hx; specialize (Hc Hx); count_calls]).
  - unfold ARShoeApp.in_closure, ARShoeApp.cleanup. break_shoe w.
    destruct mounted, cl as [[sc cam [] m]|]; cbn in *;
      (split; [assumption | intros Hx; specialize (Hc Hx); count_calls]).
Qed.

Lemma ARShoeApp_reachable_listener (win : Window) (xr : bool)
    (es : list ARShoeApp.Event) :
  let w := ARShoeApp_reachable win xr es in
  ARShoeApp_listener_needs_model w
  /\ (match ARShoeApp.closure w with
      | Some c => ARShoeApp.model c = None
      | None => True
      end -> count is_position_set (ARShoeApp.calls w) = 0%nat).
Proof.
  cbv zeta. unfold ARShoeApp_reachable, ARShoeApp.run.
  rewrite <- (rev_involutive es).
  induction (rev es) as [|e es' IH]; cbn [rev].
  - unfold ARShoeApp_listener_needs_model.
    destruct xr; cbn; repeat split; try discriminate.
  - rewrite fold_left_app. cbn [fold_left].
    now apply ARShoeApp_dispatch_listener.
Qed.

(** Without a load callback the model stays absent. *)
Lemma ARShoeApp_no_load_no_model (win : Window) (xr : bool)
    (es : list ARShoeApp.Event) :
  forallb (fun e => negb (ARShoeApp_is_model_loaded e)) es = true ->
  match ARShoeApp.closure (ARShoeApp_reachable win xr es) with
  | Some c => ARShoeApp.model c = None
  | None => True
  end.
Proof.
  unfold ARShoeApp_reachable, ARShoeApp.run.
  rewrite <- (rev_involutive es).
  induction (rev es) as [|e es' IH]; cbn [rev]; intros Hes.
  - destruct xr; reflexivity.
  - rewrite forallb_app in Hes. apply andb_prop in Hes.
    destruct Hes as [Hes He]. specialize (IH Hes).
    rewrite fold_left_app. cbn [fold_left].
    set (w := fold_left ARShoeApp.dispatch (rev es') _) in *. clearbody w.
    cbn in He. rewrite andb_true_r in He.
    destruct e as [r | | err | | ev | | | ]; cbn [ARShoeApp.dispatch];
      try discriminate He.
    + unfold ARShoeApp.checkARSupport_settled. break_shoe w.
      destruct probe_pending; [destruct r|]; assumption.
    + break_shoe w. assumption.
    + break_shoe w. destruct cl; assumption.
    + destruct (ARShoeApp.session (ARShoeApp.host w)) as [n|]; [|assumption].
      unfold ARShoeApp.in_closure.
      destruct (ARShoeApp.closure w) as [c|] eqn:Hcl; [|now rewrite Hcl].
      destruct (ARShoeApp_repeat_onSelect_shape n ev c w) as (_ & _ & K3 & _).
      destruct (ARShoeApp.repeat_onSelect n ev c w) as [c' w'].
      cbv zeta in K3. cbn in K3 |- *. destruct (K3 IH) as [-> _]. assumption.
    + break_shoe w. assumption.
    + unfold ARShoeApp.in_closure, ARShoeApp.animationLoopCallback.
      break_shoe w. destruct cl as [[sc cam [? ? ? [|] ?] m]|]; assumption.
    + unfold ARShoeApp.in_closure, ARShoeApp.cleanup. break_shoe w.
      destruct mounted, cl as [[sc cam [] m]|]; assumption.
Qed.

(** A session without a select listener positions nothing, whatever
    follows until the next session starts. *)
Lemma ARShoeApp_no_listener_run (es : list ARShoeApp.Event) :
  forall w : ARShoeApp.World,
    (ARShoeApp.session (ARShoeApp.host w) = None
     \/ ARShoeApp.session (ARShoeApp.host w) = Some 0%nat) ->
    forallb (fun e => negb (ARShoeApp_is_sessionstart e)) es = true ->
    count is_position_set (ARShoeApp.calls (ARShoeApp.run w es))
    = count is_position_set (ARShoeApp.calls w).
Proof.
  induction es as [|e es IH]; intros w Hs Hes; cbn; [reflexivity|].
  cbn in Hes. apply andb_prop in Hes. destruct Hes as [He Hes].
  fold (ARShoeApp.run (ARShoeApp.dispatch w e) es).
  assert (H : (ARShoeApp.session (ARShoeApp.host (ARShoeApp.dispatch w e)) = None
               \/ ARShoeApp.session (ARShoeApp.host (ARShoeApp.dispatch w e))
                  = Some 0%nat)
              /\ count is_position_set (ARShoeApp.calls (ARShoeApp.dispatch w e))
                 = count is_position_set (ARShoeApp.calls w)).
  { destruct e as [r | | err | | ev | | | ]; cbn [ARShoeApp.dispatch];
      try discriminate He.
    - unfold ARShoeApp.checkARSupport_settled. break_shoe w.
      destruct probe_pending; [destruct r|]; cbn; split; try assumption;
        count_calls.
    - unfold ARShoeApp.in_closure. break_shoe w.
      destruct cl as [[sc cam [] [m|]]|]; cbn; split; auto.
    - break_shoe w. split; [assumption | count_calls].
    - destruct Hs as [Hs | Hs]; rewrite Hs; [auto|].
      unfold ARShoeApp.in_closure. cbn [ARShoeApp.repeat_onSelect].
      break_shoe w. destruct cl; cbn; auto.
    - break_shoe w. auto.
    - unfold ARShoeApp.in_closure, ARShoeApp.animationLoopCallback.
      break_shoe w. destruct cl as [[sc cam [? ? ? [|] ?] m]|]; cbn;
        split; try assumption; count_calls.
    - unfold ARShoeApp.in_closure, ARShoeApp.cleanup. break_shoe w.
      destruct mounted, cl as [[sc cam [] m]|]; cbn; split; try assumption;
        count_calls. }
  destruct H as [Hs' Hc]. rewrite (IH _ Hs' Hes). exact Hc.
Qed.

(** X16.  ARShoeApp can place its model only in a session that started
    after the model had loaded: the select listener is registered by the
    "sessionstart" listener, and that one is registered by the loader's
    callback.  If the model never loads, no position is ever assigned;
    and if a session starts while the model is still loading, the select
    events of that session place nothing, even once the model has
    arrived. *)
Theorem X16_model_placed_only_if_loaded_before_session :
  (forall (win : Window) (xr : bool) (es : list ARShoeApp.Event),
      forallb (fun e => negb (ARShoeApp_is_model_loaded e)) es = true ->
      count is_position_set (ARShoeApp.calls (ARShoeApp_reachable win xr es))
      = 0%nat)
  /\ (forall (win : Window) (xr : bool) (es es' : list ARShoeApp.Event)
             (c : ARShoeApp.Closure),
         let w := ARShoeApp_reachable win xr es in
         ARShoeApp.closure w = Some c ->
         ARShoeApp.model c = None ->
         forallb (fun e => negb (ARShoeApp_is_sessionstart e)) es' = true ->
         count is_position_set
           (ARShoeApp.calls
              (ARShoeApp.run (ARShoeApp.dispatch w ARShoeApp.sessionstart) es'))
         = 0%nat).
Proof.
  split.
  - intros win xr es Hes.
    destruct (ARShoeApp_reachable_listener win xr es) as [_ Hc].
    cbv zeta in Hc. apply Hc. now apply ARShoeApp_no_load_no_model.
  - intros win xr es es' c. cbv zeta. intros Hcl Hm Hes'.
    destruct (ARShoeApp_reachable_listener win xr es) as [Hi Hc].
    cbv zeta in Hi, Hc. unfold ARShoeApp_listener_needs_model in Hi.
    rewrite Hcl in Hi, Hc. destruct Hi as [Hi1 _].
    destruct (Hi1 Hm) as [Hl _]. specialize (Hc Hm).
    rewrite ARShoeApp_no_listener_run.
    + cbn [ARShoeApp.dispatch]. rewrite Hcl.
      destruct (ARShoeApp_reachable win xr es) as [? ? [] ?]. exact Hc.
    + right. cbn [ARShoeApp.dispatch]. rewrite Hcl, Hl.
      destruct (ARShoeApp_reachable win xr es) as [? ? [] ?]. reflexivity.
    + exact Hes'.
Qed.

Lemma X16_model_placed_only_if_loaded_before_session_witness :
  let es' := [ARShoeApp.model_loaded;
              ARShoeApp.select (Samples.hit Samples.p1);
              ARShoeApp.select (Samples.hit Samples.p2)] in
  let w := ARShoeApp_reachable Samples.win true [] in
  option_map ARShoeApp.model (ARShoeApp.closure w) = Some None
  /\ forallb (fun e => negb (ARShoeApp_is_sessionstart e)) es' = true
  /\ count is_position_set
       (ARShoeApp.calls
          (ARShoeApp.run (ARShoeApp.dispatch w ARShoeApp.sessionstart) es'))
     = 0%nat.
Proof.
  cbv zeta. split; [reflexivity | split; [reflexivity|]].
  exact (proj2 X16_model_placed_only_if_loaded_before_session
           Samples.win true []
           [ARShoeApp.model_loaded;
            ARShoeApp.select (Samples.hit Samples.p1);
            ARShoeApp.select (Samples.hit Samples.p2)]
           (ARShoeApp.mkClosure [AmbientLight; DirectionalLight]
              (newPerspectiveCamera 75 (800 / 600) 0.1 1000)
              (ARShoeApp.mkRenderer (800, 600) true false true false) None)
           eq_refl eq_refl eq_refl).
Defined.

(** ** ARShoeApp: a run of select events *)

Lemma add_count_occ_same (s : Scene) (o : Node) :
  count_occ Node_eq_dec (add s o) o = 1%nat.
Proof.
  unfold add. rewrite count_occ_app.
  rewrite (proj1 (count_occ_not_In Node_eq_dec _ _) (remove_In Node_eq_dec s o)).
  cbn. destruct (Node_eq_dec o o); [reflexivity | contradiction].
Qed.

Lemma add_count_occ_other (s : Scene) (o x : Node) :
  x <> o -> count_occ Node_eq_dec (add s o) x = count_occ Node_eq_dec s x.
Proof.
  intros Hx. unfold add. rewrite count_occ_app. cbn.
  destruct (Node_eq_dec o x) as [->|_]; [contradiction|].
  rewrite Nat.add_0_r.
  induction s as [|y s IH]; cbn; [reflexivity|].
  destruct (Node_eq_dec o y) as [->|Hy]; cbn.
  - destruct (Node_eq_dec y x) as [->|_]; [contradiction | exact IH].
  - destruct (Node_eq_dec y x); now rewrite IH.
Qed.

(** X17.  In ARShoeApp the last select event with a pose wins: after any
    run of select events through the listener, the model sits at the
    pose of the last event that carried one (or where it was, if none
    did), one position was assigned per event with a pose, the scene
    lists the model exactly once as soon as one event had a pose, and
    every other node is listed as often as before. *)
Theorem X17_last_pose_wins (evs : list ARShoeApp.SelectEvent) :
  forall (c : ARShoeApp.Closure) (w : ARShoeApp.World) (m : ARShoeApp.Object3D),
    ARShoeApp.model c = Some m ->
    let c' := fst (ARShoeApp_selects evs c w) in
    let w' := snd (ARShoeApp_selects evs c w) in
    ARShoeApp.model c'
    = Some (ARShoeApp.mkObject3D
              (match ARShoeApp_last_pose evs with
               | Some p => p
               | None => ARShoeApp.position m
               end)
              (ARShoeApp.scale m))
    /\ count is_position_set (ARShoeApp.calls w')
       = (count is_position_set (ARShoeApp.calls w)
          + List.length (filter ARShoeApp_has_pose evs))%nat
    /\ (ARShoeApp_last_pose evs <> None ->
        count_occ Node_eq_dec (ARShoeApp.scene c') PlacedObject = 1%nat)
    /\ (ARShoeApp_last_pose evs = None -> ARShoeApp.scene c' = ARShoeApp.scene c)
    /\ (forall x : Node,
           x <> PlacedObject ->
           count_occ Node_eq_dec (ARShoeApp.scene c') x
           = count_occ Node_eq_dec (ARShoeApp.scene c) x).
Proof.
  induction evs as [|ev evs IH]; intros c w m Hm; cbv zeta.
  - cbn. rewrite Hm. destruct m. repeat split; try reflexivity; try lia.
    intros H. contradiction.
  - cbn [ARShoeApp_selects ARShoeApp_last_pose filter].
    unfold ARShoeApp_has_pose at 1.
    unfold ARShoeApp.onSelect. rewrite Hm.
    destruct (ARShoeApp.pose_of ev) as [p|] eqn:Hp.
    + set (c1 := ARShoeApp.set_scene _ _).
      set (w1 := ARShoeApp.log (scene_add PlacedObject) _).
      destruct (IH c1 w1 (ARShoeApp.mkObject3D p (ARShoeApp.scale m)) eq_refl)
        as (H1 & H2 & H3 & H4 & H5).
      cbv zeta in H1, H2, H3, H4, H5. cbn in H1.
      split; [|split; [|split; [|split]]].
      * rewrite H1. destruct (ARShoeApp_last_pose evs); reflexivity.
      * rewrite H2. unfold w1. destruct w as [? ? ? cs]. cbn.
        unfold count. rewrite !filter_app, !length_app. cbn. lia.
      * intros _. destruct (ARShoeApp_last_pose evs) eqn:Hl.
        -- apply H3. discriminate.
        -- rewrite (H4 eq_refl). unfold c1. cbn. apply add_count_occ_same.
      * destruct (ARShoeApp_last_pose evs); discriminate.
      * intros x Hx. rewrite (H5 x Hx). unfold c1. cbn.
        now apply add_count_occ_other.
    + destruct (IH c w m Hm) as (H1 & H2 & H3 & H4 & H5).
      cbv zeta in H1, H2, H3, H4, H5.
      split; [|split; [|split; [|split]]].
      * rewrite H1. destruct (ARShoeApp_last_pose evs); reflexivity.
      * exact H2.
      * intros H. apply H3. destruct (ARShoeApp_last_pose evs);
          [discriminate | contradiction].
      * intros H. apply H4. destruct (ARShoeApp_last_pose evs);
          [discriminate | reflexivity].
      * exact H5.
Qed.

Lemma X17_last_pose_wins_witness :
  let evs := [Samples.hit Samples.p1; Samples.hit Samples.p2; Samples.miss] in
  let c := ARShoeApp.mkClosure [AmbientLight; DirectionalLight]
             (newPerspectiveCamera 75 (800 / 600) 0.1 1000)
             (ARShoeApp.mkRenderer (800, 600) true false true true)
             (Some (ARShoeApp.mkObject3D origin (mkVector3 0.5 0.5 0.5))) in
  let c' := fst (ARShoeApp_selects evs c Samples.shoe_in_session) in
  ARShoeApp.model c = Some (ARShoeApp.mkObject3D origin (mkVector3 0.5 0.5 0.5))
  /\ ARShoeApp.model c'
     = Some (ARShoeApp.mkObject3D Samples.p2 (mkVector3 0.5 0.5 0.5))
  /\ count_occ Node_eq_dec (ARShoeApp.scene c') PlacedObject = 1%nat.
Proof.
  cbv zeta. split; [reflexivity|].
  destruct (X17_last_pose_wins
              [Samples.hit Samples.p1; Samples.hit Samples.p2; Samples.miss]
              (ARShoeApp.mkClosure [AmbientLight; DirectionalLight]
                 (newPerspectiveCamera 75 (800 / 600) 0.1 1000)
                 (ARShoeApp.mkRenderer (800, 600) true false true true)
                 (Some (ARShoeApp.mkObject3D origin (mkVector3 0.5 0.5 0.5))))
              Samples.shoe_in_session
              (ARShoeApp.mkObject3D origin (mkVector3 0.5 0.5 0.5)) eq_refl)
    as (H1 & _ & H3 & _).
  split; [exact H1 | apply H3; discriminate].
Defined.

(** X18.  A select event of ARShoeApp yields a pose exactly when the
    renderer has a reference space, the hit-test source was obtained,
    the event has a frame and the first hit-test result has a pose.
    Only the first result is consulted: the results after it never
    matter, and a first result without a pose means no placement even
    when later results have one. *)
Theorem X18_only_first_hit_test_result_counts :
  (forall (ev : ARShoeApp.SelectEvent) (p : Vector3),
      ARShoeApp.pose_of ev = Some p
      <-> ARShoeApp.referenceSpace ev = true
          /\ ARShoeApp.hitTestSource ev = Resolved true
          /\ exists rest, ARShoeApp.frame ev = Some (Some p :: rest))
  /\ (forall (space : bool) (source : Settled bool) (first : option Vector3)
             (rest rest' : list (option Vector3))
             (c : ARShoeApp.Closure) (w : ARShoeApp.World),
         ARShoeApp.onSelect
           (ARShoeApp.mkSelectEvent space source (Some (first :: rest))) c w
         = ARShoeApp.onSelect
             (ARShoeApp.mkSelectEvent space source (Some (first :: rest'))) c w)
  /\ (forall (space : bool) (source : Settled bool)
             (rest : list (option Vector3))
             (c : ARShoeApp.Closure) (w : ARShoeApp.World),
         ARShoeApp.onSelect
           (ARShoeApp.mkSelectEvent space source (Some (None :: rest))) c w
         = (c, w)).
Proof.
  split; [|split].
  - intros [space source fr] p. unfold ARShoeApp.pose_of. cbn. split.
    + destruct space; [|discriminate].
      destruct source as [[|]|]; try discriminate.
      destruct fr as [[|[q|] rest]|]; try discriminate.
      intros H. inversion H; subst. repeat split. now exists rest.
    + intros (-> & -> & rest & ->). reflexivity.
  - intros space source first rest rest' c w.
    unfold ARShoeApp.onSelect, ARShoeApp.pose_of. cbn.
    destruct space, source as [[|]|], first; reflexivity.
  - intros space source rest c w.
    unfold ARShoeApp.onSelect, ARShoeApp.pose_of. cbn.
    destruct space, source as [[|]|]; reflexivity.
Qed.

(** X19.  On a platform without [xr] in [navigator] ARShoeApp never
    queries the capability and stays unsupported: it renders the banner
    after every event. *)
Theorem X19_shoe_app_without_xr_stays_unsupported
    (win : Window) (es : list ARShoeApp.Event) :
  let w := ARShoeApp_reachable win false es in
  ARShoeApp.isARSupported w = false
  /\ ARShoeApp.render (ARShoeApp.isARSupported w) = [UnsupportedBanner]
  /\ count is_capability_query (ARShoeApp.calls w) = 0%nat.
Proof.
  cbv zeta.
  assert (H : let w := ARShoeApp_reachable win false es in
              ARShoeApp.isARSupported w = false
              /\ ARShoeApp.probe_pending (ARShoeApp.host w) = false
              /\ count is_capability_query (ARShoeApp.calls w) = 0%nat).
  { unfold ARShoeApp_reachable, ARShoeApp.run.
    rewrite <- (rev_involutive es).
    induction (rev es) as [|e es' IH]; cbn [rev].
    - cbv zeta. repeat split.
    - rewrite fold_left_app. cbn [fold_left]. cbv zeta in IH |- *.
      set (w := fold_left ARShoeApp.dispatch (rev es') _) in *. clearbody w.
      destruct IH as (Hs & Hp & Hq).
      destruct (ARShoeApp_dispatch_probe w e) as [Hq' Hrest].
      cbv zeta in Hq', Hrest. rewrite Hq', Hq.
      destruct (ARShoeApp_is_probe_settled e) eqn:He.
      + destruct e; try discriminate He. cbn [ARShoeApp.dispatch].
        unfold ARShoeApp.checkARSupport_settled. rewrite Hp. auto.
      + destruct (Hrest eq_refl) as [H1 H2]. rewrite H1, H2. auto. }
  cbv zeta in H. destruct H as (Hs & _ & Hq). rewrite Hs. repeat split.
  exact Hq.
Qed.

Lemma X18_only_first_hit_test_result_counts_witness :
  ARShoeApp.referenceSpace (Samples.hit Samples.p1) = true
  /\ ARShoeApp.hitTestSource (Samples.hit Samples.p1) = Resolved true
  /\ ARShoeApp.pose_of (Samples.hit Samples.p1) = Some Samples.p1.
Proof.
  split; [reflexivity | split; [reflexivity|]].
  apply (proj2 (proj1 X18_only_first_hit_test_result_counts
                  (Samples.hit Samples.p1) Samples.p1)).
  split; [reflexivity | split; [reflexivity | now exists []]].
Defined.

(** ** ARViewer.tsx: restarting, resizing, unmounting *)

Lemma ARViewer_listener_kept (h : bool) (g : ARViewer.Group) :
  In h (ARViewer.select_listeners g) ->
  ARViewer.addEventListener_select h g = g.
Proof.
  intros H. unfold ARViewer.addEventListener_select.
  assert (He : existsb (Bool.eqb h) (ARViewer.select_listeners g) = true).
  { apply existsb_exists. exists h. split; [assumption | apply Bool.eqb_reflx]. }
  now rewrite He.
Qed.

(** X20.  Starting a second session on the same renderer of ARViewer.tsx
    registers nothing twice.  After a session that ended without a
    placement, a new start finds the same controller with the same
    select listeners and leaves it listed once in the scene. *)
Theorem X20_restart_registers_nothing_twice
    (props : ARViewer.ARViewerProps) (win : Window) (xr : bool)
    (es : list ARViewer.Event) :
  let w := ARViewer_reachable props win xr es in
  let start := ARViewer.click_start (Resolved tt) (Resolved tt) in
  let w1 := ARViewer.step props w start in
  let w3 := ARViewer.run props w1 [ARViewer.session_ended; start] in
  ARViewer.mounted (ARViewer.host w) = true ->
  shows StartButton (ARViewer.render (ARViewer.state w)) = true ->
  ARViewer.navigator_xr (ARViewer.host w) = true ->
  ARViewer.isObjectPlaced (ARViewer.state w) = false ->
  ARViewer.controllerRef (ARViewer.refs w3)
  = ARViewer.controllerRef (ARViewer.refs w1)
  /\ ARViewer.state w3 = ARViewer.state w1
  /\ ARViewer.session (ARViewer.host w3) = Some true
  /\ exists s : Scene,
      ARViewer.sceneRef (ARViewer.refs w3) = Some s
      /\ count_occ Node_eq_dec s Controller = 1%nat.
Proof.
  cbv zeta. intros Hm Hb Hx Hp.
  pose proof (ARViewer_reachable_ok props win xr es Hm) as H.
  set (w := ARViewer_reachable props win xr es) in *. clearbody w.
  open_scene_ok H.
  cbn [ARViewer.run fold_left]. rewrite !ARViewer_step_click.
  set (start := ARViewer.click_start (Resolved tt) (Resolved tt)).
  set (w1 := ARViewer.dispatch w start).
  assert (Hw1 : exists g r s1 cam1 o1,
             ARViewer.refs w1
             = ARViewer.mkRefs true (Some (add s1 Controller)) (Some cam1)
                               (Some r) (Some o1) (Some g)
             /\ In false (ARViewer.select_listeners g)
             /\ ARViewer.xr_controller0 r = true
             /\ ARViewer.state w1 = ARViewer.mkState true true false
             /\ ARViewer.session (ARViewer.host w1) = Some true
             /\ ARViewer.mounted (ARViewer.host w1) = true
             /\ ARViewer.navigator_xr (ARViewer.host w1) = true).
  { unfold w1, start. cbn [ARViewer.dispatch]. rewrite Hm, Hb. cbn [andb].
    unfold ARViewer.startARSession. rewrite Hx.
    break_world w. subst.
    destruct isARSupported, isARSessionActive; try discriminate Hb.
    all: destruct r as [? ? ? ? ? ? ? ? ? ?]; cbn in *; subst.
    all: cbn -[ARViewer.addEventListener_select add].
    all: do 5 eexists; repeat split; try reflexivity.
    all: apply ARViewer_listener_registered. }
  clearbody w1.
  destruct Hw1 as (g & r1 & s1 & cam1 & o1 & Hr & Hin & Hc0 & Hs & Hn & Hm1 & Hx1).
  assert (Hend : ARViewer.step props w1 ARViewer.session_ended
               = ARViewer.dispatch w1 ARViewer.session_ended).
  { unfold ARViewer.step, ARViewer.commit. cbn [ARViewer.dispatch].
    rewrite Hn. unfold ARViewer.onSessionEnd.
    destruct w1 as [st rf hs cs]. cbn in *. subst. cbn.
    now rewrite andb_false_r. }
  rewrite Hend. cbn [ARViewer.dispatch]. rewrite Hn.
  unfold ARViewer.onSessionEnd, start.
  destruct w1 as [st rf hs cs]. destruct hs. cbn in *. subst. cbn.
  unfold ARViewer.startARSession. cbn.
  unfold ARViewer.getController0. cbn. rewrite Hc0. cbn.
  rewrite (ARViewer_listener_kept false g Hin).
  repeat split. eexists. split; [reflexivity|]. apply add_count_occ_same.
Qed.

Lemma X20_restart_registers_nothing_twice_witness :
  let w := ARViewer_reachable Samples.props Samples.win true
             [ARViewer.probe_settled (Resolved true)] in
  let start := ARViewer.click_start (Resolved tt) (Resolved tt) in
  let w1 := ARViewer.step Samples.props w start in
  let w3 := ARViewer.run Samples.props w1 [ARViewer.session_ended; start] in
  ARViewer.mounted (ARViewer.host w) = true
  /\ shows StartButton (ARViewer.render (ARViewer.state w)) = true
  /\ ARViewer.navigator_xr (ARViewer.host w) = true
  /\ ARViewer.isObjectPlaced (ARViewer.state w) = false
  /\ ARViewer.controllerRef (ARViewer.refs w3)
     = ARViewer.controllerRef (ARViewer.refs w1)
  /\ ARViewer.state w3 = ARViewer.state w1.
Proof.
  cbv zeta.
  split; [reflexivity | split; [reflexivity | split; [reflexivity |
    split; [reflexivity|]]]].
  destruct (X20_restart_registers_nothing_twice Samples.props Samples.win true
              [ARViewer.probe_settled (Resolved true)]
              eq_refl eq_refl eq_refl eq_refl) as (H1 & H2 & _).
  split; [exact H1 | exact H2].
Defined.

(** X21.  [handleResize] of ARViewer.tsx is idempotent for a given
    window, and it does nothing at all unless the container, the camera
    and the renderer refs are all filled. *)
Theorem X21_handleResize_idempotent_and_guarded (w : ARViewer.World) :
  ARViewer.handleResize (ARViewer.handleResize w) = ARViewer.handleResize w
  /\ (ARViewer.containerRef (ARViewer.refs w) = false
      \/ ARViewer.cameraRef (ARViewer.refs w) = None
      \/ ARViewer.rendererRef (ARViewer.refs w) = None ->
      ARViewer.handleResize w = w).
Proof.
  unfold ARViewer.handleResize, ARViewer.set_size.
  destruct w as [st [ct sc cam rd ob ctl] hs cs]. cbn. split.
  - destruct ct, cam as [[]|], rd as [[? ? ? ? ? ? ? ? ? [|]]|]; reflexivity.
  - intros [H | [H | H]]; rewrite H; [| destruct ct | destruct ct, cam];
      reflexivity.
Qed.

Lemma X21_handleResize_idempotent_and_guarded_witness :
  ARViewer.rendererRef (ARViewer.refs (ARViewer.initial Samples.narrow true))
  = None
  /\ ARViewer.handleResize (ARViewer.initial Samples.narrow true)
     = ARViewer.initial Samples.narrow true.
Proof.
  split; [reflexivity|].
  apply (proj2 (X21_handleResize_idempotent_and_guarded
                  (ARViewer.initial Samples.narrow true))).
  right. right. reflexivity.
Defined.

(** X22.  After ARViewer.tsx is unmounted its resize listener is gone: a
    later resize of the window changes neither the camera nor the
    renderer, nor anything else the component holds. *)
Theorem X22_no_resize_after_unmount
    (props : ARViewer.ARViewerProps) (w : ARViewer.World)
    (attached : bool) (win : Window) :
  ARViewer.mounted (ARViewer.host w) = true ->
  let w1 := ARViewer.step props w (ARViewer.unmount attached) in
  ARViewer.step props w1 (ARViewer.resize win) = ARViewer.set_window win w1.
Proof.
  intros Hm. cbv zeta.
  set (w1 := ARViewer.step props w (ARViewer.unmount attached)).
  assert (H1 : ARViewer.mounted (ARViewer.host w1) = false
               /\ ARViewer.resizeListener (ARViewer.host w1) = false).
  { unfold w1, ARViewer.step, ARViewer.commit. cbn [ARViewer.dispatch].
    rewrite Hm.
    unfold ARViewer.mainEffect_cleanup, ARViewer.initializeScene_cleanup.
    break_world w. subst.
    destruct rendererRef as [[? ? ? ? ? ? ? xs ? ?]|], sceneCleanup, attached;
      cbn; try destruct xs; split; reflexivity. }
  clearbody w1. destruct H1 as [Hm1 Hl1].
  unfold ARViewer.step, ARViewer.commit. cbn [ARViewer.dispatch].
  break_world w1. subst. reflexivity.
Qed.

Lemma X22_no_resize_after_unmount_witness :
  let w1 := ARViewer.step Samples.props Samples.viewer_in_session
              (ARViewer.unmount true) in
  ARViewer.mounted (ARViewer.host Samples.viewer_in_session) = true
  /\ ARViewer.step Samples.props w1 (ARViewer.resize Samples.narrow)
     = ARViewer.set_window Samples.narrow w1.
Proof.
  cbv zeta. split; [reflexivity|].
  exact (X22_no_resize_after_unmount Samples.props Samples.viewer_in_session
           true Samples.narrow eq_refl).
Defined.
